(** * Discussion views of the LMS: a shallow embedding

    This development embeds [lms/djangoapps/django_comment_client/base/views.py]
    (the HTTP handlers of the course discussion forum) and proves properties
    of the handlers: which remote calls and notifications a request can
    issue, when validation rejects a request, and what the responses look
    like.

    The handlers are glue code between collaborators that live elsewhere:
    the comment-service client [cc], the course and permission helpers, the
    response formatters, the notification publisher and the file storage.
    These are taken as interfaces (type classes); every handler is written
    against the interfaces, statement by statement as in the Python source.
    Python exceptions are an explicit outcome.  Every mutating call that a
    handler sends to the comment service and every call to the publisher is
    recorded in a trace; the lookups ([find], [retrieve], [to_dict]) are
    reads of the state of the service and are not recorded. *)

From stdpp Require Import base option list gmap strings pretty.
From Stdlib Require Import ZArith Ascii String Lia.

Open Scope string_scope.
Open Scope Z_scope.

(** ** Python text *)

Module PyStr.

(** [unicode.isspace] on the code points below 256 (request parameters are
    unicode strings; a character of the model is one code point). *)
Definition is_space (c : ascii) : bool :=
  let n := N_of_ascii c in
  ((9 <=? n) && (n <=? 13) || (28 <=? n) && (n <=? 32)
   || (n =? 133) || (n =? 160))%N.

(** [s.lstrip()], [s.rstrip()] and [s.strip()]. *)
Fixpoint lstrip (s : string) : string :=
  match s with
  | EmptyString => EmptyString
  | String c s' => if is_space c then lstrip s' else s
  end.

Fixpoint rstrip (s : string) : string :=
  match s with
  | EmptyString => EmptyString
  | String c s' =>
      match rstrip s' with
      | EmptyString => if is_space c then EmptyString else String c EmptyString
      | r => String c r
      end
  end.

Definition strip (s : string) : string := rstrip (lstrip s).

(** Every character is white space (the empty string included). *)
Fixpoint blank (s : string) : bool :=
  match s with
  | EmptyString => true
  | String c s' => is_space c && blank s'
  end.

(** [s.lower()], which only matters here for the comparison with ['true']. *)
Definition lower_char (c : ascii) : ascii :=
  let n := N_of_ascii c in
  if ((65 <=? n) && (n <=? 90))%N then ascii_of_N (n + 32) else c.

Fixpoint lower (s : string) : string :=
  match s with
  | EmptyString => EmptyString
  | String c s' => String (lower_char c) (lower s')
  end.

(** [s.replace(c, by)] for a one-character pattern. *)
Fixpoint replace_char (c : ascii) (by_ : string) (s : string) : string :=
  match s with
  | EmptyString => EmptyString
  | String d s' =>
      if Ascii.eqb c d then by_ +:+ replace_char c by_ s'
      else String d (replace_char c by_ s')
  end.

(** Decimal digits of [int(s)]. *)
Definition digit (c : ascii) : option Z :=
  let n := N_of_ascii c in
  if ((48 <=? n) && (n <=? 57))%N then Some (Z.of_N n - 48) else None.

Fixpoint digits (acc : Z) (s : string) : option Z :=
  match s with
  | EmptyString => Some acc
  | String c s' =>
      match digit c with
      | Some d => digits (10 * acc + d) s'
      | None => None
      end
  end.

(** [int(s)] of a text: optional surrounding white space, an optional sign
    and at least one decimal digit; [None] stands for [ValueError]. *)
Definition to_int (s : string) : option Z :=
  match strip s with
  | EmptyString => None
  | String "-" EmptyString => None
  | String "+" EmptyString => None
  | String "-" r => Z.opp <$> digits 0 r
  | String "+" r => digits 0 r
  | r => digits 0 r
  end.

End PyStr.

(** ** Values, entities, JSON *)

(** The Python values that occur as attributes of forum entities. *)
Inductive pyval :=
| PNone
| PBool (b : bool)
| PInt (z : Z)
| PStr (s : string).

#[global] Instance pyval_eq_dec : EqDecision pyval.
Proof. solve_decision. Defined.

(** The [attributes] dictionary of a [cc.Thread], [cc.Comment], ... *)
Abbreviation Attrs := (gmap string pyval).

(** [int(v)]: [None] stands for the exception, [TypeError] for the value
    [None] and [ValueError] for a text that is not a number. *)
Definition py_int (v : pyval) : option Z :=
  match v with
  | PNone => None
  | PBool b => Some (if b then 1 else 0)
  | PInt z => Some z
  | PStr s => PyStr.to_int s
  end.

#[warnings="-register-all"]
Inductive json :=
| JNull
| JBool (b : bool)
| JInt (z : Z)
| JStr (s : string)
| JList (l : list json)
| JObj (fields : list (string * json)).


(** ** Requests, courses, responses *)

(** A Django user: [request.user.id] and [request.user.username]. *)
Record User := { user_id : Z; username : string }.

#[global] Instance User_eq_dec : EqDecision User.
Proof. solve_decision. Defined.

(** The part of an [HttpRequest] the handlers read.  [POST] and [GET] are
    the query dictionaries (a key carries its last value). *)
Record Request := {
  user : User;
  POST : gmap string string;
  GET : gmap string string;
  is_ajax : bool;
  view_name : string
}.

(** A course key.  [SlashSeparatedCourseKey.from_deprecated_string] and
    [to_deprecated_string] convert between the key and its text; the URL
    patterns only route well-formed course ids to the handlers, so the key
    syntax is not modelled. *)
Record CourseKey := from_deprecated_string { to_deprecated_string : string }.

#[global] Instance CourseKey_eq_dec : EqDecision CourseKey.
Proof. solve_decision. Defined.

(** The attributes of a course descriptor the handlers read ([course.id],
    [course.allow_anonymous], [course.allow_anonymous_to_peers]). *)
Record Course := {
  course_key_of : CourseKey;
  allow_anonymous : bool;
  allow_anonymous_to_peers : bool
}.

(** Responses.  [JsonError msgs status] is the error envelope
    [{"errors": msgs}]; a single message is wrapped in a list and the
    status defaults to 400. *)
Inductive Response :=
| JsonResponse (body : json)
| JsonError (errors : list string) (status : Z)
| HttpResponseBadRequest (content : string).

Definition json_error (msg : string) : Response := JsonError [msg] 400.

(** Python exceptions that can leave a handler. *)
Inductive exn :=
| Http404
| KeyError (key : string)
| AttributeError (name : string)
| ValueError
| TypeError
| UnboundLocalError (name : string)
| CommentClientRequestError.

Inductive outcome (A : Type) :=
| Returned (a : A)
| Raised (e : exn).
Arguments Returned {A} a.
Arguments Raised {A} e.

(** ** Calls to the collaborators *)

Inductive Kind := KThread | KComment | KCommentable | KUser.

#[global] Instance Kind_eq_dec : EqDecision Kind.
Proof. solve_decision. Defined.

(** The mutating calls of the comment-service client.  A call carries the
    acting forum user ([cc.User.from_django_user(request.user)]) and the
    attributes of the object it is made on. *)
Inductive Call :=
| Save (k : Kind) (obj : Attrs)
| Delete (k : Kind) (obj : Attrs)
| Follow (u : User) (k : Kind) (target : Attrs)
| Unfollow (u : User) (k : Kind) (target : Attrs)
| Vote (u : User) (k : Kind) (target : Attrs) (value : string)
| Unvote (u : User) (k : Kind) (target : Attrs)
| FlagAbuse (u : User) (k : Kind) (target : Attrs)
| UnFlagAbuse (u : User) (k : Kind) (target : Attrs) (remove_all : bool)
| Pin (u : User) (thread_id : string) (target : Attrs)
| UnPin (u : User) (thread_id : string) (target : Attrs).

(** A notification type of the publisher and a [NotificationMessage] with
    the payload that [publish_discussion_notification] builds. *)
Record NotificationType := { type_name : string }.

Record Payload := {
  _schema_version : string;
  action_user_id : Z;
  action_username : string;
  thread_title : pyval;
  link_to_thread : string
}.

Record NotificationMessage := {
  namespace : string;
  msg_type : NotificationType;
  payload : Payload
}.

(** What a handler sends out: a mutating call to the comment service, or a
    call to the notification publisher. *)
Inductive Event :=
| Remote (c : Call)
| RegisterType (t : NotificationType)
| Publish (recipient : Z) (msg : NotificationMessage).

Definition is_publish (e : Event) : bool :=
  match e with Publish _ _ => true | _ => false end.

(** The trace contains a call to [publish_notification_to_user]. *)
Definition publishes (t : list Event) : bool := existsb is_publish t.

(** The recipients of the notifications of a trace, in order. *)
Definition published_to (t : list Event) : list Z :=
  omap (fun e => match e with Publish r _ => Some r | _ => None end) t.

(** The outcome of [store_uploaded_file]: the storage (as its [url] method)
    with the stored name, or one of the two exception classes that [upload]
    tells apart, with [unicode(err)].  The text of a permission error is the
    message for the user: [upload] passes it on as the error of the
    response, and a refusal is raised with its message. *)
Inductive upload_outcome :=
| Stored (storage_url : string -> string) (new_file_name : string)
| PermissionDenied (err : string)
| OtherException (err : string).

(** [urlparse.ParseResult]. *)
Record ParseResult := {
  scheme : string;
  netloc : string;
  path : string;
  params : string;
  query : string;
  fragment : string
}.

(** ** The collaborators as interfaces *)

(** The comment-service client [lms.lib.comment_client].  [Store] is the
    state of the remote service.  [find] is [cc.Thread.find],
    [cc.Comment.find], [cc.Commentable.find] and [cc.User.find] ([None]: the
    not-found error of the client); [perform] runs a mutating call and
    yields the attributes of the object after the client has merged the
    reply into it ([None]: the request failed). *)
Class CommentService (Store : Type) := {
  find : Kind -> Store -> string -> option Attrs;
  perform : Call -> Store -> option (Attrs * Store);
  (** [cc.User.from_django_user(user).to_dict()] *)
  user_to_dict : Store -> User -> option Attrs;
  (** [cc_user.course_id = course_key; cc_user.retrieve(complete=False)] *)
  user_retrieve : Store -> User -> CourseKey -> option Attrs;
  (** the [thread] property of a comment *)
  comment_thread : Attrs -> Attrs
}.

(** Settings and the helpers of the platform that the handlers call. *)
Class Platform := {
  (** [settings.FEATURES] *)
  FEATURES : gmap string bool;
  (** [cc_settings.MAX_COMMENT_DEPTH], [ALLOWED_UPLOAD_FILE_TYPES],
      [MAX_UPLOAD_FILE_SIZE] *)
  MAX_COMMENT_DEPTH : option Z;
  ALLOWED_UPLOAD_FILE_TYPES : list string;
  MAX_UPLOAD_FILE_SIZE : Z;
  (** [None] is [Http404] *)
  get_course_with_access : User -> string -> CourseKey -> option Course;
  get_course_by_id : CourseKey -> option Course;
  has_access : User -> string -> Course -> bool;
  cached_has_permission : User -> string -> CourseKey -> bool;
  check_permissions_by_view :
    User -> CourseKey -> option Attrs -> string -> bool;
  (** [None] is [ValueError]; [Some None] is the result [None] *)
  get_group_id_for_comments_service :
    Request -> CourseKey -> string -> option (option Z);
  get_discussion_categories_ids : Course -> list string;
  (** [add_courseware_context([data], course)] updates [data] in place *)
  add_courseware_context : Course -> Attrs -> Attrs;
  prepare_content : Attrs -> CourseKey -> json;
  get_annotated_content_info : CourseKey -> Attrs -> User -> Attrs -> json;
  get_ability : CourseKey -> Attrs -> User -> json;
  permalink : Attrs -> string;
  get_notification_type : string -> NotificationType;
  store_uploaded_file :
    Request -> string -> list string -> string -> Z -> upload_outcome;
  urlparse : string -> ParseResult;
  urlunparse : ParseResult -> string;
  (** [User.objects.get(username=...)]; [None] is [User.DoesNotExist] *)
  get_user_by_username : string -> option User
}.

(** ** The handlers *)

Section Views.

Context {Store : Type} {CS : CommentService Store} {PF : Platform}.

(** A handler runs against the state of the comment service and yields its
    outcome, the new state and the calls it has sent, in order. *)
Definition M (A : Type) : Type := Store -> outcome A * Store * list Event.

Definition ret {A} (a : A) : M A := fun s => (Returned a, s, []).

Definition raise {A} (e : exn) : M A := fun s => (Raised e, s, []).

Definition bind {A B} (m : M A) (f : A -> M B) : M B :=
  fun s =>
    match m s with
    | (Returned a, s1, t1) =>
        match f a s1 with
        | (r, s2, t2) => (r, s2, (t1 ++ t2)%list)
        end
    | (Raised e, s1, t1) => (Raised e, s1, t1)
    end.

Notation "'let*' x ':=' m 'in' k" := (bind m (fun x => k))
  (at level 10, x name, m at level 100, k at level 200).
Notation "m ';;;' k" := (bind m (fun _ => k))
  (at level 100, k at level 200, right associativity).

Definition expect {A} (e : exn) (o : option A) : M A :=
  match o with
  | Some a => ret a
  | None => raise e
  end.

Definition emit (e : Event) : M unit := fun s => (Returned tt, s, [e]).

(** A mutating call of the client: the call is sent, the service moves to
    its next state, and the caller gets the attributes of the object. *)
Definition remote (c : Call) : M Attrs :=
  fun s =>
    match perform c s with
    | Some (a, s') => (Returned a, s', [Remote c])
    | None => (Raised CommentClientRequestError, s, [Remote c])
    end.

(** [cc.Thread.find(id)] and its siblings. *)
Definition cc_find (k : Kind) (id : string) : M Attrs :=
  fun s => expect CommentClientRequestError (find k s id) s.

(** [obj.name] on a client object, [d[key]] on a query dictionary. *)
Definition attr (obj : Attrs) (name : string) : M pyval :=
  expect (AttributeError name) (obj !! name).

Definition item (d : gmap string string) (key : string) : M string :=
  expect (KeyError key) (d !! key).

(** [post.get(key, 'false').lower() == 'true'] *)
Definition flag_set (post : gmap string string) (key : string) : bool :=
  String.eqb (PyStr.lower (default "false" (post !! key))) "true".

(** [key not in post or not post[key].strip()] *)
Definition missing_or_blank (post : gmap string string) (key : string) : bool :=
  match post !! key with
  | None => true
  | Some v => String.eqb (PyStr.strip v) ""
  end.

(** [settings.FEATURES.get("NOTIFICATIONS_ENABLED", False)] *)
Definition notifications_enabled : bool :=
  default false (FEATURES !! "NOTIFICATIONS_ENABLED").

Definition ajax_content_response (request : Request) (course_key : CourseKey)
    (content : Attrs) : M Response :=
  let* user_info :=
    (fun s => expect CommentClientRequestError
                (user_to_dict s (user request)) s) in
  let annotated_content_info :=
    get_annotated_content_info course_key content (user request) user_info in
  ret (JsonResponse (JObj [
    ("content", prepare_content content course_key);
    ("annotated_content_info", annotated_content_info)])).

(** The tail shared by most handlers: the AJAX envelope or the bare entity. *)
Definition content_response (request : Request) (course_key : CourseKey)
    (content : Attrs) : M Response :=
  if is_ajax request then ajax_content_response request course_key content
  else ret (JsonResponse (prepare_content content course_key)).

(** [publish_discussion_notification].  The publisher is a library outside
    this repository; its two calls are recorded and taken to complete. *)
Definition publish_discussion_notification (msg_type_name course_id : string)
    (original_poster_id action_user_id : Z) (action_username : string)
    (thread_title : pyval) (link_to_thread : string) : M unit :=
  let msg_type := get_notification_type msg_type_name in
  emit (RegisterType msg_type);;;
  let msg := {|
    namespace := course_id;
    msg_type := msg_type;
    payload := {|
      _schema_version := "1";
      action_user_id := action_user_id;
      action_username := action_username;
      thread_title := thread_title;
      link_to_thread := link_to_thread |} |} in
  emit (Publish original_poster_id msg).

(** The exception of a failing [int(v)]: [TypeError] for [None],
    [ValueError] for a text that is not a number. *)
Definition int_error (v : pyval) : exn :=
  match v with
  | PNone => TypeError
  | _ => ValueError
  end.

(** [int(thread.user_id)] *)
Definition original_poster (thread : Attrs) : M Z :=
  let* v := attr thread "user_id" in
  expect (int_error v) (py_int v).

(** The notification step shared by the three notifying handlers: compare the
    acting user with the author of the thread and publish when they differ. *)
Definition notify_author (msg_type_name course_id : string)
    (request : Request) (thread : Attrs) : M unit :=
  let action_user_id := user_id (user request) in
  let* original_poster_id := original_poster thread in
  if negb (action_user_id =? original_poster_id) then
    let* title := attr thread "title" in
    publish_discussion_notification msg_type_name course_id
      original_poster_id action_user_id (username (user request))
      title (permalink thread)
  else ret tt.

(** The patch for older comment services in [create_thread]:
    [if 'pinned' not in thread.attributes: thread['pinned'] = False]. *)
Definition patch_pinned (thread : Attrs) : Attrs :=
  match thread !! "pinned" with
  | None => <["pinned" := PBool false]> thread
  | Some _ => thread
  end.

Definition create_thread (request : Request) (course_id commentable_id : string)
    : M Response :=
  let course_key := from_deprecated_string course_id in
  let* course :=
    expect Http404 (get_course_with_access (user request) "load" course_key) in
  let post := POST request in
  let anonymous :=
    if allow_anonymous course then flag_set post "anonymous" else false in
  let anonymous_to_peers :=
    if allow_anonymous_to_peers course then flag_set post "anonymous_to_peers"
    else false in
  if missing_or_blank post "title" then ret (json_error "Title can't be empty")
  else if missing_or_blank post "body" then
    ret (json_error "Body can't be empty")
  else
    let* thread_type := item post "thread_type" in
    let* body := item post "body" in
    let* title := item post "title" in
    let thread : Attrs :=
      <["anonymous" := PBool anonymous]> (
      <["anonymous_to_peers" := PBool anonymous_to_peers]> (
      <["commentable_id" := PStr commentable_id]> (
      <["course_id" := PStr (to_deprecated_string course_key)]> (
      <["user_id" := PInt (user_id (user request))]> (
      <["thread_type" := PStr thread_type]> (
      <["body" := PStr body]> (
      <["title" := PStr title]> ∅))))))) in
    match get_group_id_for_comments_service request course_key commentable_id with
    | None => ret (HttpResponseBadRequest "Invalid cohort id")
    | Some group_id =>
        let thread :=
          match group_id with
          | Some g => <["group_id" := PInt g]> thread
          | None => thread
          end in
        let* thread := remote (Save KThread thread) in
        let thread := patch_pinned thread in
        (if flag_set post "auto_subscribe" then
           remote (Follow (user request) KThread thread)
         else ret thread);;;
        let data := add_courseware_context course thread in
        content_response request course_key data
    end.

Definition update_thread (request : Request) (course_id thread_id : string)
    : M Response :=
  let post := POST request in
  if missing_or_blank post "title" then ret (json_error "Title can't be empty")
  else if missing_or_blank post "body" then
    ret (json_error "Body can't be empty")
  else
    let course_key := from_deprecated_string course_id in
    let* thread := cc_find KThread thread_id in
    let* body := item post "body" in
    let thread := <["body" := PStr body]> thread in
    let* title := item post "title" in
    let thread := <["title" := PStr title]> thread in
    let thread :=
      match post !! "thread_type" with
      | Some thread_type => <["thread_type" := PStr thread_type]> thread
      | None => thread
      end in
    let save_and_respond (thread : Attrs) : M Response :=
      let* thread := remote (Save KThread thread) in
      content_response request course_key thread in
    match post !! "commentable_id" with
    | Some commentable_id =>
        let* course :=
          expect Http404
            (get_course_with_access (user request) "load" course_key) in
        let commentable_ids := get_discussion_categories_ids course in
        if bool_decide (commentable_id ∈ commentable_ids) then
          save_and_respond (<["commentable_id" := PStr commentable_id]> thread)
        else ret (json_error "Topic doesn't exist")
    | None => save_and_respond thread
    end.

(** [None] as a Python argument. *)
Definition opt_str (o : option string) : pyval :=
  match o with
  | Some s => PStr s
  | None => PNone
  end.

Definition _create_comment (request : Request) (course_key : CourseKey)
    (thread_id parent_id : option string) : M Response :=
  let post := POST request in
  if missing_or_blank post "body" then ret (json_error "Body can't be empty")
  else
    let* course :=
      expect Http404
        (get_course_with_access (user request) "load" course_key) in
    let anonymous :=
      if allow_anonymous course then flag_set post "anonymous" else false in
    let anonymous_to_peers :=
      if allow_anonymous_to_peers course
      then flag_set post "anonymous_to_peers" else false in
    let* body := item post "body" in
    let comment : Attrs :=
      <["anonymous" := PBool anonymous]> (
      <["anonymous_to_peers" := PBool anonymous_to_peers]> (
      <["user_id" := PInt (user_id (user request))]> (
      <["course_id" := PStr (to_deprecated_string course_key)]> (
      <["thread_id" := opt_str thread_id]> (
      <["parent_id" := opt_str parent_id]> (
      <["body" := PStr body]> ∅)))))) in
    let* comment := remote (Save KComment comment) in
    (if flag_set post "auto_subscribe" then
       remote (Follow (user request) KThread (comment_thread comment))
     else ret comment);;;
    (if notifications_enabled && bool_decide (parent_id = None) then
       let* thread :=
         match thread_id with
         | Some tid => cc_find KThread tid
         | None => raise CommentClientRequestError
         end in
       notify_author "open-edx.lms.discussions.reply-to-thread"
         (to_deprecated_string course_key) request thread
     else ret tt);;;
    if is_ajax request then ajax_content_response request course_key comment
    else ret (JsonResponse (prepare_content comment (course_key_of course))).

Definition too_deep : Response := json_error "Comment level too deep".

Definition create_comment (request : Request) (course_id thread_id : string)
    : M Response :=
  match MAX_COMMENT_DEPTH with
  | Some max_depth =>
      if max_depth <? 0 then ret too_deep
      else _create_comment request (from_deprecated_string course_id)
             (Some thread_id) None
  | None =>
      _create_comment request (from_deprecated_string course_id)
        (Some thread_id) None
  end.

(** [cc.Comment.find(comment_id).depth].  The comment service reports the
    depth as an integer; a depth of another type is outside the model and
    ends the run. *)
Definition comment_depth (comment_id : string) : M Z :=
  let* comment := cc_find KComment comment_id in
  let* d := attr comment "depth" in
  match d with
  | PInt z => ret z
  | _ => raise TypeError
  end.

Definition create_sub_comment (request : Request) (course_id comment_id : string)
    : M Response :=
  match MAX_COMMENT_DEPTH with
  | Some max_depth =>
      let* depth := comment_depth comment_id in
      if max_depth <=? depth then ret too_deep
      else _create_comment request (from_deprecated_string course_id)
             None (Some comment_id)
  | None =>
      _create_comment request (from_deprecated_string course_id)
        None (Some comment_id)
  end.

Definition delete_thread (request : Request) (course_id thread_id : string)
    : M Response :=
  let course_key := from_deprecated_string course_id in
  let* thread := cc_find KThread thread_id in
  let* thread := remote (Delete KThread thread) in
  ret (JsonResponse (prepare_content thread course_key)).

Definition update_comment (request : Request) (course_id comment_id : string)
    : M Response :=
  let course_key := from_deprecated_string course_id in
  let* comment := cc_find KComment comment_id in
  if missing_or_blank (POST request) "body" then
    ret (json_error "Body can't be empty")
  else
    let* body := item (POST request) "body" in
    let comment := <["body" := PStr body]> comment in
    let* comment := remote (Save KComment comment) in
    content_response request course_key comment.

Definition endorse_comment (request : Request) (course_id comment_id : string)
    : M Response :=
  let course_key := from_deprecated_string course_id in
  let* comment := cc_find KComment comment_id in
  let comment :=
    <["endorsed" := PBool (flag_set (POST request) "endorsed")]> comment in
  let comment :=
    <["endorsement_user_id" := PInt (user_id (user request))]> comment in
  let* comment := remote (Save KComment comment) in
  ret (JsonResponse (prepare_content comment course_key)).

Definition openclose_thread (request : Request) (course_id thread_id : string)
    : M Response :=
  let course_key := from_deprecated_string course_id in
  let* thread := cc_find KThread thread_id in
  let thread :=
    <["closed" := PBool (flag_set (POST request) "closed")]> thread in
  let* thread := remote (Save KThread thread) in
  ret (JsonResponse (JObj [
    ("content", prepare_content thread course_key);
    ("ability", get_ability course_key thread (user request))])).

Definition delete_comment (request : Request) (course_id comment_id : string)
    : M Response :=
  let course_key := from_deprecated_string course_id in
  let* comment := cc_find KComment comment_id in
  let* comment := remote (Delete KComment comment) in
  ret (JsonResponse (prepare_content comment course_key)).

Definition vote_for_comment (request : Request)
    (course_id comment_id value : string) : M Response :=
  let course_key := from_deprecated_string course_id in
  let user := user request in
  let* comment := cc_find KComment comment_id in
  let* comment := remote (Vote user KComment comment value) in
  ret (JsonResponse (prepare_content comment course_key)).

Definition undo_vote_for_comment (request : Request)
    (course_id comment_id : string) : M Response :=
  let course_key := from_deprecated_string course_id in
  let user := user request in
  let* comment := cc_find KComment comment_id in
  let* comment := remote (Unvote user KComment comment) in
  ret (JsonResponse (prepare_content comment course_key)).

Definition vote_for_thread (request : Request)
    (course_id thread_id value : string) : M Response :=
  let course_key := from_deprecated_string course_id in
  let user := user request in
  let* thread := cc_find KThread thread_id in
  let* thread := remote (Vote user KThread thread value) in
  (if notifications_enabled then
     notify_author "open-edx.lms.discussions.post-upvoted" course_id
       request thread
   else ret tt);;;
  ret (JsonResponse (prepare_content thread course_key)).

Definition flag_abuse_for_thread (request : Request)
    (course_id thread_id : string) : M Response :=
  let course_key := from_deprecated_string course_id in
  let user := user request in
  let* thread := cc_find KThread thread_id in
  let* thread := remote (FlagAbuse user KThread thread) in
  ret (JsonResponse (prepare_content thread course_key)).

(** [cached_has_permission(request.user, 'openclose_thread', course_key)
     or has_access(request.user, 'staff', course)] *)
Definition may_remove_all (request : Request) (course_key : CourseKey)
    (course : Course) : bool :=
  cached_has_permission (user request) "openclose_thread" course_key
  || has_access (user request) "staff" course.

Definition un_flag_abuse_for_thread (request : Request)
    (course_id thread_id : string) : M Response :=
  let user := user request in
  let course_key := from_deprecated_string course_id in
  let* course := expect Http404 (get_course_by_id course_key) in
  let* thread := cc_find KThread thread_id in
  let remove_all := may_remove_all request course_key course in
  let* thread := remote (UnFlagAbuse user KThread thread remove_all) in
  ret (JsonResponse (prepare_content thread course_key)).

Definition flag_abuse_for_comment (request : Request)
    (course_id comment_id : string) : M Response :=
  let course_key := from_deprecated_string course_id in
  let user := user request in
  let* comment := cc_find KComment comment_id in
  let* comment := remote (FlagAbuse user KComment comment) in
  ret (JsonResponse (prepare_content comment course_key)).

Definition un_flag_abuse_for_comment (request : Request)
    (course_id comment_id : string) : M Response :=
  let user := user request in
  let course_key := from_deprecated_string course_id in
  let* course := expect Http404 (get_course_by_id course_key) in
  let remove_all := may_remove_all request course_key course in
  let* comment := cc_find KComment comment_id in
  let* comment := remote (UnFlagAbuse user KComment comment remove_all) in
  ret (JsonResponse (prepare_content comment course_key)).

Definition undo_vote_for_thread (request : Request)
    (course_id thread_id : string) : M Response :=
  let course_key := from_deprecated_string course_id in
  let user := user request in
  let* thread := cc_find KThread thread_id in
  let* thread := remote (Unvote user KThread thread) in
  ret (JsonResponse (prepare_content thread course_key)).

Definition pin_thread (request : Request) (course_id thread_id : string)
    : M Response :=
  let course_key := from_deprecated_string course_id in
  let user := user request in
  let* thread := cc_find KThread thread_id in
  let* thread := remote (Pin user thread_id thread) in
  ret (JsonResponse (prepare_content thread course_key)).

Definition un_pin_thread (request : Request) (course_id thread_id : string)
    : M Response :=
  let course_key := from_deprecated_string course_id in
  let user := user request in
  let* thread := cc_find KThread thread_id in
  let* thread := remote (UnPin user thread_id thread) in
  ret (JsonResponse (prepare_content thread course_key)).

Definition follow_thread (request : Request) (course_id thread_id : string)
    : M Response :=
  let user := user request in
  let* thread := cc_find KThread thread_id in
  remote (Follow user KThread thread);;;
  (if notifications_enabled then
     notify_author "open-edx.lms.discussions.thread-followed" course_id
       request thread
   else ret tt);;;
  ret (JsonResponse (JObj [])).

Definition follow_commentable (request : Request)
    (course_id commentable_id : string) : M Response :=
  let user := user request in
  let* commentable := cc_find KCommentable commentable_id in
  remote (Follow user KCommentable commentable);;;
  ret (JsonResponse (JObj [])).

Definition follow_user (request : Request)
    (course_id followed_user_id : string) : M Response :=
  let user := user request in
  let* followed_user := cc_find KUser followed_user_id in
  remote (Follow user KUser followed_user);;;
  ret (JsonResponse (JObj [])).

Definition unfollow_thread (request : Request) (course_id thread_id : string)
    : M Response :=
  let user := user request in
  let* thread := cc_find KThread thread_id in
  remote (Unfollow user KThread thread);;;
  ret (JsonResponse (JObj [])).

Definition unfollow_commentable (request : Request)
    (course_id commentable_id : string) : M Response :=
  let user := user request in
  let* commentable := cc_find KCommentable commentable_id in
  remote (Unfollow user KCommentable commentable);;;
  ret (JsonResponse (JObj [])).

Definition unfollow_user (request : Request)
    (course_id followed_user_id : string) : M Response :=
  let user := user request in
  let* followed_user := cc_find KUser followed_user_id in
  remote (Unfollow user KUser followed_user);;;
  ret (JsonResponse (JObj [])).

Definition upload_error_message : string :=
  "Error uploading file. Please contact the site administrator. Thank you.".

(** The envelope [{'result': {'msg': .., 'error': .., 'file_url': ..}}]. *)
Definition upload_result (msg error file_url : string) : Response :=
  JsonResponse (JObj [
    ("result", JObj [
      ("msg", JStr msg); ("error", JStr error); ("file_url", JStr file_url)])]).

(** [upload].  [now] is [str(time.time())] and [rnd] the value of
    [random.randint(0, 100000)].  The local variable [file_storage] is
    bound only when [store_uploaded_file] returns.  The [print] and the
    [logging.critical] of an unexpected error write to the server log and
    are not part of the response. *)
Definition upload (request : Request) (course_id : string)
    (now : string) (rnd : Z) : M Response :=
  let base_file_name := PyStr.replace_char "." (pretty rnd) now in
  let '(file_storage, new_file_name, error) :=
    match store_uploaded_file request "file-upload" ALLOWED_UPLOAD_FILE_TYPES
            base_file_name MAX_UPLOAD_FILE_SIZE with
    | Stored file_storage new_file_name => (Some file_storage, new_file_name, "")
    | PermissionDenied err => (None, "", err)
    | OtherException err => (None, "", upload_error_message)
    end in
  if String.eqb error "" then
    let result := "Good" in
    let* file_storage := expect (UnboundLocalError "file_storage") file_storage in
    let file_url := file_storage new_file_name in
    let parsed_url := urlparse file_url in
    let file_url :=
      urlunparse {|
        scheme := scheme parsed_url;
        netloc := netloc parsed_url;
        path := path parsed_url;
        params := ""; query := ""; fragment := "" |} in
    ret (upload_result result error file_url)
  else ret (upload_result "" error "").

(** [cc_user[key]] for one of the two counts, which the comment service
    reports as integers; a count of another type is outside the model and
    ends the run. *)
Definition count_of (cc_user : Attrs) (key : string) : M Z :=
  let* v := expect (KeyError key) (cc_user !! key) in
  match v with
  | PInt z => ret z
  | _ => raise TypeError
  end.

Definition user_json (u : User) : json :=
  JObj [("id", JInt (user_id u)); ("username", JStr (username u))].

Definition users (request : Request) (course_id : string) : M Response :=
  let course_key := from_deprecated_string course_id in
  match get_course_with_access (user request) "load_forum" course_key with
  | None => ret (JsonError [] 404)
  | Some course =>
      match GET request !! "username" with
      | None => ret (JsonError ["username parameter is required"] 400)
      | Some username =>
          let* user_objs :=
            match get_user_by_username username with
            | Some matched_user =>
                let* cc_user :=
                  (fun s => expect CommentClientRequestError
                              (user_retrieve s matched_user course_key) s) in
                let* threads_count := count_of cc_user "threads_count" in
                let* comments_count := count_of cc_user "comments_count" in
                if 0 <? threads_count + comments_count
                then ret [user_json matched_user]
                else ret []
            | None => ret []
            end in
          ret (JsonResponse (JObj [("users", JList user_objs)]))
      end
  end.

(** *** The permission gate and the routes *)

Definition fetch_content (kwargs : gmap string string) : M (option Attrs) :=
  match kwargs !! "thread_id" with
  | Some thread_id =>
      let* content := cc_find KThread thread_id in ret (Some content)
  | None =>
      match kwargs !! "comment_id" with
      | Some comment_id =>
          let* content := cc_find KComment comment_id in ret (Some content)
      | None => ret None
      end
  end.

Definition permitted (fn : Request -> M Response)
    (request : Request) (kwargs : gmap string string) : M Response :=
  let* course_id := item kwargs "course_id" in
  let course_key := from_deprecated_string course_id in
  let* content := fetch_content kwargs in
  if check_permissions_by_view (user request) course_key content
       (view_name request)
  then fn request
  else ret (JsonError ["unauthorized"] 401).

End Views.

(** The views of the module, as the URL configuration names them. *)
Inductive View :=
| create_thread_view | update_thread_view | create_comment_view
| delete_thread_view | update_comment_view | endorse_comment_view
| openclose_thread_view | create_sub_comment_view | delete_comment_view
| vote_for_comment_view | undo_vote_for_comment_view | vote_for_thread_view
| flag_abuse_for_thread_view | un_flag_abuse_for_thread_view
| flag_abuse_for_comment_view | un_flag_abuse_for_comment_view
| undo_vote_for_thread_view | pin_thread_view | un_pin_thread_view
| follow_thread_view | follow_commentable_view | follow_user_view
| unfollow_thread_view | unfollow_commentable_view | unfollow_user_view
| upload_view | users_view.

#[global] Instance View_eq_dec : EqDecision View.
Proof. solve_decision. Defined.

(** The views that can notify the author of a thread. *)
Definition notifying (v : View) : bool :=
  match v with
  | create_comment_view | vote_for_thread_view | follow_thread_view => true
  | _ => false
  end.

(** The two readings of the process environment that [upload] makes:
    [str(time.time())] and [random.randint(0, 100000)]. *)
Record Clock := { now : string; rnd : Z }.

Section Routes.

Context {Store : Type} {CS : CommentService Store} {PF : Platform}.

(** Binding of a keyword argument of the route to a parameter of the view;
    a missing argument is the [TypeError] of the call. *)
Definition arg (kwargs : gmap string string) (name : string)
    (k : string -> M (Store := Store) Response) : M (Store := Store) Response :=
  match kwargs !! name with
  | Some v => k v
  | None => raise TypeError
  end.

(** Two-parameter views [fn(request, course_id, <second>)]. *)
Definition with_args (kwargs : gmap string string) (second : string)
    (fn : string -> string -> M (Store := Store) Response)
    : M (Store := Store) Response :=
  arg kwargs "course_id" (fun course_id => arg kwargs second (fn course_id)).

(** The undecorated function of a view applied to the route arguments. *)
Definition view_function (v : View) (clock : Clock)
    (kwargs : gmap string string) (request : Request)
    : M (Store := Store) Response :=
  match v with
  | create_thread_view =>
      with_args kwargs "commentable_id" (create_thread request)
  | update_thread_view => with_args kwargs "thread_id" (update_thread request)
  | create_comment_view => with_args kwargs "thread_id" (create_comment request)
  | delete_thread_view => with_args kwargs "thread_id" (delete_thread request)
  | update_comment_view => with_args kwargs "comment_id" (update_comment request)
  | endorse_comment_view =>
      with_args kwargs "comment_id" (endorse_comment request)
  | openclose_thread_view =>
      with_args kwargs "thread_id" (openclose_thread request)
  | create_sub_comment_view =>
      with_args kwargs "comment_id" (create_sub_comment request)
  | delete_comment_view => with_args kwargs "comment_id" (delete_comment request)
  | vote_for_comment_view =>
      with_args kwargs "comment_id" (fun course_id comment_id =>
        arg kwargs "value" (vote_for_comment request course_id comment_id))
  | undo_vote_for_comment_view =>
      with_args kwargs "comment_id" (undo_vote_for_comment request)
  | vote_for_thread_view =>
      with_args kwargs "thread_id" (fun course_id thread_id =>
        arg kwargs "value" (vote_for_thread request course_id thread_id))
  | flag_abuse_for_thread_view =>
      with_args kwargs "thread_id" (flag_abuse_for_thread request)
  | un_flag_abuse_for_thread_view =>
      with_args kwargs "thread_id" (un_flag_abuse_for_thread request)
  | flag_abuse_for_comment_view =>
      with_args kwargs "comment_id" (flag_abuse_for_comment request)
  | un_flag_abuse_for_comment_view =>
      with_args kwargs "comment_id" (un_flag_abuse_for_comment request)
  | undo_vote_for_thread_view =>
      with_args kwargs "thread_id" (undo_vote_for_thread request)
  | pin_thread_view => with_args kwargs "thread_id" (pin_thread request)
  | un_pin_thread_view => with_args kwargs "thread_id" (un_pin_thread request)
  | follow_thread_view => with_args kwargs "thread_id" (follow_thread request)
  | follow_commentable_view =>
      with_args kwargs "commentable_id" (follow_commentable request)
  | follow_user_view =>
      with_args kwargs "followed_user_id" (follow_user request)
  | unfollow_thread_view =>
      with_args kwargs "thread_id" (unfollow_thread request)
  | unfollow_commentable_view =>
      with_args kwargs "commentable_id" (unfollow_commentable request)
  | unfollow_user_view =>
      with_args kwargs "followed_user_id" (unfollow_user request)
  | upload_view =>
      arg kwargs "course_id" (fun course_id =>
        upload request course_id (now clock) (rnd clock))
  | users_view => arg kwargs "course_id" (users request)
  end.

(** Every view but [upload] and [users] is wrapped in [permitted]. *)
Definition gated (v : View) : bool :=
  match v with
  | upload_view | users_view => false
  | _ => true
  end.

(** A request routed to view [v] with the keyword arguments [kwargs]. *)
Definition dispatch (v : View) (clock : Clock) (kwargs : gmap string string)
    (request : Request) : M (Store := Store) Response :=
  if gated v then
    permitted (view_function v clock kwargs) request kwargs
  else view_function v clock kwargs request.

End Routes.

(** ** A reference instance of the collaborators

    A small comment service and platform against which the handlers can be
    run.  The service keeps threads and comments by id and answers every
    other call by echoing the object; the platform knows one course, one
    staff member and one moderator. *)

Module Reference.

Record store := {
  threads : gmap string Attrs;
  comments : gmap string Attrs
}.

Definition id_of (obj : Attrs) (fresh : string) : string :=
  match obj !! "id" with
  | Some (PStr i) => i
  | _ => fresh
  end.

Definition lookup_kind (k : Kind) (s : store) (id : string) : option Attrs :=
  match k with
  | KThread => threads s !! id
  | KComment => comments s !! id
  | KCommentable | KUser => Some {[ "id" := PStr id ]}
  end.

Definition apply_call (c : Call) (s : store) : option (Attrs * store) :=
  match c with
  | Save KThread obj =>
      let id := id_of obj "thread-new" in
      let obj' := <["id" := PStr id]> obj in
      Some (obj', {| threads := <[id := obj']> (threads s);
                     comments := comments s |})
  | Save KComment obj =>
      let id := id_of obj "comment-new" in
      let obj' := <["id" := PStr id]> obj in
      Some (obj', {| threads := threads s;
                     comments := <[id := obj']> (comments s) |})
  | Save _ obj => Some (obj, s)
  | Delete KThread obj =>
      Some (obj, {| threads := delete (id_of obj "") (threads s);
                    comments := comments s |})
  | Delete KComment obj =>
      Some (obj, {| threads := threads s;
                    comments := delete (id_of obj "") (comments s) |})
  | Delete _ obj => Some (obj, s)
  | Follow _ _ target | Unfollow _ _ target | Vote _ _ target _
  | Unvote _ _ target | FlagAbuse _ _ target | UnFlagAbuse _ _ target _
  | Pin _ _ target | UnPin _ _ target => Some (target, s)
  end.

Definition service : CommentService store := {|
  find := lookup_kind;
  perform := apply_call;
  user_to_dict _ u := Some {[ "id" := PInt (user_id u) ]};
  user_retrieve _ u _ :=
    Some (<["threads_count" := PInt (if user_id u =? 7 then 2 else 0)]>
          (<["comments_count" := PInt 0]> {[ "id" := PInt (user_id u) ]}));
  comment_thread c :=
    <["id" := default PNone (c !! "thread_id")]> {[ "type" := PStr "thread" ]}
|}.

Fixpoint split_at (c : ascii) (s : string) : string * string :=
  match s with
  | EmptyString => (EmptyString, EmptyString)
  | String d s' =>
      if Ascii.eqb c d then (EmptyString, s')
      else let '(a, b) := split_at c s' in (String d a, b)
  end.

(** A cut-down [urlparse]: [scheme://netloc/path?query#fragment]. *)
Definition simple_urlparse (url : string) : ParseResult :=
  let '(url, fragment) := split_at "#" url in
  let '(url, query) := split_at "?" url in
  let '(scheme, rest) :=
    match String.index 0 "://" url with
    | Some i => (String.substring 0 i url,
                 String.substring (i + 3) (String.length url) url)
    | None => ("", url)
    end in
  let '(netloc, path) :=
    match scheme with
    | EmptyString => ("", rest)
    | _ => match String.index 0 "/" rest with
           | Some i => (String.substring 0 i rest,
                        String.substring i (String.length rest) rest)
           | None => (rest, "")
           end
    end in
  {| scheme := scheme; netloc := netloc; path := path;
     params := ""; query := query; fragment := fragment |}.

Definition simple_urlunparse (r : ParseResult) : string :=
  let url := if String.eqb (params r) "" then path r
             else path r +:+ ";" +:+ params r in
  let url := if String.eqb (netloc r) "" then url
             else "//" +:+ netloc r +:+ url in
  let url := if String.eqb (scheme r) "" then url
             else scheme r +:+ ":" +:+ url in
  let url := if String.eqb (query r) "" then url
             else url +:+ "?" +:+ query r in
  if String.eqb (fragment r) "" then url else url +:+ "#" +:+ fragment r.

Definition json_of (v : pyval) : json :=
  match v with
  | PNone => JNull
  | PBool b => JBool b
  | PInt z => JInt z
  | PStr s => JStr s
  end.

Definition demo_course : Course := {|
  course_key_of := from_deprecated_string "edX/Demo/2015";
  allow_anonymous := true;
  allow_anonymous_to_peers := false
|}.

Definition load_course (k : CourseKey) : option Course :=
  if String.eqb (to_deprecated_string k) "edX/Demo/2015" then Some demo_course
  else None.

Definition alice : User := {| user_id := 7; username := "alice" |}.
Definition bob : User := {| user_id := 8; username := "bob" |}.
Definition staff : User := {| user_id := 1; username := "staff" |}.
Definition moderator : User := {| user_id := 2; username := "moderator" |}.

(** The platform, for given feature flags, maximum depth and outcome of
    the file storage. *)
Definition platform (features : gmap string bool) (max_depth : option Z)
    (stored : upload_outcome) : Platform := {|
  FEATURES := features;
  MAX_COMMENT_DEPTH := max_depth;
  ALLOWED_UPLOAD_FILE_TYPES := [".jpg"; ".png"; ".gif"];
  MAX_UPLOAD_FILE_SIZE := 1048576;
  get_course_with_access _ _ k := load_course k;
  get_course_by_id := load_course;
  has_access u _ _ := user_id u =? 1;
  cached_has_permission u _ _ := user_id u =? 2;
  check_permissions_by_view _ _ _ _ := true;
  get_group_id_for_comments_service _ _ _ := Some None;
  get_discussion_categories_ids _ := ["general"; "week1"];
  add_courseware_context _ data :=
    <["courseware_title" := PStr "Week 1"]> data;
  prepare_content content _ :=
    JObj ((fun kv => (kv.1, json_of kv.2)) <$> map_to_list content);
  get_annotated_content_info _ _ _ _ := JObj [];
  get_ability _ _ _ := JObj [("editable", JBool true)];
  permalink thread :=
    match thread !! "id" with
    | Some (PStr i) => "/discussion/threads/" +:+ i
    | _ => "/discussion/threads/"
    end;
  get_notification_type name := {| type_name := name |};
  store_uploaded_file _ _ _ _ _ := stored;
  urlparse := simple_urlparse;
  urlunparse := simple_urlunparse;
  get_user_by_username name :=
    if String.eqb name "alice" then Some alice
    else if String.eqb name "bob" then Some bob
    else None
|}.

Definition enabled : gmap string bool := {[ "NOTIFICATIONS_ENABLED" := true ]}.

Definition no_upload : upload_outcome := OtherException "no file".

(** A thread by alice and a comment of depth 1 in it. *)
Definition thread1 : Attrs :=
  <["id" := PStr "t1"]> (<["user_id" := PStr "7"]> (
  <["title" := PStr "Welcome"]> (<["body" := PStr "Hello"]> (
  <["thread_type" := PStr "discussion"]> (
  <["commentable_id" := PStr "general"]> ∅))))).

Definition comment1 : Attrs :=
  <["id" := PStr "c1"]> (<["user_id" := PStr "8"]> (
  <["thread_id" := PStr "t1"]> (<["depth" := PInt 1]> (
  <["body" := PStr "Hi"]> ∅)))).

Definition store1 : store := {|
  threads := {[ "t1" := thread1 ]};
  comments := {[ "c1" := comment1 ]}
|}.

Definition post_of (l : list (string * string)) : gmap string string :=
  list_to_map l.

Definition request_by (u : User) (post : list (string * string)) : Request := {|
  user := u; POST := post_of post; GET := ∅; is_ajax := false;
  view_name := ""
|}.

End Reference.

(** ** Vocabulary of the statements *)

(** The three components of a run: what the handler returned or raised,
    the state it left the comment service in, and the calls it sent. *)
Definition result {S A} (x : outcome A * S * list Event) : outcome A := x.1.1.
Definition final {S A} (x : outcome A * S * list Event) : S := x.1.2.
Definition trace {S A} (x : outcome A * S * list Event) : list Event := x.2.

(** A required text field is absent from the payload, empty, or consists of
    white space only. *)
Definition lacks_text (post : gmap string string) (key : string) : Prop :=
  match post !! key with
  | None => True
  | Some v => PyStr.blank v = true
  end.

(** The two validation errors of the create and update handlers. *)
Definition is_validation_error (o : outcome Response) : Prop :=
  o = Returned (json_error "Title can't be empty")
  \/ o = Returned (json_error "Body can't be empty").

(** [int(thread.user_id)], the author of a thread, when it is a number. *)
Definition thread_author (thread : Attrs) : option Z :=
  thread !! "user_id" ≫= py_int.

(** The create and update requests. *)
Inductive Submission :=
| to_create_thread (course_id commentable_id : string)
| to_update_thread (course_id thread_id : string)
| to_create_comment (course_key : CourseKey) (thread_id parent_id : option string)
| to_update_comment (course_id comment_id : string).

(** The text fields a submission must carry. *)
Definition required (e : Submission) : list string :=
  match e with
  | to_create_thread _ _ | to_update_thread _ _ => ["title"; "body"]
  | to_create_comment _ _ _ | to_update_comment _ _ => ["body"]
  end.

(** The operations that can notify the author of a thread. *)
Inductive Operation :=
| reply (course_key : CourseKey) (thread_id parent_id : option string)
| upvote (course_id thread_id value : string)
| follow (course_id thread_id : string).

Section Vocabulary.

Context {Store : Type} {CS : CommentService Store} {PF : Platform}.

Definition submit (e : Submission) (request : Request)
    : M (Store := Store) Response :=
  match e with
  | to_create_thread course_id commentable_id =>
      create_thread request course_id commentable_id
  | to_update_thread course_id thread_id =>
      update_thread request course_id thread_id
  | to_create_comment course_key thread_id parent_id =>
      _create_comment request course_key thread_id parent_id
  | to_update_comment course_id comment_id =>
      update_comment request course_id comment_id
  end.

(** The lookup that a handler makes before it validates the payload, and
    the exception it raises when the lookup fails. *)
Definition lookup_before_validation (e : Submission) (request : Request)
    (s : Store) : option exn :=
  match e with
  | to_create_thread course_id _ =>
      match get_course_with_access (user request) "load"
              (from_deprecated_string course_id) with
      | Some _ => None
      | None => Some Http404
      end
  | to_update_comment _ comment_id =>
      match find KComment s comment_id with
      | Some _ => None
      | None => Some CommentClientRequestError
      end
  | _ => None
  end.

Definition operate (op : Operation) (request : Request)
    : M (Store := Store) Response :=
  match op with
  | reply course_key thread_id parent_id =>
      _create_comment request course_key thread_id parent_id
  | upvote course_id thread_id value =>
      vote_for_thread request course_id thread_id value
  | follow course_id thread_id => follow_thread request course_id thread_id
  end.

(** The thread object whose author an operation compares the acting user
    with: [reply] looks the thread up after the comment is saved, [upvote]
    uses the thread as the vote call leaves it, [follow] the thread it
    found.  [s] is the state before the request and [s'] the state after. *)
Definition compared_thread (op : Operation) (request : Request)
    (s s' : Store) : option Attrs :=
  match op with
  | reply _ thread_id _ => thread_id ≫= find KThread s'
  | upvote _ thread_id value =>
      thread ← find KThread s thread_id;
      fst <$> perform (Vote (user request) KThread thread value) s
  | follow _ thread_id => find KThread s thread_id
  end.

(** An operation reaches its notification step: a reply must carry a body
    and be a reply to the thread itself, not to a comment. *)
Definition reaches_notification (op : Operation) (request : Request) : bool :=
  match op with
  | reply _ _ parent_id =>
      negb (missing_or_blank (POST request) "body")
      && bool_decide (parent_id = None)
  | _ => true
  end.

(** The entity of a content response: [body] is what the formatter makes
    of [data], bare or inside the AJAX envelope. *)
Definition presents (body : json) (data : Attrs) (course_key : CourseKey)
    : Prop :=
  body = prepare_content data course_key
  \/ exists info,
       body = JObj [("content", prepare_content data course_key);
                    ("annotated_content_info", info)].

(** No call of [m] goes to the notification publisher. *)
Definition quiet {A} (m : M (Store := Store) A) : Prop :=
  forall s, publishes (trace (m s)) = false.

(** Every value that [m] can return satisfies [P]. *)
Definition returns_only {A} (P : A -> Prop) (m : M (Store := Store) A) : Prop :=
  forall s a, result (m s) = Returned a -> P a.

(** A computation that only reads: it sends nothing and leaves the state. *)
Definition reads_only {A} (m : M (Store := Store) A) : Prop :=
  forall s, final (m s) = s /\ trace (m s) = [].

(** An operation notifies exactly when it should: a notification is
    published if and only if notifications are enabled, the operation
    reaches its notification step, and the thread it compares against has an
    author other than the acting user; and every notification goes to the
    author of that thread. *)
Definition notifies_exactly (op : Operation) (request : Request) (s : Store)
    : Prop :=
  let r := operate op request s in
  (publishes (trace r) = true <->
     notifications_enabled = true
     /\ reaches_notification op request = true
     /\ exists thread author,
          compared_thread op request s (final r) = Some thread
          /\ thread_author thread = Some author
          /\ user_id (user request) <> author)
  /\ forall recipient, recipient ∈ published_to (trace r) ->
       exists thread,
         compared_thread op request s (final r) = Some thread
         /\ thread_author thread = Some recipient.

End Vocabulary.

(** ** Vocabulary of the further properties *)

(** The views that act on one entity of the route with a single call: the
    kind of the entity, the route argument that names it, and the call, made
    for a user, the id and vote value of the route and the entity found. *)
Definition direct_action (v : View)
    : option (Kind * string * (User -> string -> string -> Attrs -> Call)) :=
  match v with
  | delete_thread_view =>
      Some (KThread, "thread_id", fun _ _ _ target => Delete KThread target)
  | delete_comment_view =>
      Some (KComment, "comment_id", fun _ _ _ target => Delete KComment target)
  | vote_for_comment_view =>
      Some (KComment, "comment_id",
            fun u _ value target => Vote u KComment target value)
  | undo_vote_for_comment_view =>
      Some (KComment, "comment_id", fun u _ _ target => Unvote u KComment target)
  | undo_vote_for_thread_view =>
      Some (KThread, "thread_id", fun u _ _ target => Unvote u KThread target)
  | flag_abuse_for_thread_view =>
      Some (KThread, "thread_id", fun u _ _ target => FlagAbuse u KThread target)
  | flag_abuse_for_comment_view =>
      Some (KComment, "comment_id",
            fun u _ _ target => FlagAbuse u KComment target)
  | pin_thread_view =>
      Some (KThread, "thread_id", fun u id _ target => Pin u id target)
  | un_pin_thread_view =>
      Some (KThread, "thread_id", fun u id _ target => UnPin u id target)
  | follow_commentable_view =>
      Some (KCommentable, "commentable_id",
            fun u _ _ target => Follow u KCommentable target)
  | follow_user_view =>
      Some (KUser, "followed_user_id", fun u _ _ target => Follow u KUser target)
  | unfollow_thread_view =>
      Some (KThread, "thread_id", fun u _ _ target => Unfollow u KThread target)
  | unfollow_commentable_view =>
      Some (KCommentable, "commentable_id",
            fun u _ _ target => Unfollow u KCommentable target)
  | unfollow_user_view =>
      Some (KUser, "followed_user_id",
            fun u _ _ target => Unfollow u KUser target)
  | _ => None
  end.

(** The name of the notification type of an operation and the namespace of
    its messages. *)
Definition message_type_name (op : Operation) : string :=
  match op with
  | reply _ _ _ => "open-edx.lms.discussions.reply-to-thread"
  | upvote _ _ _ => "open-edx.lms.discussions.post-upvoted"
  | follow _ _ => "open-edx.lms.discussions.thread-followed"
  end.

Definition message_namespace (op : Operation) : string :=
  match op with
  | reply course_key _ _ => to_deprecated_string course_key
  | upvote course_id _ _ | follow course_id _ => course_id
  end.

(** At most one notification, and not to [uid]. *)
Definition one_other_recipient (uid : Z) (recipients : list Z) : Prop :=
  recipients = [] \/ exists r, recipients = [r] /\ r <> uid.

(** A platform that refuses everything, to run the views against. *)
Definition closed_platform : Platform := {|
  FEATURES := ∅; MAX_COMMENT_DEPTH := None;
  ALLOWED_UPLOAD_FILE_TYPES := []; MAX_UPLOAD_FILE_SIZE := 0;
  get_course_with_access _ _ _ := None;
  get_course_by_id _ := None;
  has_access _ _ _ := false;
  cached_has_permission _ _ _ := false;
  check_permissions_by_view _ _ _ _ := false;
  get_group_id_for_comments_service _ _ _ := None;
  get_discussion_categories_ids _ := [];
  add_courseware_context _ data := data;
  prepare_content _ _ := JNull;
  get_annotated_content_info _ _ _ _ := JNull;
  get_ability _ _ _ := JNull;
  permalink _ := "";
  get_notification_type name := {| type_name := name |};
  store_uploaded_file _ _ _ _ _ := Reference.no_upload;
  urlparse := Reference.simple_urlparse;
  urlunparse := Reference.simple_urlunparse;
  get_user_by_username _ := None
|}.

(** The route of a request on the thread or comment [id] of the demo
    course, and a clock. *)
Definition route_to (key id : string) : gmap string string :=
  Reference.post_of [("course_id", "edX/Demo/2015"); (key, id)].

Definition noon : Clock := {| now := "1437.25"; rnd := 5 |}.

(** A notification describes an operation: it is in the namespace of the
    course, of the type of the operation and of schema version 1, it names
    the acting user, and it carries title and permalink of a thread whose
    author is the recipient. *)
Definition describes `{PF : Platform} (op : Operation) (request : Request)
    (recipient : Z) (msg : NotificationMessage) : Prop :=
  namespace msg = message_namespace op
  /\ msg_type msg = get_notification_type (message_type_name op)
  /\ _schema_version (payload msg) = "1"
  /\ action_user_id (payload msg) = user_id (user request)
  /\ action_username (payload msg) = username (user request)
  /\ exists thread,
       thread_author thread = Some recipient
       /\ thread !! "title" = Some (thread_title (payload msg))
       /\ link_to_thread (payload msg) = permalink thread.

Section FurtherVocabulary.

Context {Store : Type} {CS : CommentService Store} {PF : Platform}.

(** Every call that [m] sends satisfies [P]. *)
Definition every_event {A} (P : Event -> Prop) (m : M (Store := Store) A)
    : Prop :=
  forall s e, e ∈ trace (m s) -> P e.

(** [m] publishes at most one notification, and not to [uid]. *)
Definition notifies_others {A} (uid : Z) (m : M (Store := Store) A) : Prop :=
  forall s, one_other_recipient uid (published_to (trace (m s))).

End FurtherVocabulary.

(** The request [request] sent as an AJAX request, or not. *)
Definition with_ajax (b : bool) (request : Request) : Request := {|
  user := user request;
  POST := POST request;
  GET := GET request;
  is_ajax := b;
  view_name := view_name request
|}.

Section AjaxVocabulary.

Context {Store : Type} {CS : CommentService Store} {PF : Platform}.

(** Two computations send the same calls and leave the comment service in
    the same state. *)
Definition same_calls {A B} (m : M (Store := Store) A)
    (m' : M (Store := Store) B) : Prop :=
  forall s, trace (m s) = trace (m' s) /\ final (m s) = final (m' s).

End AjaxVocabulary.

(** ** Properties of the text helpers *)

Lemma rstrip_empty s : PyStr.rstrip s = "" <-> PyStr.blank s = true.
Proof.
  induction s as [|c s IH]; simpl; [done|].
  destruct (PyStr.rstrip s) eqn:Hr, (PyStr.is_space c); simpl; split; try done.
  - intros _. by apply IH.
  - intros Hb. by apply IH in Hb.
Qed.

Lemma blank_lstrip s : PyStr.blank (PyStr.lstrip s) = PyStr.blank s.
Proof.
  induction s as [|c s IH]; simpl; [done|].
  destruct (PyStr.is_space c) eqn:Hc; simpl; [done|]. by rewrite Hc.
Qed.

(** [not s.strip()] holds exactly for the texts that are empty or made of
    white space. *)
Lemma strip_empty s : PyStr.strip s = "" <-> PyStr.blank s = true.
Proof. unfold PyStr.strip. by rewrite rstrip_empty, blank_lstrip. Qed.

Example strip_inner : PyStr.strip "  a b  " = "a b".
Proof. reflexivity. Qed.

Example to_int_signed : PyStr.to_int " -42 " = Some (-42).
Proof. reflexivity. Qed.

Example to_int_rejects : PyStr.to_int "4x" = None.
Proof. reflexivity. Qed.

Ltac pick_key H :=
  repeat (apply elem_of_cons in H as [->|H]; [congruence|]);
  by apply elem_of_nil in H.

(** ** Validation comes before every remote mutation *)

Section Validation.

Context {Store : Type} {CS : CommentService Store} {PF : Platform}.

Lemma missing_or_blank_spec post key :
  missing_or_blank post key = true <-> lacks_text post key.
Proof.
  unfold missing_or_blank, lacks_text. destruct (post !! key) as [v|]; [|done].
  rewrite String.eqb_eq. apply strip_empty.
Qed.

(** C2 (amended).  A create or update request ([create_thread],
    [update_thread], [_create_comment], [update_comment]) whose payload lacks
    a required title or body, or carries it empty or as white space only,
    sends no call at all to the comment service or to the publisher and
    leaves the service as it was.  Its response is the validation error,
    unless the lookup that the handler makes before it validates fails: the
    course of [create_thread] (then [Http404] is raised) or the comment of
    [update_comment] (then the not-found error of the client is raised). *)
Theorem invalid_submission_is_rejected
    (e : Submission) (request : Request) (s : Store) :
  (exists key, key ∈ required e /\ lacks_text (POST request) key) ->
  let r := submit e request s in
  trace r = [] /\ final r = s /\
  match lookup_before_validation e request s with
  | Some exc => result r = Raised exc
  | None => is_validation_error (result r)
  end.
Proof.
  intros (key & Hkey & Hlacks). apply missing_or_blank_spec in Hlacks.
  destruct e; simpl in *.
  - unfold create_thread, bind, expect.
    destruct (get_course_with_access _ _ _) as [course|]; simpl; [|done].
    destruct (missing_or_blank (POST request) "title") eqn:Ht; simpl.
    { split_and!; try done. by left. }
    destruct (missing_or_blank (POST request) "body") eqn:Hb; simpl.
    { split_and!; try done. by right. }
    by pick_key Hkey.
  - unfold update_thread.
    destruct (missing_or_blank (POST request) "title") eqn:Ht; simpl.
    { split_and!; try done. by left. }
    destruct (missing_or_blank (POST request) "body") eqn:Hb; simpl.
    { split_and!; try done. by right. }
    by pick_key Hkey.
  - unfold _create_comment.
    destruct (missing_or_blank (POST request) "body") eqn:Hb; simpl.
    { split_and!; try done. by right. }
    by pick_key Hkey.
  - unfold update_comment, bind, cc_find, expect.
    destruct (find KComment s comment_id) as [c|]; simpl; [|done].
    destruct (missing_or_blank (POST request) "body") eqn:Hb; simpl.
    { split_and!; try done. by right. }
    by pick_key Hkey.
Qed.

End Validation.

(** C2, an instance: a thread with the title ["  "] is answered by
    "Title can't be empty" and nothing is sent to the comment service. *)
Lemma invalid_submission_witness :
  let request :=
    Reference.request_by Reference.bob [("title", "  "); ("body", "text")] in
  let r :=
    submit (CS := Reference.service)
      (PF := Reference.platform Reference.enabled None Reference.no_upload)
      (to_create_thread "edX/Demo/2015" "general") request Reference.store1 in
  trace r = [] /\ final r = Reference.store1 /\
  result r = Returned (JsonError ["Title can't be empty"] 400).
Proof.
  pose proof (invalid_submission_is_rejected
    (CS := Reference.service)
    (PF := Reference.platform Reference.enabled None Reference.no_upload)
    (to_create_thread "edX/Demo/2015" "general")
    (Reference.request_by Reference.bob [("title", "  "); ("body", "text")])
    Reference.store1) as H.
  destruct H as (Ht & Hf & _).
  - exists "title". split; [by left | reflexivity].
  - split_and!; [exact Ht | exact Hf | reflexivity].
Defined.

(** C2 as stated fails: [create_thread] loads the course before it looks at
    the payload, so a blank title sent to a course that cannot be loaded
    raises [Http404] and no validation error is returned. *)
Lemma validation_error_counterexample :
  let request :=
    Reference.request_by Reference.bob [("title", "  "); ("body", "text")] in
  let r :=
    create_thread (CS := Reference.service)
      (PF := Reference.platform Reference.enabled None Reference.no_upload)
      request "edX/Gone/2015" "general" Reference.store1 in
  lacks_text (POST request) "title" /\
  result r = Raised Http404 /\
  ~ is_validation_error (result r).
Proof.
  split_and!; [reflexivity | reflexivity |].
  intros [H|H]; discriminate H.
Qed.

(** ** Reasoning about runs *)

Section Runs.

Context {Store : Type} {CS : CommentService Store} {PF : Platform}.

Local Abbreviation M := (M (Store := Store)).

Lemma bind_ret {A B} (a : A) (f : A -> M B) s : bind (ret a) f s = f a s.
Proof. unfold bind, ret. by destruct (f a s) as [[r s2] t2]. Qed.

Lemma bind_expect_some {A B} e (a : A) (f : A -> M B) s :
  bind (expect e (Some a)) f s = f a s.
Proof. apply bind_ret. Qed.

Lemma bind_raise {A B} e (f : A -> M B) s :
  bind (raise e) f s = (Raised e, s, []).
Proof. done. Qed.

Lemma bind_cc_find {B} k id a (f : Attrs -> M B) s :
  find k s id = Some a -> bind (cc_find k id) f s = f a s.
Proof.
  intros Hf. unfold bind, cc_find. rewrite Hf. simpl.
  by destruct (f a s) as [[r s2] t2].
Qed.

(** The components of a run that starts with a mutating call. *)
Lemma bind_remote {B} c (f : Attrs -> M B) s a s' :
  perform c s = Some (a, s') ->
  bind (remote c) f s =
    (result (f a s'), final (f a s'), Remote c :: trace (f a s')).
Proof.
  intros Hp. unfold bind, remote. rewrite Hp.
  by destruct (f a s') as [[r s2] t2].
Qed.

Lemma bind_remote_failed {B} c (f : Attrs -> M B) s :
  perform c s = None ->
  bind (remote c) f s = (Raised CommentClientRequestError, s, [Remote c]).
Proof. intros Hp. unfold bind, remote. by rewrite Hp. Qed.

Lemma trace_bind_remote {B} c (f : Attrs -> M B) s :
  exists rest, trace (bind (remote c) f s) = Remote c :: rest.
Proof.
  destruct (perform c s) as [[a s']|] eqn:Hp.
  - rewrite (bind_remote _ _ _ _ _ Hp). by eexists.
  - rewrite (bind_remote_failed _ _ _ Hp). by eexists.
Qed.

Lemma returns_only_ret {A} (P : A -> Prop) a :
  P a -> returns_only P (ret (Store := Store) a).
Proof. intros HP s a' [= <-]. done. Qed.

Lemma returns_only_raise {A} (P : A -> Prop) e :
  returns_only P (raise (Store := Store) e).
Proof. intros s a' [=]. Qed.

Lemma returns_only_bind {A B} (P : B -> Prop) (m : M A) (f : A -> M B) :
  (forall a, returns_only P (f a)) -> returns_only P (bind m f).
Proof.
  intros Hf s b. unfold bind, result.
  destruct (m s) as [[[a|e] s1] t1]; [|done].
  specialize (Hf a s1 b). unfold result in Hf.
  by destruct (f a s1) as [[r s2] t2].
Qed.

End Runs.

Ltac returns_tac :=
  repeat first
    [ apply returns_only_bind; intros ?
    | apply returns_only_raise
    | apply returns_only_ret
    | case_match ].

(** ** The depth limit of replies *)

Section Depth.

Context {Store : Type} {CS : CommentService Store} {PF : Platform}.

(** C3.  With a maximum depth configured, [create_sub_comment] answers
    "Comment level too deep" and sends nothing to the comment service when the
    depth of the parent comment is at least the maximum; and with a negative
    maximum [create_comment] answers a comment on the thread itself in the
    same way. *)
Theorem too_deep_is_rejected
    (request : Request) (course_id id : string) (s : Store) (max_depth : Z) :
  MAX_COMMENT_DEPTH = Some max_depth ->
  (forall parent depth,
     find KComment s id = Some parent ->
     parent !! "depth" = Some (PInt depth) ->
     max_depth <= depth ->
     create_sub_comment request course_id id s = (Returned too_deep, s, []))
  /\ (max_depth < 0 ->
      create_comment request course_id id s = (Returned too_deep, s, [])).
Proof.
  intros Hmax. split.
  - intros parent depth Hfind Hdepth Hle.
    unfold create_sub_comment, comment_depth, bind, cc_find, attr, expect.
    rewrite Hmax, Hfind. simpl. rewrite Hdepth. simpl.
    by rewrite (proj2 (Z.leb_le _ _) Hle).
  - intros Hneg. unfold create_comment. rewrite Hmax.
    by rewrite (proj2 (Z.ltb_lt _ _) Hneg).
Qed.

Lemma _create_comment_never_too_deep request course_key thread_id parent_id :
  returns_only (fun r => r <> too_deep)
    (_create_comment request course_key thread_id parent_id).
Proof.
  unfold _create_comment, ajax_content_response. returns_tac; done.
Qed.

Lemma valid_text post key v :
  post !! key = Some v -> PyStr.blank v = false ->
  missing_or_blank post key = false.
Proof.
  intros Hv Hb. destruct (missing_or_blank post key) eqn:Hm; [|done].
  apply missing_or_blank_spec in Hm. unfold lacks_text in Hm.
  rewrite Hv in Hm. congruence.
Qed.

(** The first call of a [_create_comment] that passes validation is the save
    of the new comment. *)
Lemma _create_comment_saves request course_key thread_id parent_id s body course :
  POST request !! "body" = Some body ->
  PyStr.blank body = false ->
  get_course_with_access (user request) "load" course_key = Some course ->
  exists comment rest,
    trace (_create_comment request course_key thread_id parent_id s)
      = Remote (Save KComment comment) :: rest
    /\ comment !! "body" = Some (PStr body)
    /\ comment !! "thread_id" = Some (opt_str thread_id)
    /\ comment !! "parent_id" = Some (opt_str parent_id).
Proof.
  intros Hbody Hblank Hcourse. unfold _create_comment.
  rewrite (valid_text _ _ _ Hbody Hblank), Hcourse, bind_expect_some.
  unfold item. rewrite Hbody, bind_expect_some.
  match goal with |- context [bind (remote (Save KComment ?c)) ?f s] =>
    destruct (trace_bind_remote (Save KComment c) f s) as [rest Hrest];
    exists c, rest
  end.
  split; [exact Hrest|]. by simplify_map_eq.
Qed.

(** C4 (amended).  When the configured maximum depth is unset or not
    negative, [create_comment] never rejects on depth grounds: it is
    [_create_comment] for a comment on the thread itself, it never answers
    "Comment level too deep", and for a body that is not blank, on a course
    that loads, it sends the save of the comment to the comment service. *)
Theorem create_comment_depth_zero
    (request : Request) (course_id thread_id : string) (s : Store) :
  (MAX_COMMENT_DEPTH = None
   \/ exists max_depth, MAX_COMMENT_DEPTH = Some max_depth /\ 0 <= max_depth) ->
  let r := create_comment request course_id thread_id s in
  r = _create_comment request (from_deprecated_string course_id)
        (Some thread_id) None s
  /\ result r <> Returned too_deep
  /\ forall body course,
       POST request !! "body" = Some body ->
       PyStr.blank body = false ->
       get_course_with_access (user request) "load"
         (from_deprecated_string course_id) = Some course ->
       exists comment rest,
         trace r = Remote (Save KComment comment) :: rest
         /\ comment !! "body" = Some (PStr body)
         /\ comment !! "thread_id" = Some (PStr thread_id)
         /\ comment !! "parent_id" = Some PNone.
Proof.
  intros Hmax r.
  assert (r = _create_comment request (from_deprecated_string course_id)
                (Some thread_id) None s) as Hr.
  { subst r. unfold create_comment.
    destruct Hmax as [->|(m & -> & Hm)]; [done|].
    by rewrite (proj2 (Z.ltb_ge _ _) Hm). }
  split; [exact Hr|]. clearbody r. subst r. split.
  - intros Heq. by apply _create_comment_never_too_deep in Heq.
  - intros body course Hbody Hblank Hcourse.
    destruct (_create_comment_saves request (from_deprecated_string course_id)
                (Some thread_id) None s body course Hbody Hblank Hcourse)
      as (comment & rest & Ht & Hb & Hi & Hp).
    by exists comment, rest.
Qed.

End Depth.

(** C3, an instance: with the maximum 1 a reply to the comment of depth 1
    is rejected, and with the maximum -1 a comment on the thread is. *)
Lemma too_deep_witness :
  let request := Reference.request_by Reference.bob [("body", "text")] in
  create_sub_comment (CS := Reference.service)
    (PF := Reference.platform Reference.enabled (Some 1) Reference.no_upload)
    request "edX/Demo/2015" "c1" Reference.store1
  = (Returned too_deep, Reference.store1, [])
  /\ create_comment (CS := Reference.service)
       (PF := Reference.platform Reference.enabled (Some (-1)) Reference.no_upload)
       request "edX/Demo/2015" "t1" Reference.store1
     = (Returned too_deep, Reference.store1, []).
Proof.
  split.
  - refine (proj1 (too_deep_is_rejected (CS := Reference.service)
      (PF := Reference.platform Reference.enabled (Some 1) Reference.no_upload)
      _ "edX/Demo/2015" "c1" Reference.store1 1 eq_refl)
      Reference.comment1 1 _ _ _); [reflexivity | reflexivity | lia].
  - refine (proj2 (too_deep_is_rejected (CS := Reference.service)
      (PF := Reference.platform Reference.enabled (Some (-1)) Reference.no_upload)
      _ "edX/Demo/2015" "t1" Reference.store1 (-1) eq_refl) _); lia.
Defined.

(** C4 as stated fails: with the maximum depth -1 a comment on the thread
    with a proper body is rejected as too deep, and nothing is saved. *)
Lemma depth_zero_counterexample :
  let request := Reference.request_by Reference.bob [("body", "text")] in
  let r :=
    create_comment (CS := Reference.service)
      (PF := Reference.platform Reference.enabled (Some (-1)) Reference.no_upload)
      request "edX/Demo/2015" "t1" Reference.store1 in
  ~ lacks_text (POST request) "body" /\
  result r = Returned (JsonError ["Comment level too deep"] 400) /\
  trace r = [].
Proof.
  split_and!; [intros H; discriminate H | reflexivity | reflexivity].
Qed.

(** ** Notifications *)

Section Notifications.

Context {Store : Type} {CS : CommentService Store} {PF : Platform}.

Local Abbreviation M := (M (Store := Store)).

Lemma publishes_app t1 t2 : publishes (t1 ++ t2) = publishes t1 || publishes t2.
Proof. apply existsb_app. Qed.

Lemma published_to_app t1 t2 :
  published_to (t1 ++ t2) = (published_to t1 ++ published_to t2)%list.
Proof. apply omap_app. Qed.

(** Inversion of a run of [bind] that returns. *)
Lemma bind_inv {A B} (m : M A) (f : A -> M B) s b :
  result (bind m f s) = Returned b ->
  exists a s1 t1,
    m s = (Returned a, s1, t1)
    /\ result (f a s1) = Returned b
    /\ final (bind m f s) = final (f a s1)
    /\ trace (bind m f s) = (t1 ++ trace (f a s1))%list.
Proof.
  unfold bind, result, final, trace.
  destruct (m s) as [[[a|e] s1] t1]; [|done].
  intros Hb. exists a, s1, t1.
  by destruct (f a s1) as [[r s2] t2].
Qed.

Lemma cc_find_inv k id s a s1 t1 :
  cc_find k id s = (Returned a, s1, t1) ->
  find k s id = Some a /\ s1 = s /\ t1 = [].
Proof.
  unfold cc_find. destruct (find k s id); simpl; intros [= <- <- <-]; done.
Qed.

Lemma remote_inv c s a s1 t1 :
  remote c s = (Returned a, s1, t1) ->
  perform c s = Some (a, s1) /\ t1 = [Remote c].
Proof.
  unfold remote. destruct (perform c s) as [[a' s']|]; intros [= <- <- <-]; done.
Qed.

Lemma expect_inv {A} e (o : option A) (s : Store) a s1 t1 :
  expect e o s = (Returned a, s1, t1) -> o = Some a /\ s1 = s /\ t1 = [].
Proof. destruct o; intros [= <- <- <-]; done. Qed.

Lemma reads_only_ret {A} (a : A) : reads_only (ret (Store := Store) a).
Proof. done. Qed.

Lemma reads_only_ajax request course_key content :
  reads_only (ajax_content_response request course_key content).
Proof.
  intros s. unfold ajax_content_response, bind.
  by destruct (user_to_dict s (user request)).
Qed.

(** The notification step: it leaves the comment service alone, and when it
    completes it has published exactly if the thread has an author other
    than the acting user, and then to that author only. *)
Lemma notify_author_spec name course_id request thread (s : Store) :
  let r := notify_author name course_id request thread s in
  final r = s
  /\ (result r = Returned tt ->
      (publishes (trace r) = true <->
         exists author, thread_author thread = Some author
                        /\ user_id (user request) <> author)
      /\ forall recipient, recipient ∈ published_to (trace r) ->
           thread_author thread = Some recipient).
Proof.
  unfold notify_author, original_poster, attr, thread_author,
    publish_discussion_notification, emit, bind, expect, ret, raise,
    result, final, trace.
  destruct (thread !! "user_id") as [v|]; simpl; [|done].
  destruct (py_int v) as [author|]; simpl; [|done].
  destruct (Z.eqb_spec (user_id (user request)) author) as [Heq|Hne]; simpl.
  - split; [done|]. intros _. split.
    + split; [done|]. intros (a & [= <-] & Ha). done.
    + intros r Hr. by apply elem_of_nil in Hr.
  - destruct (thread !! "title") as [title|]; simpl; [|done].
    split; [done|]. intros _. split.
    + split; [|done]. intros _. by exists author.
    + intros r Hr. apply list_elem_of_singleton in Hr. by subst.
Qed.

Lemma upvote_notifies request course_id thread_id value s response :
  result (vote_for_thread request course_id thread_id value s)
    = Returned response ->
  notifies_exactly (upvote course_id thread_id value) request s.
Proof.
  intros H. unfold notifies_exactly, operate. cbn zeta.
  unfold vote_for_thread in *.
  apply bind_inv in H as (t & s1 & t1 & Hfind & H & -> & ->).
  apply cc_find_inv in Hfind as (Hfind & -> & ->).
  apply bind_inv in H as (t' & s2 & t2 & Hvote & H & -> & ->).
  apply remote_inv in Hvote as (Hvote & ->).
  apply bind_inv in H as ([] & s3 & t3 & Hn & H & -> & ->).
  simpl. rewrite Hfind. simpl. rewrite Hvote. simpl.
  rewrite publishes_app, published_to_app, !app_nil_r, orb_false_r.
  destruct notifications_enabled.
  - pose proof (notify_author_spec "open-edx.lms.discussions.post-upvoted"
      course_id request t' s2) as (Hs & Hspec).
    rewrite Hn in Hs, Hspec. unfold final, result, trace in Hs, Hspec.
    simpl in Hs, Hspec. subst s3.
    destruct (Hspec eq_refl) as (Hiff & Hto). split.
    + rewrite Hiff. split.
      * intros (a & Ha & Hne). split_and!; try done. by exists t', a.
      * intros (_ & _ & th & a & [= <-] & Ha & Hne). by exists a.
    + intros r Hr. exists t'. split; [done|]. by apply Hto.
  - injection Hn as <- <-. simpl. split.
    + split; [done|]. by intros ([=] & _).
    + intros r Hr. by apply elem_of_nil in Hr.
Qed.

Lemma follow_notifies request course_id thread_id s response :
  result (follow_thread request course_id thread_id s) = Returned response ->
  notifies_exactly (follow course_id thread_id) request s.
Proof.
  intros H. unfold notifies_exactly, operate. cbn zeta.
  unfold follow_thread in *.
  apply bind_inv in H as (t & s1 & t1 & Hfind & H & -> & ->).
  apply cc_find_inv in Hfind as (Hfind & -> & ->).
  apply bind_inv in H as (t' & s2 & t2 & Hfollow & H & -> & ->).
  apply remote_inv in Hfollow as (Hfollow & ->).
  apply bind_inv in H as ([] & s3 & t3 & Hn & H & -> & ->).
  simpl. rewrite Hfind.
  rewrite publishes_app, published_to_app, !app_nil_r, orb_false_r.
  destruct notifications_enabled.
  - pose proof (notify_author_spec "open-edx.lms.discussions.thread-followed"
      course_id request t s2) as (Hs & Hspec).
    rewrite Hn in Hs, Hspec. unfold final, result, trace in Hs, Hspec.
    simpl in Hs, Hspec. subst s3.
    destruct (Hspec eq_refl) as (Hiff & Hto). split.
    + rewrite Hiff. split.
      * intros (a & Ha & Hne). split_and!; try done. by exists t, a.
      * intros (_ & _ & th & a & [= <-] & Ha & Hne). by exists a.
    + intros r Hr. exists t. split; [done|]. by apply Hto.
  - injection Hn as <- <-. simpl. split.
    + split; [done|]. by intros ([=] & _).
    + intros r Hr. by apply elem_of_nil in Hr.
Qed.

Lemma reads_only_tail request course_key comment (course : Course) :
  reads_only
    (if is_ajax request then ajax_content_response request course_key comment
     else ret (JsonResponse (prepare_content comment (course_key_of course)))).
Proof. destruct (is_ajax request); [apply reads_only_ajax | apply reads_only_ret]. Qed.

Lemma reply_notifies request course_key thread_id parent_id s response :
  result (_create_comment request course_key thread_id parent_id s)
    = Returned response ->
  notifies_exactly (reply course_key thread_id parent_id) request s.
Proof.
  intros H. unfold notifies_exactly, operate. cbn zeta.
  unfold _create_comment in *. simpl reaches_notification.
  destruct (missing_or_blank (POST request) "body").
  { simpl. split.
    - split; [done|]. by intros (_ & [=] & _).
    - intros r Hr. by apply elem_of_nil in Hr. }
  apply bind_inv in H as (course & s1 & t1 & Hc & H & -> & ->).
  apply expect_inv in Hc as (Hc & -> & ->).
  apply bind_inv in H as (body & s1 & t1 & Hb & H & -> & ->).
  apply expect_inv in Hb as (Hb & -> & ->).
  apply bind_inv in H as (comment & s1 & t1 & Hsave & H & -> & ->).
  apply remote_inv in Hsave as (Hsave & ->).
  apply bind_inv in H as (c' & s2 & t2 & Hfollow & H & -> & ->).
  apply bind_inv in H as ([] & s3 & t3 & Hn & H & -> & ->).
  destruct (reads_only_tail request course_key comment course s3) as (-> & ->).
  assert (publishes t2 = false /\ published_to t2 = []) as (Hp2 & Ht2).
  { destruct (flag_set (POST request) "auto_subscribe").
    - apply remote_inv in Hfollow as (_ & ->). done.
    - by injection Hfollow as <- <- <-. }
  simpl. rewrite !publishes_app, !published_to_app, Hp2, Ht2, !app_nil_r.
  simpl. rewrite orb_false_r.
  destruct notifications_enabled; simpl in *.
  2:{ injection Hn as <- <-. split.
      - split; [done|]. by intros ([=] & _).
      - intros r Hr. by apply elem_of_nil in Hr. }
  case_bool_decide as Hparent; simpl in *.
  2:{ injection Hn as <- <-. split.
      - split; [done|]. by intros (_ & [=] & _).
      - intros r Hr. by apply elem_of_nil in Hr. }
  pose proof Hn as Hn'.
  apply (f_equal result) in Hn'. unfold result at 2 in Hn'. simpl in Hn'.
  apply bind_inv in Hn' as (thread & s4 & t4 & Hfind & Hres & Hfin & Htr).
  destruct thread_id as [tid|]; [|done].
  apply cc_find_inv in Hfind as (Hfind & -> & ->).
  rewrite Hn in Hfin, Htr. unfold final, trace in Hfin, Htr.
  simpl in Hfin, Htr.
  pose proof (notify_author_spec "open-edx.lms.discussions.reply-to-thread"
    (to_deprecated_string course_key) request thread s2) as (Hs & Hspec).
  fold (final (notify_author "open-edx.lms.discussions.reply-to-thread"
    (to_deprecated_string course_key) request thread s2)) in Hfin.
  fold (trace (notify_author "open-edx.lms.discussions.reply-to-thread"
    (to_deprecated_string course_key) request thread s2)) in Htr.
  subst s3. rewrite <- Htr in Hspec.
  destruct (Hspec Hres) as (Hiff & Hto). rewrite Hs. simpl. rewrite Hfind.
  split.
  - rewrite Hiff. split.
    + intros (a & Ha & Hne). split_and!; try done. by exists thread, a.
    + intros (_ & _ & th & a & [= <-] & Ha & Hne). by exists a.
  - intros r Hr. exists thread. split; [done|]. by apply Hto.
Qed.
End Notifications.

Section Quiet.

Context {Store : Type} {CS : CommentService Store} {PF : Platform}.

Local Abbreviation M := (M (Store := Store)).

Lemma quiet_ret {A} (a : A) : quiet (ret (Store := Store) a).
Proof. by intros s. Qed.

Lemma quiet_raise {A} e : quiet (raise (Store := Store) (A := A) e).
Proof. by intros s. Qed.

Lemma quiet_expect {A} e (o : option A) : quiet (expect (Store := Store) e o).
Proof. by destruct o; intros s. Qed.

Lemma quiet_bind {A B} (m : M A) (f : A -> M B) :
  quiet m -> (forall a, quiet (f a)) -> quiet (bind m f).
Proof.
  intros Hm Hf s. unfold bind. specialize (Hm s).
  destruct (m s) as [[[a|e] s1] t1]; [|done].
  specialize (Hf a s1). destruct (f a s1) as [[r s2] t2].
  unfold trace in *. simpl in *. by rewrite publishes_app, Hm, Hf.
Qed.

Lemma quiet_remote c : quiet (remote c).
Proof. intros s. unfold remote. by destruct (perform c s) as [[a s']|]. Qed.

Lemma quiet_cc_find k id : quiet (cc_find k id).
Proof. intros s. unfold cc_find. by destruct (find k s id). Qed.

Lemma quiet_read {A} e (f : Store -> option A) :
  quiet (fun s => expect e (f s) s).
Proof. intros s. by destruct (f s). Qed.

End Quiet.

Ltac quiet_step :=
  first [ apply quiet_ret | apply quiet_raise | apply quiet_remote
        | apply quiet_cc_find | apply quiet_expect | apply quiet_read
        | apply quiet_bind; [| intros ?] ].

Ltac quiet_tac := repeat first [ quiet_step | case_match ].

Create HintDb handlers.

#[local] Hint Unfold content_response ajax_content_response attr item
  count_of comment_depth : handlers.

Section NoNotification.

Context {Store : Type} {CS : CommentService Store} {PF : Platform}.

Lemma quiet_content_response request course_key content :
  quiet (content_response request course_key content).
Proof. autounfold with handlers. quiet_tac. Qed.

Lemma quiet__create_comment request course_key thread_id parent_id :
  notifications_enabled = false \/ parent_id <> None ->
  quiet (_create_comment request course_key thread_id parent_id).
Proof.
  intros Hoff. unfold _create_comment.
  replace (notifications_enabled && bool_decide (parent_id = None))
    with false.
  2:{ destruct Hoff as [->|Hp]; [done|].
      by rewrite bool_decide_eq_false_2, andb_false_r. }
  autounfold with handlers. quiet_tac.
Qed.

(** Every view other than the three notifying ones is quiet, and these
    three are quiet when notifications are switched off. *)
Lemma quiet_view_function v clock kwargs request :
  notifying v = false \/ notifications_enabled = false ->
  quiet (view_function v clock kwargs request).
Proof.
  intros Hv.
  assert (forall (fn : string -> string -> M (Store := Store) Response) second,
    (forall a b, quiet (fn a b)) -> quiet (with_args kwargs second fn)) as Hw.
  { intros fn second Hfn. unfold with_args, arg. quiet_tac. apply Hfn. }
  destruct v; simpl; try (apply Hw; intros course_id id);
    try (unfold arg; case_match; [|apply quiet_raise]).
  all: try match goal with
    | |- quiet (create_comment _ _ _) =>
        destruct Hv as [Hv|Hv]; [done|];
        unfold create_comment; repeat case_match;
        try apply quiet_ret; apply quiet__create_comment; by left
    | |- quiet (create_sub_comment _ _ _) =>
        unfold create_sub_comment; autounfold with handlers;
        quiet_tac; apply quiet__create_comment; by right
    | |- quiet (vote_for_thread _ _ _ _) =>
        destruct Hv as [Hv|Hv]; [done|]; unfold vote_for_thread; rewrite Hv
    | |- quiet (follow_thread _ _ _) =>
        destruct Hv as [Hv|Hv]; [done|]; unfold follow_thread; rewrite Hv
    end.
  all: try (unfold create_thread, update_thread, delete_thread, update_comment,
    endorse_comment, openclose_thread, delete_comment, vote_for_comment,
    undo_vote_for_comment, flag_abuse_for_thread, un_flag_abuse_for_thread,
    flag_abuse_for_comment, un_flag_abuse_for_comment, undo_vote_for_thread,
    pin_thread, un_pin_thread, follow_commentable, follow_user,
    unfollow_thread, unfollow_commentable, unfollow_user, upload, users;
    autounfold with handlers; quiet_tac).
Qed.

Lemma quiet_permitted fn request kwargs :
  quiet (fn request) -> quiet (permitted (Store := Store) fn request kwargs).
Proof.
  intros Hfn. unfold permitted, fetch_content, item. quiet_tac. apply Hfn.
Qed.

Lemma quiet_dispatch v clock kwargs request :
  notifying v = false \/ notifications_enabled = false ->
  quiet (dispatch v clock kwargs request).
Proof.
  intros Hv. unfold dispatch. destruct (gated v).
  - apply quiet_permitted. by apply quiet_view_function.
  - by apply quiet_view_function.
Qed.
End NoNotification.

(** ** When a notification is published *)

Section WhenNotified.

Context {Store : Type} {CS : CommentService Store} {PF : Platform}.

(** C1 (amended).  For a reply ([_create_comment]), an upvote of a thread
    ([vote_for_thread]) and a follow of a thread ([follow_thread]) that
    complete with a response, a notification is published if and only if
    the NOTIFICATIONS_ENABLED feature is on, the operation reaches its
    notification step (a reply must pass the body validation and be a reply
    to the thread itself, not to a comment), and the id of the acting user
    differs from the id of the author of the thread; every notification is
    addressed to that author.  No other view of the module publishes a
    notification, whatever the feature flag. *)
Theorem notification_iff_other_author
    (op : Operation) (request : Request) (s : Store) (response : Response) :
  result (operate op request s) = Returned response ->
  notifies_exactly op request s
  /\ forall v clock kwargs request' (s' : Store),
       notifying v = false ->
       publishes (trace (dispatch v clock kwargs request' s')) = false.
Proof.
  intros H. split.
  - destruct op; simpl in H.
    + by eapply reply_notifies.
    + by eapply upvote_notifies.
    + by eapply follow_notifies.
  - intros v clock kwargs request' s' Hv.
    apply quiet_dispatch. by left.
Qed.

(** C9.  When the NOTIFICATIONS_ENABLED feature is absent from the settings
    or false, no view of the module publishes a notification, with or
    without the permission gate, and neither does [_create_comment]. *)
Theorem disabled_notifications_publish_nothing
    (v : View) (clock : Clock) (kwargs : gmap string string)
    (request : Request) (s : Store) :
  FEATURES !! "NOTIFICATIONS_ENABLED" = None
  \/ FEATURES !! "NOTIFICATIONS_ENABLED" = Some false ->
  publishes (trace (dispatch v clock kwargs request s)) = false
  /\ publishes (trace (view_function v clock kwargs request s)) = false
  /\ forall course_key thread_id parent_id,
       publishes
         (trace (_create_comment request course_key thread_id parent_id s))
       = false.
Proof.
  intros Hflag.
  assert (notifications_enabled = false) as Hoff.
  { unfold notifications_enabled. by destruct Hflag as [-> | ->]. }
  split_and!.
  - apply quiet_dispatch. by right.
  - apply quiet_view_function. by right.
  - intros course_key thread_id parent_id.
    apply quiet__create_comment. by left.
Qed.

End WhenNotified.

(** C1, an instance: with notifications enabled, bob upvotes the thread of
    alice and the notification goes to alice. *)
Lemma notification_witness :
  let request := Reference.request_by Reference.bob [] in
  notifies_exactly (CS := Reference.service)
    (PF := Reference.platform Reference.enabled None Reference.no_upload)
    (upvote "edX/Demo/2015" "t1" "up") request Reference.store1.
Proof.
  refine (proj1 (notification_iff_other_author (CS := Reference.service)
    (PF := Reference.platform Reference.enabled None Reference.no_upload)
    (upvote "edX/Demo/2015" "t1" "up")
    (Reference.request_by Reference.bob []) Reference.store1 _ eq_refl)).
Defined.

Example upvote_notifies_alice :
  published_to (trace (vote_for_thread (CS := Reference.service)
    (PF := Reference.platform Reference.enabled None Reference.no_upload)
    (Reference.request_by Reference.bob []) "edX/Demo/2015" "t1" "up"
    Reference.store1)) = [7].
Proof. reflexivity. Qed.

Example own_upvote_is_silent :
  trace (vote_for_thread (CS := Reference.service)
    (PF := Reference.platform Reference.enabled None Reference.no_upload)
    (Reference.request_by Reference.alice []) "edX/Demo/2015" "t1" "up"
    Reference.store1)
  = [Remote (Vote Reference.alice KThread Reference.thread1 "up")].
Proof. reflexivity. Qed.

(** C1 as stated fails: without the NOTIFICATIONS_ENABLED feature, bob (8)
    upvotes the thread of alice (7), the request succeeds, and nothing is
    published although the two ids differ. *)
Lemma notification_counterexample :
  let request := Reference.request_by Reference.bob [] in
  let r :=
    vote_for_thread (CS := Reference.service)
      (PF := Reference.platform ∅ None Reference.no_upload)
      request "edX/Demo/2015" "t1" "up" Reference.store1 in
  (exists response, result r = Returned response)
  /\ thread_author Reference.thread1 = Some 7
  /\ user_id (user request) <> 7
  /\ publishes (trace r) = false.
Proof.
  split_and!; [by eexists | reflexivity | discriminate | reflexivity].
Qed.

(** C9, an instance: the same upvote with the feature absent. *)
Lemma disabled_notifications_witness :
  publishes (trace (dispatch (CS := Reference.service)
    (PF := Reference.platform ∅ None Reference.no_upload)
    vote_for_thread_view {| now := "1437.25"; rnd := 5 |}
    (Reference.post_of
       [("course_id", "edX/Demo/2015"); ("thread_id", "t1"); ("value", "up")])
    (Reference.request_by Reference.bob []) Reference.store1)) = false.
Proof.
  refine (proj1 (disabled_notifications_publish_nothing
    (CS := Reference.service)
    (PF := Reference.platform ∅ None Reference.no_upload)
    vote_for_thread_view _ _ _ _ _)).
  left. reflexivity.
Defined.

(** C4, an instance: with the maximum depth 0 a comment on the thread is
    saved. *)
Lemma depth_zero_witness :
  let request := Reference.request_by Reference.bob [("body", "text")] in
  result (create_comment (CS := Reference.service)
    (PF := Reference.platform Reference.enabled (Some 0) Reference.no_upload)
    request "edX/Demo/2015" "t1" Reference.store1) <> Returned too_deep.
Proof.
  refine (proj1 (proj2 (create_comment_depth_zero (CS := Reference.service)
    (PF := Reference.platform Reference.enabled (Some 0) Reference.no_upload)
    _ "edX/Demo/2015" "t1" Reference.store1 _))).
  right. exists 0. split; [reflexivity | lia].
Defined.

(** ** Removing abuse flags *)

Section Unflag.

Context {Store : Type} {CS : CommentService Store} {PF : Platform}.

(** C5.  An unflag-abuse request on a thread or on a comment sends exactly
    one call to the comment service, the unflagging in the name of the
    acting user, and its remove-all mode is true if and only if the acting
    user holds the [openclose_thread] permission on the course or has staff
    access to it; for every other user the mode is false, so that only the
    flag of that user is removed. *)
Theorem unflag_removes_all_for_moderators_only
    (request : Request) (course_id id : string) (s : Store) (course : Course) :
  get_course_by_id (from_deprecated_string course_id) = Some course ->
  let moderates :=
    cached_has_permission (user request) "openclose_thread"
      (from_deprecated_string course_id) = true
    \/ has_access (user request) "staff" course = true in
  (forall thread, find KThread s id = Some thread ->
     exists remove_all,
       trace (un_flag_abuse_for_thread request course_id id s)
         = [Remote (UnFlagAbuse (user request) KThread thread remove_all)]
       /\ (remove_all = true <-> moderates))
  /\ (forall comment, find KComment s id = Some comment ->
       exists remove_all,
         trace (un_flag_abuse_for_comment request course_id id s)
           = [Remote (UnFlagAbuse (user request) KComment comment remove_all)]
         /\ (remove_all = true <-> moderates)).
Proof.
  intros Hcourse moderates.
  assert (may_remove_all request (from_deprecated_string course_id) course
          = true <-> moderates) as Hmode.
  { unfold may_remove_all, moderates. by rewrite orb_true_iff. }
  split.
  - intros thread Hfind.
    exists (may_remove_all request (from_deprecated_string course_id) course).
    split; [|exact Hmode].
    unfold un_flag_abuse_for_thread.
    rewrite Hcourse, bind_expect_some, (bind_cc_find _ _ _ _ _ Hfind).
    unfold bind, remote, trace.
    by destruct (perform _ s) as [[a s']|].
  - intros comment Hfind.
    exists (may_remove_all request (from_deprecated_string course_id) course).
    split; [|exact Hmode].
    unfold un_flag_abuse_for_comment.
    rewrite Hcourse, bind_expect_some, (bind_cc_find _ _ _ _ _ Hfind).
    unfold bind, remote, trace.
    by destruct (perform _ s) as [[a s']|].
Qed.

End Unflag.

(** C5, an instance: bob, who is neither moderator nor staff, unflags the
    thread and the call is made with remove-all off; the moderator's call is
    made with remove-all on. *)
Lemma unflag_witness :
  trace (un_flag_abuse_for_thread (CS := Reference.service)
    (PF := Reference.platform Reference.enabled None Reference.no_upload)
    (Reference.request_by Reference.bob []) "edX/Demo/2015" "t1"
    Reference.store1)
  = [Remote (UnFlagAbuse Reference.bob KThread Reference.thread1 false)]
  /\ trace (un_flag_abuse_for_comment (CS := Reference.service)
       (PF := Reference.platform Reference.enabled None Reference.no_upload)
       (Reference.request_by Reference.moderator []) "edX/Demo/2015" "c1"
       Reference.store1)
     = [Remote (UnFlagAbuse Reference.moderator KComment Reference.comment1 true)].
Proof.
  split.
  - destruct (proj1 (unflag_removes_all_for_moderators_only
      (CS := Reference.service)
      (PF := Reference.platform Reference.enabled None Reference.no_upload)
      (Reference.request_by Reference.bob []) "edX/Demo/2015" "t1"
      Reference.store1 Reference.demo_course eq_refl)
      Reference.thread1 eq_refl) as (remove_all & Htrace & Hmode).
    destruct remove_all; [|exact Htrace].
    destruct (proj1 Hmode eq_refl) as [H|H]; discriminate H.
  - destruct (proj2 (unflag_removes_all_for_moderators_only
      (CS := Reference.service)
      (PF := Reference.platform Reference.enabled None Reference.no_upload)
      (Reference.request_by Reference.moderator []) "edX/Demo/2015" "c1"
      Reference.store1 Reference.demo_course eq_refl)
      Reference.comment1 eq_refl) as (remove_all & Htrace & Hmode).
    destruct remove_all; [exact Htrace|].
    discriminate (proj2 Hmode (or_introl eq_refl)).
Defined.

(** ** Partial updates *)

Section Updates.

Context {Store : Type} {CS : CommentService Store} {PF : Platform}.

Lemma reads_only_content_response request course_key content :
  reads_only (content_response request course_key content).
Proof.
  unfold content_response.
  destruct (is_ajax request); [apply reads_only_ajax | apply reads_only_ret].
Qed.

(** A mutating call followed by reading only: the call is the whole trace. *)
Lemma trace_remote_then_reads {B} c (f : Attrs -> M (Store := Store) B) s :
  (forall a, reads_only (f a)) -> trace (bind (remote c) f s) = [Remote c].
Proof.
  intros Hf. destruct (perform c s) as [[a s']|] eqn:Hp.
  - rewrite (bind_remote _ _ _ _ _ Hp). unfold trace at 1. simpl.
    by rewrite (proj2 (Hf a s')).
  - by rewrite (bind_remote_failed _ _ _ Hp).
Qed.

Lemma present_text post key :
  missing_or_blank post key = false -> exists v, post !! key = Some v.
Proof.
  unfold missing_or_blank. destruct (post !! key) as [v|]; [by exists v|done].
Qed.

(** The only call of [update_thread] is the save of the thread it found;
    each field of the saved thread is the old one, or one of the four
    fields that the handler writes, taken from the payload. *)
Lemma update_thread_trace request course_id id s c :
  Remote c ∈ trace (update_thread request course_id id s) ->
  exists old new,
    c = Save KThread new
    /\ find KThread s id = Some old
    /\ forall key,
         new !! key = old !! key
         \/ (key ∈ ["body"; "title"; "thread_type"; "commentable_id"]
             /\ exists v, POST request !! key = Some v
                          /\ new !! key = Some (PStr v)).
Proof.
  unfold update_thread.
  destruct (missing_or_blank (POST request) "title") eqn:Ht;
    [by intros ?%elem_of_nil|].
  destruct (missing_or_blank (POST request) "body") eqn:Hb;
    [by intros ?%elem_of_nil|].
  destruct (present_text _ _ Ht) as (title & Htitle).
  destruct (present_text _ _ Hb) as (body & Hbody).
  destruct (find KThread s id) as [old|] eqn:Hfind.
  2:{ unfold bind, cc_find. rewrite Hfind. by intros ?%elem_of_nil. }
  rewrite (bind_cc_find _ _ _ _ _ Hfind).
  unfold item. rewrite Hbody, bind_expect_some, Htitle, bind_expect_some.
  cbv zeta.
  set (typed := match POST request !! "thread_type" with
                | Some thread_type => _ | None => _ end).
  assert (forall key,
    typed !! key = old !! key
    \/ (key ∈ ["body"; "title"; "thread_type"; "commentable_id"]
        /\ exists v, POST request !! key = Some v
                     /\ typed !! key = Some (PStr v))) as Htyped.
  { intros key. subst typed.
    destruct (POST request !! "thread_type") as [thread_type|] eqn:Htype.
    - destruct (decide (key = "thread_type")) as [->|];
        [right; split; [set_solver|]; exists thread_type; by simplify_map_eq|].
      rewrite lookup_insert_ne by done.
      destruct (decide (key = "title")) as [->|];
        [right; split; [set_solver|]; exists title; by simplify_map_eq|].
      rewrite lookup_insert_ne by done.
      destruct (decide (key = "body")) as [->|];
        [right; split; [set_solver|]; exists body; by simplify_map_eq|].
      rewrite lookup_insert_ne by done. by left.
    - destruct (decide (key = "title")) as [->|];
        [right; split; [set_solver|]; exists title; by simplify_map_eq|].
      rewrite lookup_insert_ne by done.
      destruct (decide (key = "body")) as [->|];
        [right; split; [set_solver|]; exists body; by simplify_map_eq|].
      rewrite lookup_insert_ne by done. by left. }
  destruct (POST request !! "commentable_id") as [commentable_id|] eqn:Hcid.
  - destruct (get_course_with_access _ _ _) as [course|];
      [rewrite bind_expect_some | by intros ?%elem_of_nil].
    case_bool_decide; [|by intros ?%elem_of_nil].
    rewrite trace_remote_then_reads
      by (intros a; apply reads_only_content_response).
    intros [= ->]%list_elem_of_singleton.
    eexists old, _. split_and!; [done..|].
    intros key. destruct (decide (key = "commentable_id")) as [->|].
    + right. split; [set_solver|]. exists commentable_id. by simplify_map_eq.
    + rewrite lookup_insert_ne by done. apply Htyped.
  - rewrite trace_remote_then_reads
      by (intros a; apply reads_only_content_response).
    intros [= ->]%list_elem_of_singleton.
    by exists old, typed.
Qed.

(** The only call of [update_comment] is the save of the comment it found,
    with the new body. *)
Lemma update_comment_trace request course_id id s c :
  Remote c ∈ trace (update_comment request course_id id s) ->
  exists old body,
    c = Save KComment (<["body" := PStr body]> old)
    /\ find KComment s id = Some old
    /\ POST request !! "body" = Some body.
Proof.
  unfold update_comment.
  destruct (find KComment s id) as [old|] eqn:Hfind.
  2:{ unfold bind, cc_find. rewrite Hfind. by intros ?%elem_of_nil. }
  rewrite (bind_cc_find _ _ _ _ _ Hfind).
  destruct (missing_or_blank (POST request) "body") eqn:Hb;
    [by intros ?%elem_of_nil|].
  destruct (present_text _ _ Hb) as (body & Hbody).
  unfold item. rewrite Hbody, bind_expect_some.
  rewrite trace_remote_then_reads
    by (intros a; apply reads_only_content_response).
  intros [= ->]%list_elem_of_singleton. by exists old, body.
Qed.

(** C6.  Whatever an update handler sends to the comment service is the
    save of the entity it looked up, and a field that the payload omits has
    in the saved entity the value it had before: [update_thread] leaves
    [thread_type] and [commentable_id] (and every other field) alone when
    the payload does not carry them, and [update_comment] changes the body
    and nothing else.  No field is set to [None]. *)
Theorem update_keeps_absent_fields
    (request : Request) (course_id id : string) (s : Store) (c : Call) :
  (Remote c ∈ trace (update_thread request course_id id s) ->
   exists old new,
     c = Save KThread new
     /\ find KThread s id = Some old
     /\ (forall key, POST request !! key = None -> new !! key = old !! key)
     /\ (forall key, new !! key = Some PNone -> old !! key = Some PNone))
  /\ (Remote c ∈ trace (update_comment request course_id id s) ->
      exists old new,
        c = Save KComment new
        /\ find KComment s id = Some old
        /\ (forall key, key <> "body" -> new !! key = old !! key)
        /\ (forall key, new !! key = Some PNone -> old !! key = Some PNone)).
Proof.
  split.
  - intros Hc. destruct (update_thread_trace _ _ _ _ _ Hc)
      as (old & new & -> & Hfind & Hnew).
    exists old, new. split_and!; [done..| |].
    + intros key Hkey. destruct (Hnew key) as [H|(_ & v & Hv & _)];
        [done | congruence].
    + intros key Hkey. destruct (Hnew key) as [H|(_ & v & _ & Hv)];
        congruence.
  - intros Hc. destruct (update_comment_trace _ _ _ _ _ Hc)
      as (old & body & -> & Hfind & Hbody).
    eexists old, _. split_and!; [done..| |].
    + intros key Hkey. by rewrite lookup_insert_ne.
    + intros key. destruct (decide (key = "body")) as [->|].
      * by rewrite lookup_insert_eq.
      * by rewrite lookup_insert_ne.
Qed.

End Updates.

(** C6, an instance: alice rewrites title and body of her thread; the save
    carries the old [thread_type] and [commentable_id], which the payload
    did not mention. *)
Lemma update_witness :
  let request :=
    Reference.request_by Reference.alice
      [("title", "Welcome!"); ("body", "Hello all")] in
  exists new,
    trace (update_thread (CS := Reference.service)
      (PF := Reference.platform Reference.enabled None Reference.no_upload)
      request "edX/Demo/2015" "t1" Reference.store1)
    = [Remote (Save KThread new)]
    /\ new !! "thread_type" = Some (PStr "discussion")
    /\ new !! "commentable_id" = Some (PStr "general")
    /\ new !! "title" = Some (PStr "Welcome!").
Proof.
  intros request.
  destruct (proj1 (update_keeps_absent_fields (CS := Reference.service)
    (PF := Reference.platform Reference.enabled None Reference.no_upload)
    request "edX/Demo/2015" "t1" Reference.store1
    (Save KThread (<["title" := PStr "Welcome!"]>
                   (<["body" := PStr "Hello all"]> Reference.thread1))))
    ltac:(by left)) as (old & new & Hc & Hfind & Hkeep & _).
  injection Hc as <-. injection Hfind as <-.
  exists (<["title" := PStr "Welcome!"]>
          (<["body" := PStr "Hello all"]> Reference.thread1)).
  split; [reflexivity|]. split_and!.
  - rewrite (Hkeep "thread_type" eq_refl). reflexivity.
  - rewrite (Hkeep "commentable_id" eq_refl). reflexivity.
  - reflexivity.
Defined.

(** ** User lookup *)

Section Users.

Context {Store : Type} {CS : CommentService Store} {PF : Platform}.

(** C8.  A user lookup sends nothing to the comment service, and when it
    answers with a list of users the list has at most one entry; an entry is
    the user with exactly the requested username, and it is listed only if
    the thread count plus the comment count of that user in the course is
    greater than zero: a matching user without activity gives the empty
    list. *)
Theorem users_lists_active_match
    (request : Request) (course_id : string) (s : Store) (body : json) :
  result (users request course_id s) = Returned (JsonResponse body) ->
  trace (users request course_id s) = []
  /\ exists name matches,
       GET request !! "username" = Some name
       /\ body = JObj [("users", JList matches)]
       /\ (List.length matches <= 1)%nat
       /\ (forall m, m ∈ matches ->
             exists matched cc_user threads comments,
               get_user_by_username name = Some matched
               /\ m = user_json matched
               /\ user_retrieve s matched (from_deprecated_string course_id)
                    = Some cc_user
               /\ cc_user !! "threads_count" = Some (PInt threads)
               /\ cc_user !! "comments_count" = Some (PInt comments)
               /\ 0 < threads + comments)
       /\ (forall matched cc_user threads comments,
             get_user_by_username name = Some matched ->
             user_retrieve s matched (from_deprecated_string course_id)
               = Some cc_user ->
             cc_user !! "threads_count" = Some (PInt threads) ->
             cc_user !! "comments_count" = Some (PInt comments) ->
             threads + comments <= 0 ->
             matches = []).
Proof.
  unfold users.
  destruct (get_course_with_access _ _ _) as [course|]; [|done].
  destruct (GET request !! "username") as [name|]; [|done].
  destruct (get_user_by_username name) as [matched|] eqn:Hmatched.
  2:{ rewrite bind_ret. intros [= <-]. split; [done|].
      exists name, []. split_and!; try done; simpl; try lia.
      intros m Hm. by apply elem_of_nil in Hm. }
  unfold bind, count_of, expect, ret, raise, result, trace. simpl.
  destruct (user_retrieve s matched _) as [cc_user|] eqn:Hcc; simpl; [|done].
  destruct (cc_user !! "threads_count") as [[| |threads|]|] eqn:Hthreads;
    simpl; try done.
  destruct (cc_user !! "comments_count") as [[| |comments|]|] eqn:Hcomments;
    simpl; try done.
  destruct (Z.ltb_spec 0 (threads + comments)) as [Hpos|Hzero]; simpl;
    intros [= <-]; (split; [done|]).
  - exists name, [user_json matched]. split_and!; try done.
    + intros m ->%list_elem_of_singleton.
      by exists matched, cc_user, threads, comments.
    + intros matched' cc_user' threads' comments' Hm' Hcc' Ht' Hc' Hsum.
      simplify_eq. lia.
  - exists name, []. split_and!; try done; simpl; try lia.
    intros m Hm. by apply elem_of_nil in Hm.
Qed.

End Users.

(** C8, an instance: alice has two threads in the course and is found; bob
    exists but has no activity, and the list is empty. *)
Lemma users_witness :
  let lookup name := {|
    user := Reference.staff; POST := ∅;
    GET := Reference.post_of [("username", name)];
    is_ajax := true; view_name := "users" |} in
  let run name :=
    users (CS := Reference.service)
      (PF := Reference.platform Reference.enabled None Reference.no_upload)
      (lookup name) "edX/Demo/2015" Reference.store1 in
  result (run "alice")
    = Returned (JsonResponse (JObj [("users", JList [user_json Reference.alice])]))
  /\ result (run "bob") = Returned (JsonResponse (JObj [("users", JList [])]))
  /\ trace (run "bob") = [].
Proof.
  intros lookup run.
  split; [reflexivity|]. split; [reflexivity|].
  exact (proj1 (users_lists_active_match (CS := Reference.service)
    (PF := Reference.platform Reference.enabled None Reference.no_upload)
    (lookup "bob") "edX/Demo/2015" Reference.store1 _ eq_refl)).
Defined.

(** ** The pinned attribute of a new thread *)

Section Pinned.

Context {Store : Type} {CS : CommentService Store} {PF : Platform}.

Lemma patch_pinned_spec thread :
  patch_pinned thread !! "pinned"
  = Some (default (PBool false) (thread !! "pinned")).
Proof.
  unfold patch_pinned. destruct (thread !! "pinned") as [v|] eqn:Hv; simpl.
  - done.
  - by rewrite lookup_insert_eq.
Qed.

Lemma content_response_presents request course_key data (s : Store) body :
  result (content_response request course_key data s)
    = Returned (JsonResponse body) ->
  presents body data course_key.
Proof.
  unfold content_response, ajax_content_response, bind, expect, ret, result.
  destruct (is_ajax request); simpl.
  - destruct (user_to_dict s (user request)); simpl; [|done].
    intros [= <-]. right. by eexists.
  - intros [= <-]. by left.
Qed.

(** C10.  The thread entity of a successful [create_thread] response
    carries a [pinned] attribute: the entity handed to the formatter is the
    thread as the comment service saved it, with [pinned] set to [False]
    when the service left it out and untouched otherwise (for a courseware
    context that does not touch [pinned]). *)
Theorem created_thread_has_pinned
    (request : Request) (course_id commentable_id : string) (s s' : Store)
    (body : json) (course : Course) (new saved : Attrs) :
  let r := create_thread request course_id commentable_id s in
  let data := add_courseware_context course (patch_pinned saved) in
  (forall course data,
     add_courseware_context course data !! "pinned" = data !! "pinned") ->
  result r = Returned (JsonResponse body) ->
  get_course_with_access (user request) "load"
    (from_deprecated_string course_id) = Some course ->
  head (trace r) = Some (Remote (Save KThread new)) ->
  perform (Save KThread new) s = Some (saved, s') ->
  presents body data (from_deprecated_string course_id)
  /\ is_Some (data !! "pinned")
  /\ (saved !! "pinned" = None -> data !! "pinned" = Some (PBool false))
  /\ (forall v, saved !! "pinned" = Some v -> data !! "pinned" = Some v).
Proof.
  intros r data Hctx H Hcourse Hhead Hnew. subst r data.
  unfold create_thread in H, Hhead.
  rewrite Hcourse, bind_expect_some in H, Hhead.
  destruct (missing_or_blank (POST request) "title"); [done|].
  destruct (missing_or_blank (POST request) "body"); [done|].
  unfold item in H, Hhead.
  destruct (POST request !! "thread_type") as [thread_type|]; [|done].
  destruct (POST request !! "body") as [text|]; [|done].
  destruct (POST request !! "title") as [title|]; [|done].
  rewrite !bind_expect_some in H, Hhead.
  destruct (get_group_id_for_comments_service _ _ _) as [group_id|]; [|done].
  match type of Hhead with
  | context [bind (remote (Save KThread ?t)) ?f s] =>
      set (thread := t) in *; set (rest := f) in *
  end.
  destruct (trace_bind_remote (Save KThread thread) rest s) as (calls & Hcalls).
  rewrite Hcalls in Hhead. injection Hhead as <-.
  rewrite (bind_remote _ rest _ _ _ Hnew) in H. subst rest.
  unfold result in H at 1. simpl in H.
  apply bind_inv in H as (ignored & s2 & t2 & _ & H & _ & _).
  apply content_response_presents in H.
  split; [exact H|].
  rewrite Hctx, patch_pinned_spec. split_and!.
  - by eexists.
  - by intros ->.
  - by intros v ->.
Qed.

End Pinned.

(** C10, an instance: the reference service does not report [pinned], and
    the entity of the new thread carries [pinned] as [False]. *)
Lemma pinned_witness :
  let request :=
    Reference.request_by Reference.bob
      [("title", "Question"); ("body", "text"); ("thread_type", "question")] in
  let new : Attrs :=
    <["anonymous" := PBool false]> (
    <["anonymous_to_peers" := PBool false]> (
    <["commentable_id" := PStr "general"]> (
    <["course_id" := PStr "edX/Demo/2015"]> (
    <["user_id" := PInt 8]> (
    <["thread_type" := PStr "question"]> (
    <["body" := PStr "text"]> (
    <["title" := PStr "Question"]> ∅))))))) in
  let saved := <["id" := PStr "thread-new"]> new in
  let data :=
    <["courseware_title" := PStr "Week 1"]> (<["pinned" := PBool false]> saved) in
  exists body,
    result (create_thread (CS := Reference.service)
      (PF := Reference.platform Reference.enabled None Reference.no_upload)
      request "edX/Demo/2015" "general" Reference.store1)
    = Returned (JsonResponse body)
    /\ presents
         (PF := Reference.platform Reference.enabled None Reference.no_upload)
         body data (from_deprecated_string "edX/Demo/2015")
    /\ data !! "pinned" = Some (PBool false).
Proof.
  intros request new saved data.
  eexists. split; [reflexivity|].
  destruct (created_thread_has_pinned (CS := Reference.service)
    (PF := Reference.platform Reference.enabled None Reference.no_upload)
    request "edX/Demo/2015" "general" Reference.store1 _ _
    Reference.demo_course new saved
    (fun course data => lookup_insert_ne data "courseware_title" "pinned"
       (PStr "Week 1") ltac:(discriminate))
    eq_refl eq_refl eq_refl eq_refl) as (Hpresents & _ & Hnone & _).
  split; [exact Hpresents|]. apply Hnone. reflexivity.
Defined.

(** ** File upload *)

Section Upload.

Context {Store : Type} {CS : CommentService Store} {PF : Platform}.

(** The name under which [upload] stores a file. *)
Lemma upload_outcome_of request course_id now rnd (s : Store) :
  match
    store_uploaded_file request "file-upload" ALLOWED_UPLOAD_FILE_TYPES
      (PyStr.replace_char "." (pretty rnd) now) MAX_UPLOAD_FILE_SIZE
  with
  | Stored file_storage new_file_name =>
      let parsed_url := urlparse (file_storage new_file_name) in
      upload request course_id now rnd s
      = (Returned (upload_result "Good" ""
           (urlunparse {| scheme := scheme parsed_url;
                          netloc := netloc parsed_url;
                          path := path parsed_url;
                          params := ""; query := ""; fragment := "" |})),
         s, [])
  | PermissionDenied err =>
      upload request course_id now rnd s
      = if String.eqb err "" then (Raised (UnboundLocalError "file_storage"), s, [])
        else (Returned (upload_result "" err ""), s, [])
  | OtherException err =>
      upload request course_id now rnd s
      = (Returned (upload_result "" upload_error_message ""), s, [])
  end.
Proof.
  unfold upload.
  destruct (store_uploaded_file _ _ _ _ _) as [file_storage name|err|err];
    simpl; [done| |done].
  by destruct (String.eqb err "").
Qed.


End Upload.

Example upload_strips_query :
  result (upload (Store := Reference.store)
    (PF := Reference.platform ∅ None
       (Stored (fun name => "https://cdn.example.org/uploads/" +:+ name
                            +:+ "?Signature=abc#top") "14375_a.png"))
    (Reference.request_by Reference.bob []) "edX/Demo/2015" "1437.25" 5
    Reference.store1)
  = Returned (upload_result "Good" ""
      "https://cdn.example.org/uploads/14375_a.png").
Proof. reflexivity. Qed.

Example upload_hides_unexpected_error :
  result (upload (Store := Reference.store)
    (PF := Reference.platform ∅ None
       (OtherException "IOError: [Errno 28] No space left on device"))
    (Reference.request_by Reference.bob []) "edX/Demo/2015" "1437.25" 5
    Reference.store1)
  = Returned (upload_result "" upload_error_message "").
Proof. reflexivity. Qed.


(** The message of a permission error is what tells [upload] that the
    upload failed.  A storage that raised a permission error with no text
    at all would be taken for a success: [file_storage] is then read before
    it is bound. *)
Example upload_denial_without_text :
  upload (Store := Reference.store)
    (PF := Reference.platform ∅ None (PermissionDenied ""))
    (Reference.request_by Reference.bob []) "edX/Demo/2015" "1437.25" 5
    Reference.store1
  = (Raised (UnboundLocalError "file_storage"), Reference.store1, []).
Proof. reflexivity. Qed.

(** ** Further runs against the reference instance *)

Example reply_notifies_alice :
  published_to (trace (create_comment (CS := Reference.service)
    (PF := Reference.platform Reference.enabled (Some 3) Reference.no_upload)
    (Reference.request_by Reference.bob [("body", "Thanks")])
    "edX/Demo/2015" "t1" Reference.store1)) = [7].
Proof. reflexivity. Qed.

Example reply_to_comment_is_silent :
  published_to (trace (create_sub_comment (CS := Reference.service)
    (PF := Reference.platform Reference.enabled (Some 3) Reference.no_upload)
    (Reference.request_by Reference.alice [("body", "Thanks")])
    "edX/Demo/2015" "c1" Reference.store1)) = [].
Proof. reflexivity. Qed.

Example follow_notifies_alice :
  trace (follow_thread (CS := Reference.service)
    (PF := Reference.platform Reference.enabled None Reference.no_upload)
    (Reference.request_by Reference.bob []) "edX/Demo/2015" "t1"
    Reference.store1)
  = [Remote (Follow Reference.bob KThread Reference.thread1);
     RegisterType {| type_name := "open-edx.lms.discussions.thread-followed" |};
     Publish 7 {|
       namespace := "edX/Demo/2015";
       msg_type :=
         {| type_name := "open-edx.lms.discussions.thread-followed" |};
       payload := {|
         _schema_version := "1";
         action_user_id := 8;
         action_username := "bob";
         thread_title := PStr "Welcome";
         link_to_thread := "/discussion/threads/t1" |} |}].
Proof. reflexivity. Qed.

Example blank_body_on_missing_comment :
  update_comment (CS := Reference.service)
    (PF := Reference.platform Reference.enabled None Reference.no_upload)
    (Reference.request_by Reference.bob [("body", " ")])
    "edX/Demo/2015" "c9" Reference.store1
  = (Raised CommentClientRequestError, Reference.store1, []).
Proof. reflexivity. Qed.

Example unknown_topic_is_rejected :
  update_thread (CS := Reference.service)
    (PF := Reference.platform Reference.enabled None Reference.no_upload)
    (Reference.request_by Reference.alice
       [("title", "T"); ("body", "B"); ("commentable_id", "nowhere")])
    "edX/Demo/2015" "t1" Reference.store1
  = (Returned (JsonError ["Topic doesn't exist"] 400), Reference.store1, []).
Proof. reflexivity. Qed.

Example gate_denies :
  let closed := {|
    FEATURES := ∅; MAX_COMMENT_DEPTH := None;
    ALLOWED_UPLOAD_FILE_TYPES := []; MAX_UPLOAD_FILE_SIZE := 0;
    get_course_with_access _ _ _ := None;
    get_course_by_id _ := None;
    has_access _ _ _ := false;
    cached_has_permission _ _ _ := false;
    check_permissions_by_view _ _ _ _ := false;
    get_group_id_for_comments_service _ _ _ := None;
    get_discussion_categories_ids _ := [];
    add_courseware_context _ data := data;
    prepare_content _ _ := JNull;
    get_annotated_content_info _ _ _ _ := JNull;
    get_ability _ _ _ := JNull;
    permalink _ := "";
    get_notification_type name := {| type_name := name |};
    store_uploaded_file _ _ _ _ _ := Reference.no_upload;
    urlparse := Reference.simple_urlparse;
    urlunparse := Reference.simple_urlunparse;
    get_user_by_username _ := None |} in
  dispatch (CS := Reference.service) (PF := closed) delete_thread_view
    {| now := "0.0"; rnd := 0 |}
    (Reference.post_of [("course_id", "edX/Demo/2015"); ("thread_id", "t1")])
    (Reference.request_by Reference.bob []) Reference.store1
  = (Returned (JsonError ["unauthorized"] 401), Reference.store1, []).
Proof. reflexivity. Qed.


(** ** The permission gate *)

Section Gate.

Context {Store : Type} {CS : CommentService Store} {PF : Platform}.

(** [fetch_content] only reads. *)
Lemma fetch_content_reads kwargs :
  reads_only (fetch_content (Store := Store) kwargs).
Proof.
  intros s. unfold fetch_content, bind, cc_find, expect.
  destruct (kwargs !! "thread_id") as [tid|].
  - by destruct (find KThread s tid).
  - destruct (kwargs !! "comment_id") as [cid|]; [|done].
    by destruct (find KComment s cid).
Qed.

Lemma fetch_content_run kwargs (s : Store) :
  fetch_content kwargs s = (result (fetch_content kwargs s), s, []).
Proof.
  destruct (fetch_content_reads kwargs s) as (Hf & Ht).
  destruct (fetch_content kwargs s) as [[o s1] t1].
  unfold final, trace, result in *. simpl in *. by subst.
Qed.

Lemma permitted_run fn request kwargs (s : Store) course_id content :
  kwargs !! "course_id" = Some course_id ->
  result (fetch_content kwargs s) = Returned content ->
  permitted fn request kwargs s
  = if check_permissions_by_view (user request)
         (from_deprecated_string course_id) content (view_name request)
    then fn request s
    else (Returned (JsonError ["unauthorized"] 401), s, []).
Proof.
  intros Hcid Hcontent. unfold permitted, item.
  rewrite Hcid, bind_expect_some.
  unfold bind at 1. rewrite fetch_content_run, Hcontent.
  destruct (check_permissions_by_view _ _ _ _); [|done].
  by destruct (fn request s) as [[r s2] t2].
Qed.

(** X1.  A request that the permission check denies is answered with
    "unauthorized" and status 401, and the view itself is not run: nothing
    is sent to the comment service or to the publisher. *)
Theorem gate_denies_without_running
    (v : View) (clock : Clock) (kwargs : gmap string string)
    (request : Request) (s : Store) (course_id : string)
    (content : option Attrs) :
  gated v = true ->
  kwargs !! "course_id" = Some course_id ->
  result (fetch_content kwargs s) = Returned content ->
  check_permissions_by_view (user request)
    (from_deprecated_string course_id) content (view_name request) = false ->
  dispatch v clock kwargs request s
  = (Returned (JsonError ["unauthorized"] 401), s, []).
Proof.
  intros Hg Hcid Hcontent Hdeny. unfold dispatch. rewrite Hg.
  by rewrite (permitted_run _ _ _ _ _ _ Hcid Hcontent), Hdeny.
Qed.

(** X2.  A request that the permission check allows runs the view as if it
    were not wrapped: same outcome, same state of the comment service, same
    calls. *)
Theorem gate_allows_unchanged
    (v : View) (clock : Clock) (kwargs : gmap string string)
    (request : Request) (s : Store) (course_id : string)
    (content : option Attrs) :
  kwargs !! "course_id" = Some course_id ->
  result (fetch_content kwargs s) = Returned content ->
  check_permissions_by_view (user request)
    (from_deprecated_string course_id) content (view_name request) = true ->
  dispatch v clock kwargs request s = view_function v clock kwargs request s.
Proof.
  intros Hcid Hcontent Hallow. unfold dispatch.
  destruct (gated v); [|done].
  by rewrite (permitted_run _ _ _ _ _ _ Hcid Hcontent), Hallow.
Qed.

(** X3.  The gate resolves the thread of the route, or else its comment,
    before it asks for permission: when that entity does not exist the
    not-found error of the client leaves the gate, whatever the permissions,
    and the view is not run.  A [thread_id] takes precedence over a
    [comment_id]. *)
Theorem gate_raises_for_missing_target
    (v : View) (clock : Clock) (kwargs : gmap string string)
    (request : Request) (s : Store) (course_id id : string) :
  gated v = true ->
  kwargs !! "course_id" = Some course_id ->
  (kwargs !! "thread_id" = Some id /\ find KThread s id = None)
  \/ (kwargs !! "thread_id" = None /\ kwargs !! "comment_id" = Some id
      /\ find KComment s id = None) ->
  dispatch v clock kwargs request s
  = (Raised CommentClientRequestError, s, []).
Proof.
  intros Hg Hcid Hmissing. unfold dispatch. rewrite Hg.
  unfold permitted, item. rewrite Hcid, bind_expect_some.
  unfold bind at 1, fetch_content, bind, cc_find, expect.
  destruct Hmissing as [(-> & ->)|(-> & -> & ->)]; done.
Qed.

End Gate.

(** X1, an instance: a platform that denies everything answers a delete
    request with 401 and sends nothing. *)
Lemma gate_denies_witness :
  dispatch (CS := Reference.service) (PF := closed_platform)
    delete_thread_view noon (route_to "thread_id" "t1")
    (Reference.request_by Reference.bob []) Reference.store1
  = (Returned (JsonError ["unauthorized"] 401), Reference.store1, []).
Proof.
  exact (gate_denies_without_running (CS := Reference.service)
    (PF := closed_platform) delete_thread_view noon
    (route_to "thread_id" "t1") (Reference.request_by Reference.bob [])
    Reference.store1 "edX/Demo/2015" (Some Reference.thread1)
    eq_refl eq_refl eq_refl eq_refl).
Defined.

(** X2, an instance: the reference platform allows everything, and the
    gated delete is the delete. *)
Lemma gate_allows_witness :
  dispatch (CS := Reference.service)
    (PF := Reference.platform ∅ None Reference.no_upload)
    delete_thread_view noon (route_to "thread_id" "t1")
    (Reference.request_by Reference.bob []) Reference.store1
  = view_function (CS := Reference.service)
      (PF := Reference.platform ∅ None Reference.no_upload)
      delete_thread_view noon (route_to "thread_id" "t1")
      (Reference.request_by Reference.bob []) Reference.store1.
Proof.
  exact (gate_allows_unchanged (CS := Reference.service)
    (PF := Reference.platform ∅ None Reference.no_upload)
    delete_thread_view noon (route_to "thread_id" "t1")
    (Reference.request_by Reference.bob []) Reference.store1
    "edX/Demo/2015" (Some Reference.thread1) eq_refl eq_refl eq_refl).
Defined.

(** X3, an instance: a delete of a thread that does not exist. *)
Lemma gate_missing_witness :
  dispatch (CS := Reference.service)
    (PF := Reference.platform ∅ None Reference.no_upload)
    delete_thread_view noon (route_to "thread_id" "t9")
    (Reference.request_by Reference.bob []) Reference.store1
  = (Raised CommentClientRequestError, Reference.store1, []).
Proof.
  refine (gate_raises_for_missing_target (CS := Reference.service)
    (PF := Reference.platform ∅ None Reference.no_upload)
    delete_thread_view noon (route_to "thread_id" "t9")
    (Reference.request_by Reference.bob []) Reference.store1
    "edX/Demo/2015" "t9" eq_refl eq_refl _).
  left. split; reflexivity.
Defined.

(** ** Views that make one call *)

Section Direct.

Context {Store : Type} {CS : CommentService Store} {PF : Platform}.

Ltac direct_unfold :=
  unfold delete_thread, delete_comment, vote_for_comment,
    undo_vote_for_comment, undo_vote_for_thread, flag_abuse_for_thread,
    flag_abuse_for_comment, pin_thread, un_pin_thread, follow_commentable,
    follow_user, unfollow_thread, unfollow_commentable, unfollow_user.

(** X4.  Deleting, voting on a comment, withdrawing a vote, flagging, pinning,
    unpinning, following a topic or a user and unfollowing send exactly one
    call to the comment service: the call of the view, made in the name of
    the acting user on the entity that the route names.  The view answers
    if the call succeeds and ends in the error of the client if it fails. *)
Theorem direct_view_sends_one_call
    (v : View) (clock : Clock) (kwargs : gmap string string)
    (request : Request) (s : Store) (kind : Kind) (key : string)
    (call : User -> string -> string -> Attrs -> Call)
    (course_id id : string) (target : Attrs) :
  direct_action v = Some (kind, key, call) ->
  kwargs !! "course_id" = Some course_id ->
  kwargs !! key = Some id ->
  (v = vote_for_comment_view -> is_Some (kwargs !! "value")) ->
  find kind s id = Some target ->
  let c := call (user request) id (default "" (kwargs !! "value")) target in
  let r := view_function v clock kwargs request s in
  trace r = [Remote c]
  /\ match perform c s with
     | Some (a, s') =>
         final r = s' /\ exists body, result r = Returned (JsonResponse body)
     | None => final r = s /\ result r = Raised CommentClientRequestError
     end.
Proof.
  intros Hv Hcid Hkey Hvalue Hfind c r. subst c r.
  destruct v; simpl in Hv; simplify_eq; simpl;
    unfold with_args, arg; rewrite Hcid, Hkey;
    try (destruct (Hvalue eq_refl) as (value & ->); simpl);
    direct_unfold; rewrite (bind_cc_find _ _ _ _ _ Hfind);
    unfold bind, remote, ret, trace, final, result;
    (destruct (perform _ s) as [[a s']|]; simpl; [|done]);
    (split; [done|]); (split; [done|]); by eexists.
Qed.

(** X5.  When the entity that the route names does not exist, these views
    end in the not-found error of the client and send nothing. *)
Theorem direct_view_needs_its_target
    (v : View) (clock : Clock) (kwargs : gmap string string)
    (request : Request) (s : Store) (kind : Kind) (key : string)
    (call : User -> string -> string -> Attrs -> Call)
    (course_id id : string) :
  direct_action v = Some (kind, key, call) ->
  kwargs !! "course_id" = Some course_id ->
  kwargs !! key = Some id ->
  (v = vote_for_comment_view -> is_Some (kwargs !! "value")) ->
  find kind s id = None ->
  view_function v clock kwargs request s
  = (Raised CommentClientRequestError, s, []).
Proof.
  intros Hv Hcid Hkey Hvalue Hfind.
  destruct v; simpl in Hv; simplify_eq; simpl;
    unfold with_args, arg; rewrite Hcid, Hkey;
    try (destruct (Hvalue eq_refl) as (value & ->); simpl);
    direct_unfold; unfold bind, cc_find; by rewrite Hfind.
Qed.

End Direct.

(** X4, an instance: the moderator pins the thread. *)
Lemma direct_view_witness :
  trace (view_function (CS := Reference.service)
    (PF := Reference.platform ∅ None Reference.no_upload)
    pin_thread_view noon (route_to "thread_id" "t1")
    (Reference.request_by Reference.moderator []) Reference.store1)
  = [Remote (Pin Reference.moderator "t1" Reference.thread1)].
Proof.
  refine (proj1 (direct_view_sends_one_call (CS := Reference.service)
    (PF := Reference.platform ∅ None Reference.no_upload)
    pin_thread_view noon (route_to "thread_id" "t1")
    (Reference.request_by Reference.moderator []) Reference.store1
    KThread "thread_id" (fun u id _ target => Pin u id target)
    "edX/Demo/2015" "t1" Reference.thread1
    eq_refl eq_refl eq_refl _ eq_refl)).
  discriminate.
Defined.

(** X5, an instance: a flag on a comment that does not exist. *)
Lemma direct_view_missing_witness :
  view_function (CS := Reference.service)
    (PF := Reference.platform ∅ None Reference.no_upload)
    flag_abuse_for_comment_view noon (route_to "comment_id" "c9")
    (Reference.request_by Reference.bob []) Reference.store1
  = (Raised CommentClientRequestError, Reference.store1, []).
Proof.
  refine (direct_view_needs_its_target (CS := Reference.service)
    (PF := Reference.platform ∅ None Reference.no_upload)
    flag_abuse_for_comment_view noon (route_to "comment_id" "c9")
    (Reference.request_by Reference.bob []) Reference.store1
    KComment "comment_id" (fun u _ _ target => FlagAbuse u KComment target)
    "edX/Demo/2015" "c9" eq_refl eq_refl eq_refl _ eq_refl).
  discriminate.
Defined.

(** ** Creating a thread *)

Section CreateThread.

Context {Store : Type} {CS : CommentService Store} {PF : Platform}.

Lemma valid_text_present post key :
  ~ lacks_text post key ->
  missing_or_blank post key = false /\ exists v, post !! key = Some v.
Proof.
  intros Hv. destruct (missing_or_blank post key) eqn:Hm.
  - by apply missing_or_blank_spec in Hm.
  - split; [done|]. by apply present_text.
Qed.

(** X6.  A thread whose payload has title and body but no [thread_type]
    ends in [KeyError]: the field is read without a default, and nothing is
    saved. *)
Theorem create_thread_needs_thread_type
    (request : Request) (course_id commentable_id : string) (s : Store)
    (course : Course) :
  get_course_with_access (user request) "load"
    (from_deprecated_string course_id) = Some course ->
  ~ lacks_text (POST request) "title" ->
  ~ lacks_text (POST request) "body" ->
  POST request !! "thread_type" = None ->
  create_thread request course_id commentable_id s
  = (Raised (KeyError "thread_type"), s, []).
Proof.
  intros Hcourse (Ht & _)%valid_text_present (Hb & _)%valid_text_present Htype.
  unfold create_thread. rewrite Hcourse, bind_expect_some, Ht, Hb.
  unfold item. by rewrite Htype.
Qed.

(** X7.  A thread for which the cohort of the request cannot be resolved
    ([get_group_id_for_comments_service] raises [ValueError]) is answered
    with the bad request "Invalid cohort id", and nothing is saved. *)
Theorem create_thread_rejects_invalid_cohort
    (request : Request) (course_id commentable_id : string) (s : Store)
    (course : Course) (thread_type : string) :
  get_course_with_access (user request) "load"
    (from_deprecated_string course_id) = Some course ->
  ~ lacks_text (POST request) "title" ->
  ~ lacks_text (POST request) "body" ->
  POST request !! "thread_type" = Some thread_type ->
  get_group_id_for_comments_service request
    (from_deprecated_string course_id) commentable_id = None ->
  create_thread request course_id commentable_id s
  = (Returned (HttpResponseBadRequest "Invalid cohort id"), s, []).
Proof.
  intros Hcourse (Ht & title & Htitle)%valid_text_present
    (Hb & body & Hbody)%valid_text_present Htype Hgroup.
  unfold create_thread. rewrite Hcourse, bind_expect_some, Ht, Hb.
  unfold item. rewrite Htype, Hbody, Htitle, !bind_expect_some.
  by rewrite Hgroup.
Qed.

(** The save of [create_thread], when it is reached. *)
Lemma create_thread_save request course_id commentable_id (s : Store) c :
  Remote c ∈ trace (create_thread request course_id commentable_id s) ->
  exists course title body thread_type group_id new rest,
    get_course_with_access (user request) "load"
      (from_deprecated_string course_id) = Some course
    /\ POST request !! "title" = Some title
    /\ POST request !! "body" = Some body
    /\ POST request !! "thread_type" = Some thread_type
    /\ get_group_id_for_comments_service request
         (from_deprecated_string course_id) commentable_id = Some group_id
    /\ new !! "title" = Some (PStr title)
    /\ new !! "body" = Some (PStr body)
    /\ new !! "thread_type" = Some (PStr thread_type)
    /\ new !! "user_id" = Some (PInt (user_id (user request)))
    /\ new !! "course_id" = Some (PStr course_id)
    /\ new !! "commentable_id" = Some (PStr commentable_id)
    /\ new !! "anonymous"
       = Some (PBool (allow_anonymous course
                      && flag_set (POST request) "anonymous"))
    /\ new !! "anonymous_to_peers"
       = Some (PBool (allow_anonymous_to_peers course
                      && flag_set (POST request) "anonymous_to_peers"))
    /\ new !! "group_id" = PInt <$> group_id
    /\ new !! "id" = None
    /\ create_thread request course_id commentable_id s
       = bind (remote (Save KThread new)) rest s
    /\ rest = (fun thread =>
         bind (if flag_set (POST request) "auto_subscribe"
               then remote (Follow (user request) KThread (patch_pinned thread))
               else ret (patch_pinned thread))
           (fun _ => content_response request
                       (from_deprecated_string course_id)
                       (add_courseware_context course (patch_pinned thread)))).
Proof.
  unfold create_thread.
  destruct (get_course_with_access _ _ _) as [course|];
    [rewrite bind_expect_some | by intros ?%elem_of_nil].
  destruct (missing_or_blank (POST request) "title") eqn:Ht;
    [by intros ?%elem_of_nil|].
  destruct (missing_or_blank (POST request) "body") eqn:Hb;
    [by intros ?%elem_of_nil|].
  unfold item.
  destruct (POST request !! "thread_type") as [thread_type|];
    [rewrite bind_expect_some | by intros ?%elem_of_nil].
  destruct (present_text _ _ Ht) as (title & Htitle).
  destruct (present_text _ _ Hb) as (body & Hbody).
  rewrite Hbody, Htitle, !bind_expect_some.
  destruct (get_group_id_for_comments_service _ _ _) as [group_id|];
    [|by intros ?%elem_of_nil].
  intros _. eexists course, title, body, thread_type, group_id, _, _.
  split_and!; [done..| | | | | | | | | | |reflexivity|reflexivity];
    destruct group_id as [g|]; simplify_map_eq; try done;
    by destruct (allow_anonymous course), (allow_anonymous_to_peers course).
Qed.

(** What follows the save: the optional subscription and the response. *)
Lemma create_thread_rest_trace request course_key course thread (s : Store) :
  trace (bind (if flag_set (POST request) "auto_subscribe"
               then remote (Follow (user request) KThread (patch_pinned thread))
               else ret (patch_pinned thread))
          (fun _ => content_response request course_key
                      (add_courseware_context course (patch_pinned thread))) s)
  = if flag_set (POST request) "auto_subscribe"
    then [Remote (Follow (user request) KThread (patch_pinned thread))]
    else [].
Proof.
  destruct (flag_set (POST request) "auto_subscribe").
  - apply trace_remote_then_reads. intros a.
    apply reads_only_content_response.
  - rewrite bind_ret. apply reads_only_content_response.
Qed.

(** X8.  The thread that [create_thread] saves is attributed to the acting
    user and belongs to the course and topic of the route, whatever the
    payload says; it carries title, body and type of the payload as sent;
    it is anonymous (to all, or to peers) only if the course allows that
    kind of anonymity and the payload asks for it; it carries the cohort of
    the request when there is one; and it has no id yet. *)
Theorem created_thread_fields
    (request : Request) (course_id commentable_id : string) (s : Store)
    (new : Attrs) :
  Remote (Save KThread new)
    ∈ trace (create_thread request course_id commentable_id s) ->
  exists course title body thread_type group_id,
    get_course_with_access (user request) "load"
      (from_deprecated_string course_id) = Some course
    /\ POST request !! "title" = Some title
    /\ POST request !! "body" = Some body
    /\ POST request !! "thread_type" = Some thread_type
    /\ get_group_id_for_comments_service request
         (from_deprecated_string course_id) commentable_id = Some group_id
    /\ new !! "title" = Some (PStr title)
    /\ new !! "body" = Some (PStr body)
    /\ new !! "thread_type" = Some (PStr thread_type)
    /\ new !! "user_id" = Some (PInt (user_id (user request)))
    /\ new !! "course_id" = Some (PStr course_id)
    /\ new !! "commentable_id" = Some (PStr commentable_id)
    /\ new !! "anonymous"
       = Some (PBool (allow_anonymous course
                      && flag_set (POST request) "anonymous"))
    /\ new !! "anonymous_to_peers"
       = Some (PBool (allow_anonymous_to_peers course
                      && flag_set (POST request) "anonymous_to_peers"))
    /\ new !! "group_id" = PInt <$> group_id
    /\ new !! "id" = None.
Proof.
  intros Hin.
  destruct (create_thread_save _ _ _ _ _ Hin)
    as (course & title & body & thread_type & group_id & new' & rest
        & H1 & H2 & H3 & H4 & H5 & H6 & H7 & H8 & H9 & H10 & H11 & H12 & H13
        & H14 & H15 & Hrun & Hrest).
  assert (new = new') as ->.
  { rewrite Hrun in Hin.
    destruct (perform (Save KThread new') s) as [[saved s']|] eqn:Hp.
    - rewrite (bind_remote _ _ _ _ _ Hp) in Hin. unfold trace at 1 in Hin.
      simpl in Hin. apply elem_of_cons in Hin as [[= ->]|Hin]; [done|].
      subst rest. rewrite create_thread_rest_trace in Hin.
      destruct (flag_set _ _).
      + by apply list_elem_of_singleton in Hin.
      + by apply elem_of_nil in Hin.
    - rewrite (bind_remote_failed _ _ _ Hp) in Hin.
      by apply list_elem_of_singleton in Hin as [= ->]. }
  by exists course, title, body, thread_type, group_id.
Qed.

(** X9.  [create_thread] sends the save and, only if the save succeeded and
    the payload asks for [auto_subscribe], one more call: the subscription of
    the acting user to the saved thread.  When the save fails the request
    ends in the error of the client and nothing else is sent. *)
Theorem create_thread_calls
    (request : Request) (course_id commentable_id : string) (s : Store)
    (new : Attrs) :
  let r := create_thread request course_id commentable_id s in
  head (trace r) = Some (Remote (Save KThread new)) ->
  match perform (Save KThread new) s with
  | None => r = (Raised CommentClientRequestError, s, [Remote (Save KThread new)])
  | Some (saved, s') =>
      trace r
      = Remote (Save KThread new)
        :: if flag_set (POST request) "auto_subscribe"
           then [Remote (Follow (user request) KThread (patch_pinned saved))]
           else []
  end.
Proof.
  intros r Hhead. subst r.
  assert (Remote (Save KThread new)
            ∈ trace (create_thread request course_id commentable_id s)) as Hin.
  { destruct (trace _) as [|e t]; [done|]. injection Hhead as ->. by left. }
  destruct (create_thread_save _ _ _ _ _ Hin)
    as (course & title & body & thread_type & group_id & new' & rest
        & _ & _ & _ & _ & _ & _ & _ & _ & _ & _ & _ & _ & _ & _ & _
        & Hrun & Hrest).
  rewrite Hrun in Hhead |- *.
  destruct (trace_bind_remote (Save KThread new') rest s) as (calls & Hcalls).
  rewrite Hcalls in Hhead. injection Hhead as ->.
  destruct (perform (Save KThread new) s) as [[saved s']|] eqn:Hp.
  - rewrite (bind_remote _ _ _ _ _ Hp). unfold trace at 1. simpl.
    subst rest. by rewrite create_thread_rest_trace.
  - by rewrite (bind_remote_failed _ _ _ Hp).
Qed.

End CreateThread.

(** X6, an instance: title and body, but no thread type. *)
Lemma create_thread_type_witness :
  create_thread (CS := Reference.service)
    (PF := Reference.platform ∅ None Reference.no_upload)
    (Reference.request_by Reference.bob [("title", "Q"); ("body", "text")])
    "edX/Demo/2015" "general" Reference.store1
  = (Raised (KeyError "thread_type"), Reference.store1, []).
Proof.
  refine (create_thread_needs_thread_type (CS := Reference.service)
    (PF := Reference.platform ∅ None Reference.no_upload)
    (Reference.request_by Reference.bob [("title", "Q"); ("body", "text")])
    "edX/Demo/2015" "general" Reference.store1 Reference.demo_course
    eq_refl _ _ eq_refl); intros H; discriminate H.
Defined.

(** X7, an instance: a platform on which the cohort of the request does not
    resolve. *)
Lemma create_thread_cohort_witness :
  let request :=
    Reference.request_by Reference.bob
      [("title", "Q"); ("body", "text"); ("thread_type", "question")] in
  let strict := {|
    FEATURES := ∅; MAX_COMMENT_DEPTH := None;
    ALLOWED_UPLOAD_FILE_TYPES := []; MAX_UPLOAD_FILE_SIZE := 0;
    get_course_with_access _ _ k := Reference.load_course k;
    get_course_by_id := Reference.load_course;
    has_access _ _ _ := false;
    cached_has_permission _ _ _ := false;
    check_permissions_by_view _ _ _ _ := true;
    get_group_id_for_comments_service _ _ _ := None;
    get_discussion_categories_ids _ := [];
    add_courseware_context _ data := data;
    prepare_content _ _ := JNull;
    get_annotated_content_info _ _ _ _ := JNull;
    get_ability _ _ _ := JNull;
    permalink _ := "";
    get_notification_type name := {| type_name := name |};
    store_uploaded_file _ _ _ _ _ := Reference.no_upload;
    urlparse := Reference.simple_urlparse;
    urlunparse := Reference.simple_urlunparse;
    get_user_by_username _ := None |} in
  create_thread (CS := Reference.service) (PF := strict)
    request "edX/Demo/2015" "general" Reference.store1
  = (Returned (HttpResponseBadRequest "Invalid cohort id"),
     Reference.store1, []).
Proof.
  intros request strict.
  refine (create_thread_rejects_invalid_cohort (CS := Reference.service)
    (PF := strict) request "edX/Demo/2015" "general" Reference.store1
    Reference.demo_course "question" eq_refl _ _ eq_refl eq_refl);
    intros H; discriminate H.
Defined.

(** X8, an instance: bob asks for a thread that is anonymous in both
    ways and names another author; the demo course allows anonymity to all
    but not to peers, and the thread is bob's. *)
Lemma created_thread_witness :
  let request :=
    Reference.request_by Reference.bob
      [("title", "Q"); ("body", "text"); ("thread_type", "question");
       ("anonymous", "True"); ("anonymous_to_peers", "true");
       ("user_id", "7")] in
  exists new,
    head (trace (create_thread (CS := Reference.service)
      (PF := Reference.platform ∅ None Reference.no_upload)
      request "edX/Demo/2015" "general" Reference.store1))
    = Some (Remote (Save KThread new))
    /\ new !! "user_id" = Some (PInt 8)
    /\ new !! "anonymous" = Some (PBool true)
    /\ new !! "anonymous_to_peers" = Some (PBool false).
Proof.
  intros request.
  eexists. split; [reflexivity|].
  match goal with |- ?new !! _ = _ /\ _ =>
    destruct (created_thread_fields (CS := Reference.service)
      (PF := Reference.platform ∅ None Reference.no_upload)
      request "edX/Demo/2015" "general" Reference.store1 new
      ltac:(by left))
      as (course & title & body & thread_type & group_id & Hcourse & _ & _
          & _ & _ & _ & _ & _ & Huser & _ & _ & Hanon & Hpeers & _)
  end.
  injection Hcourse as <-.
  split; [exact Huser|]. split; [exact Hanon | exact Hpeers].
Defined.

(** X9, an instance: a thread with subscription. *)
Lemma create_thread_calls_witness :
  let request :=
    Reference.request_by Reference.bob
      [("title", "Q"); ("body", "text"); ("thread_type", "question");
       ("auto_subscribe", "true")] in
  let new : Attrs :=
    <["anonymous" := PBool false]> (
    <["anonymous_to_peers" := PBool false]> (
    <["commentable_id" := PStr "general"]> (
    <["course_id" := PStr "edX/Demo/2015"]> (
    <["user_id" := PInt 8]> (
    <["thread_type" := PStr "question"]> (
    <["body" := PStr "text"]> (
    <["title" := PStr "Q"]> ∅))))))) in
  trace (create_thread (CS := Reference.service)
    (PF := Reference.platform ∅ None Reference.no_upload)
    request "edX/Demo/2015" "general" Reference.store1)
  = [Remote (Save KThread new);
     Remote (Follow Reference.bob KThread
               (<["pinned" := PBool false]>
                  (<["id" := PStr "thread-new"]> new)))].
Proof.
  intros request new.
  exact (create_thread_calls (CS := Reference.service)
    (PF := Reference.platform ∅ None Reference.no_upload)
    request "edX/Demo/2015" "general" Reference.store1 new eq_refl).
Defined.

(** ** Updating, endorsing, closing *)

Section Edits.

Context {Store : Type} {CS : CommentService Store} {PF : Platform}.

(** X10.  An update that moves a thread to a topic that the course does not
    have is answered with "Topic doesn't exist", and the thread is not
    saved, although title and body were acceptable. *)
Theorem update_thread_rejects_unknown_topic
    (request : Request) (course_id thread_id : string) (s : Store)
    (thread : Attrs) (course : Course) (topic : string) :
  ~ lacks_text (POST request) "title" ->
  ~ lacks_text (POST request) "body" ->
  find KThread s thread_id = Some thread ->
  POST request !! "commentable_id" = Some topic ->
  get_course_with_access (user request) "load"
    (from_deprecated_string course_id) = Some course ->
  topic ∉ get_discussion_categories_ids course ->
  update_thread request course_id thread_id s
  = (Returned (json_error "Topic doesn't exist"), s, []).
Proof.
  intros (Ht & title & Htitle)%valid_text_present
    (Hb & body & Hbody)%valid_text_present Hfind Htopic Hcourse Hnot.
  unfold update_thread. rewrite Ht, Hb, (bind_cc_find _ _ _ _ _ Hfind).
  unfold item. rewrite Hbody, bind_expect_some, Htitle, bind_expect_some.
  cbv zeta. rewrite Htopic, Hcourse, bind_expect_some.
  by rewrite bool_decide_eq_false_2.
Qed.

(** X11.  What an update handler saves carries the text of the payload as
    it was sent (the white space around it included): [update_thread] writes
    title and body, the thread type when the payload has one, and the topic
    when the payload has one and the course has that topic;
    [update_comment] writes the body. *)
Theorem update_writes_payload
    (request : Request) (course_id id : string) (s : Store) (new : Attrs) :
  (Remote (Save KThread new) ∈ trace (update_thread request course_id id s) ->
   exists title body,
     POST request !! "title" = Some title
     /\ POST request !! "body" = Some body
     /\ new !! "title" = Some (PStr title)
     /\ new !! "body" = Some (PStr body)
     /\ (forall thread_type,
           POST request !! "thread_type" = Some thread_type ->
           new !! "thread_type" = Some (PStr thread_type))
     /\ (forall topic,
           POST request !! "commentable_id" = Some topic ->
           new !! "commentable_id" = Some (PStr topic)
           /\ exists course,
                get_course_with_access (user request) "load"
                  (from_deprecated_string course_id) = Some course
                /\ topic ∈ get_discussion_categories_ids course))
  /\ (Remote (Save KComment new)
        ∈ trace (update_comment request course_id id s) ->
      exists body,
        POST request !! "body" = Some body
        /\ new !! "body" = Some (PStr body)).
Proof.
  split.
  - unfold update_thread.
    destruct (missing_or_blank (POST request) "title") eqn:Ht;
      [by intros ?%elem_of_nil|].
    destruct (missing_or_blank (POST request) "body") eqn:Hb;
      [by intros ?%elem_of_nil|].
    destruct (present_text _ _ Ht) as (title & Htitle).
    destruct (present_text _ _ Hb) as (body & Hbody).
    destruct (find KThread s id) as [old|] eqn:Hfind.
    2:{ unfold bind, cc_find. rewrite Hfind. by intros ?%elem_of_nil. }
    rewrite (bind_cc_find _ _ _ _ _ Hfind).
    unfold item. rewrite Hbody, bind_expect_some, Htitle, bind_expect_some.
    cbv zeta.
    destruct (POST request !! "commentable_id") as [topic|] eqn:Htopic.
    + destruct (get_course_with_access _ _ _) as [course|] eqn:Hcourse;
        [rewrite bind_expect_some | by intros ?%elem_of_nil].
      case_bool_decide as Hin; [|by intros ?%elem_of_nil].
      rewrite trace_remote_then_reads
        by (intros a; apply reads_only_content_response).
      intros [= ->]%list_elem_of_singleton.
      exists title, body. split_and!; try done.
      * destruct (POST request !! "thread_type"); by simplify_map_eq.
      * destruct (POST request !! "thread_type"); by simplify_map_eq.
      * intros thread_type ->. by simplify_map_eq.
      * intros ? [= <-]. split; [by simplify_map_eq|]. by exists course.
    + rewrite trace_remote_then_reads
        by (intros a; apply reads_only_content_response).
      intros [= ->]%list_elem_of_singleton.
      exists title, body. split_and!; try done.
      * destruct (POST request !! "thread_type"); by simplify_map_eq.
      * destruct (POST request !! "thread_type"); by simplify_map_eq.
      * intros thread_type ->. by simplify_map_eq.
  - intros Hin.
    destruct (update_comment_trace _ _ _ _ _ Hin)
      as (old & body & [= ->] & _ & Hbody).
    exists body. split; [done|]. by simplify_map_eq.
Qed.

(** The saves of [endorse_comment] and [openclose_thread]. *)
Lemma endorse_comment_trace request course_id id (s : Store) old :
  find KComment s id = Some old ->
  trace (endorse_comment request course_id id s)
  = [Remote (Save KComment
       (<["endorsement_user_id" := PInt (user_id (user request))]>
          (<["endorsed" := PBool (flag_set (POST request) "endorsed")]> old)))].
Proof.
  intros Hfind. unfold endorse_comment.
  rewrite (bind_cc_find _ _ _ _ _ Hfind).
  apply trace_remote_then_reads. intros a. apply reads_only_ret.
Qed.

Lemma openclose_thread_trace request course_id id (s : Store) old :
  find KThread s id = Some old ->
  trace (openclose_thread request course_id id s)
  = [Remote (Save KThread
       (<["closed" := PBool (flag_set (POST request) "closed")]> old))].
Proof.
  intros Hfind. unfold openclose_thread.
  rewrite (bind_cc_find _ _ _ _ _ Hfind).
  apply trace_remote_then_reads. intros a. apply reads_only_ret.
Qed.

(** X12.  [endorse_comment] and [openclose_thread] send one save of the
    entity they found.  Endorsing sets [endorsed] from the payload (a
    payload without the field, or with anything but "true" in any case,
    withdraws the endorsement) and records the acting user as endorser
    either way; closing sets [closed] in the same manner; every other field
    is saved as it was found. *)
Theorem endorse_and_close_touch_their_fields
    (request : Request) (course_id id : string) (s : Store) (old : Attrs) :
  (find KComment s id = Some old ->
   exists new,
     trace (endorse_comment request course_id id s)
       = [Remote (Save KComment new)]
     /\ new !! "endorsed"
        = Some (PBool (flag_set (POST request) "endorsed"))
     /\ new !! "endorsement_user_id"
        = Some (PInt (user_id (user request)))
     /\ forall key, key <> "endorsed" -> key <> "endorsement_user_id" ->
          new !! key = old !! key)
  /\ (find KThread s id = Some old ->
      exists new,
        trace (openclose_thread request course_id id s)
          = [Remote (Save KThread new)]
        /\ new !! "closed" = Some (PBool (flag_set (POST request) "closed"))
        /\ forall key, key <> "closed" -> new !! key = old !! key).
Proof.
  split; intros Hfind.
  - eexists. split; [by apply endorse_comment_trace|].
    split_and!; [by simplify_map_eq..|].
    intros key H1 H2. by rewrite !lookup_insert_ne.
  - eexists. split; [by apply openclose_thread_trace|].
    split; [by simplify_map_eq|].
    intros key H1. by rewrite lookup_insert_ne.
Qed.

End Edits.

(** X10, an instance: alice moves her thread to a topic that is not one of
    the course. *)
Lemma unknown_topic_witness :
  let request :=
    Reference.request_by Reference.alice
      [("title", "T"); ("body", "B"); ("commentable_id", "nowhere")] in
  update_thread (CS := Reference.service)
    (PF := Reference.platform ∅ None Reference.no_upload)
    request "edX/Demo/2015" "t1" Reference.store1
  = (Returned (JsonError ["Topic doesn't exist"] 400), Reference.store1, []).
Proof.
  intros request.
  refine (update_thread_rejects_unknown_topic (CS := Reference.service)
    (PF := Reference.platform ∅ None Reference.no_upload)
    request "edX/Demo/2015" "t1" Reference.store1 Reference.thread1
    Reference.demo_course "nowhere" _ _ eq_refl eq_refl eq_refl _).
  - intros H; discriminate H.
  - intros H; discriminate H.
  - intros H. repeat (apply elem_of_cons in H as [H|H]; [discriminate H|]).
    by apply elem_of_nil in H.
Defined.

(** X11, an instance: a body with a space at either end is saved with the
    spaces, and the topic of the course is taken over. *)
Lemma update_payload_witness :
  let request :=
    Reference.request_by Reference.alice
      [("title", "T"); ("body", " B "); ("commentable_id", "week1")] in
  exists new,
    trace (update_thread (CS := Reference.service)
      (PF := Reference.platform ∅ None Reference.no_upload)
      request "edX/Demo/2015" "t1" Reference.store1)
    = [Remote (Save KThread new)]
    /\ new !! "body" = Some (PStr " B ")
    /\ new !! "commentable_id" = Some (PStr "week1").
Proof.
  intros request. eexists. split; [reflexivity|].
  match goal with |- ?new !! _ = _ /\ _ =>
    destruct (proj1 (update_writes_payload (CS := Reference.service)
      (PF := Reference.platform ∅ None Reference.no_upload)
      request "edX/Demo/2015" "t1" Reference.store1 new) ltac:(by left))
      as (title & body & _ & Hbody & _ & Hnew & _ & Htopic)
  end.
  injection Hbody as <-. split; [exact Hnew|].
  exact (proj1 (Htopic "week1" eq_refl)).
Defined.

(** X12, an instance: the moderator withdraws an endorsement and is
    recorded as endorser; the body of the comment stays. *)
Lemma endorse_witness :
  let request := Reference.request_by Reference.moderator [] in
  exists new,
    trace (endorse_comment (CS := Reference.service)
      (PF := Reference.platform ∅ None Reference.no_upload)
      request "edX/Demo/2015" "c1" Reference.store1)
    = [Remote (Save KComment new)]
    /\ new !! "endorsed" = Some (PBool false)
    /\ new !! "endorsement_user_id" = Some (PInt 2)
    /\ new !! "body" = Some (PStr "Hi").
Proof.
  intros request.
  destruct (proj1 (endorse_and_close_touch_their_fields
    (CS := Reference.service)
    (PF := Reference.platform ∅ None Reference.no_upload)
    request "edX/Demo/2015" "c1" Reference.store1 Reference.comment1) eq_refl)
    as (new & Htrace & Hendorsed & Huser & Hkeep).
  exists new. split_and!; [exact Htrace | exact Hendorsed | exact Huser |].
  rewrite (Hkeep "body") by discriminate. reflexivity.
Defined.

(** ** User lookup: the error paths *)

Section UsersErrors.

Context {Store : Type} {CS : CommentService Store} {PF : Platform}.

(** X13.  A user lookup never sends anything to the comment service or the
    publisher.  It checks the access to the forum of the course first and
    answers 404 with no message when that fails, also when the username is
    missing; with access and no [username] parameter it answers 400
    "username parameter is required"; and a username that no user has is
    not an error but the empty list. *)
Theorem users_error_paths
    (request : Request) (course_id : string) (s : Store) :
  let r := users request course_id s in
  let access :=
    get_course_with_access (user request) "load_forum"
      (from_deprecated_string course_id) in
  trace r = [] /\ final r = s
  /\ (access = None -> result r = Returned (JsonError [] 404))
  /\ (is_Some access -> GET request !! "username" = None ->
      result r = Returned (JsonError ["username parameter is required"] 400))
  /\ (forall name,
        is_Some access -> GET request !! "username" = Some name ->
        get_user_by_username name = None ->
        result r = Returned (JsonResponse (JObj [("users", JList [])]))).
Proof.
  intros r access. subst r access. unfold users.
  destruct (get_course_with_access _ _ _) as [course|].
  2:{ split_and!; try done; by intros [? [=]]. }
  destruct (GET request !! "username") as [name|].
  2:{ split_and!; try done. }
  assert (forall (m : M (Store := Store) (list json)),
    reads_only m ->
    reads_only (bind m (fun user_objs =>
      ret (JsonResponse (JObj [("users", JList user_objs)]))))) as Hbind.
  { intros m Hm s0. destruct (Hm s0) as (Hf & Ht).
    unfold bind, final, trace in *.
    destruct (m s0) as [[[a|e] s1] t1]; simpl in *; by subst. }
  assert (reads_only
    (match get_user_by_username name with
     | Some matched_user =>
         bind (fun s0 => expect CommentClientRequestError
                 (user_retrieve s0 matched_user
                    (from_deprecated_string course_id)) s0)
           (fun cc_user =>
              bind (count_of cc_user "threads_count") (fun threads_count =>
              bind (count_of cc_user "comments_count") (fun comments_count =>
                if 0 <? threads_count + comments_count
                then ret [user_json matched_user] else ret [])))
     | None => ret (Store := Store) []
     end)) as Hinner.
  { intros s0. destruct (get_user_by_username name) as [matched|]; [|done].
    unfold bind, count_of, expect, ret, raise, final, trace. simpl.
    destruct (user_retrieve s0 matched _) as [cc_user|]; simpl; [|done].
    destruct (cc_user !! "threads_count") as [[| |threads|]|]; simpl;
      try done.
    destruct (cc_user !! "comments_count") as [[| |comments|]|]; simpl;
      try done.
    by destruct (0 <? threads + comments). }
  destruct (Hbind _ Hinner s) as (Hf & Ht).
  split_and!; [exact Ht | exact Hf | done | done |].
  intros name' _ [= <-] Hnone. rewrite Hnone. by rewrite bind_ret.
Qed.

End UsersErrors.

(** X13, an instance: a lookup in a course that cannot be loaded, without a
    username. *)
Lemma users_error_witness :
  let request := Reference.request_by Reference.bob [] in
  result (users (CS := Reference.service)
    (PF := Reference.platform ∅ None Reference.no_upload)
    request "edX/Gone/2015" Reference.store1)
  = Returned (JsonError [] 404).
Proof.
  intros request.
  exact (proj1 (proj2 (proj2 (users_error_paths (CS := Reference.service)
    (PF := Reference.platform ∅ None Reference.no_upload)
    request "edX/Gone/2015" Reference.store1))) eq_refl).
Defined.

(** ** More on notifications *)

Section Messages.

Context {Store : Type} {CS : CommentService Store} {PF : Platform}.

Local Abbreviation M := (M (Store := Store)).

Lemma every_event_ret {A} P (a : A) : every_event P (ret (Store := Store) a).
Proof. intros s e H. by apply elem_of_nil in H. Qed.

Lemma every_event_raise {A} P e :
  every_event P (raise (Store := Store) (A := A) e).
Proof. intros s e' H. by apply elem_of_nil in H. Qed.

Lemma every_event_expect {A} P e (o : option A) :
  every_event P (expect (Store := Store) e o).
Proof. destruct o; [apply every_event_ret | apply every_event_raise]. Qed.

Lemma every_event_read {A} P e (f : Store -> option A) :
  every_event P (fun s => expect e (f s) s).
Proof. intros s e' H. destruct (f s); by apply elem_of_nil in H. Qed.

Lemma every_event_cc_find P k id : every_event P (cc_find k id).
Proof. apply every_event_read. Qed.

Lemma every_event_remote (P : Event -> Prop) c :
  P (Remote c) -> every_event P (remote c).
Proof.
  intros HP s e. unfold remote, trace.
  destruct (perform c s) as [[a s']|]; simpl;
    by intros ->%list_elem_of_singleton.
Qed.

Lemma every_event_bind {A B} P (m : M A) (f : A -> M B) :
  every_event P m -> (forall a, every_event P (f a)) ->
  every_event P (bind m f).
Proof.
  intros Hm Hf s e. specialize (Hm s). unfold bind, trace in *.
  destruct (m s) as [[[a|x] s1] t1]; simpl in *; [|by apply Hm].
  specialize (Hf a s1). unfold trace in Hf.
  destruct (f a s1) as [[r s2] t2]. simpl in *.
  intros [H|H]%elem_of_app; [by apply Hm | by apply Hf].
Qed.

End Messages.

Ltac every_event_with tac :=
  repeat first
    [ tac
    | apply every_event_ret | apply every_event_raise
    | apply every_event_cc_find | apply every_event_expect
    | apply every_event_read
    | apply every_event_remote; exact I
    | apply every_event_bind; [| intros ?]
    | case_match ].

Section MessageContent.

Context {Store : Type} {CS : CommentService Store} {PF : Platform}.

(** The property of an event that the content theorem is about. *)
Lemma notify_author_message op request thread :
  every_event
    (fun e => match e with
              | Publish recipient msg => describes op request recipient msg
              | _ => True
              end)
    (notify_author (Store := Store) (message_type_name op)
       (message_namespace op) request thread).
Proof.
  intros s e. unfold notify_author, original_poster, attr,
    publish_discussion_notification, emit, bind, expect, ret, raise, trace.
  destruct (thread !! "user_id") as [v|] eqn:Hv; simpl;
    [|by intros ?%elem_of_nil].
  destruct (py_int v) as [author|] eqn:Hauthor; simpl;
    [|by intros ?%elem_of_nil].
  destruct (negb _); simpl; [|by intros ?%elem_of_nil].
  destruct (thread !! "title") as [title|] eqn:Htitle; simpl;
    [|by intros ?%elem_of_nil].
  intros [->|[->|[]%elem_of_nil]%elem_of_cons]%elem_of_cons; [done|].
  unfold describes. simpl. split_and!; try done.
  exists thread. unfold thread_author. rewrite Hv. simpl. by rewrite Hauthor.
Qed.

(** X14.  Every notification that a reply, an upvote or a follow publishes
    is in the namespace of the course, has the type of the operation and
    schema version 1, names the acting user by id and username, and carries
    the title and the permalink of a thread whose author is the recipient. *)
Theorem notification_describes_operation
    (op : Operation) (request : Request) (s : Store)
    (recipient : Z) (msg : NotificationMessage) :
  Publish recipient msg ∈ trace (operate op request s) ->
  describes op request recipient msg.
Proof.
  intros H.
  cut (every_event
         (fun e => match e with
                   | Publish recipient msg => describes op request recipient msg
                   | _ => True
                   end) (operate op request)).
  { intros Hall. exact (Hall s _ H). }
  clear H. destruct op; simpl.
  - unfold _create_comment, ajax_content_response, item.
    every_event_with
      ltac:(apply (notify_author_message
                     (reply course_key thread_id parent_id))).
  - unfold vote_for_thread.
    every_event_with
      ltac:(apply (notify_author_message (upvote course_id thread_id value))).
  - unfold follow_thread.
    every_event_with
      ltac:(apply (notify_author_message (follow course_id thread_id))).
Qed.

End MessageContent.

(** X14, an instance: the notification of bob's upvote of alice's thread. *)
Lemma notification_content_witness :
  let request := Reference.request_by Reference.bob [] in
  let msg := {|
    namespace := "edX/Demo/2015";
    msg_type := {| type_name := "open-edx.lms.discussions.post-upvoted" |};
    payload := {|
      _schema_version := "1";
      action_user_id := 8;
      action_username := "bob";
      thread_title := PStr "Welcome";
      link_to_thread := "/discussion/threads/t1" |} |} in
  describes (PF := Reference.platform Reference.enabled None Reference.no_upload)
    (upvote "edX/Demo/2015" "t1" "up") request 7 msg.
Proof.
  intros request msg.
  refine (notification_describes_operation (CS := Reference.service)
    (PF := Reference.platform Reference.enabled None Reference.no_upload)
    (upvote "edX/Demo/2015" "t1" "up") request Reference.store1 7 msg _).
  right. right. left.
Defined.

Section Recipients.

Context {Store : Type} {CS : CommentService Store} {PF : Platform}.

Local Abbreviation M := (M (Store := Store)).

Lemma published_to_quiet t : publishes t = false -> published_to t = [].
Proof.
  induction t as [|e t IH]; [done|]. unfold publishes. simpl.
  intros [He Ht]%orb_false_iff. destruct e; try done; by apply IH.
Qed.

Lemma notifies_others_quiet {A} uid (m : M A) :
  quiet m -> notifies_others uid m.
Proof. intros Hq s. left. apply published_to_quiet, Hq. Qed.

Lemma notifies_others_after {A B} uid (m : M A) (f : A -> M B) :
  quiet m -> (forall a, notifies_others uid (f a)) ->
  notifies_others uid (bind m f).
Proof.
  intros Hm Hf s. specialize (Hm s). unfold bind, trace in *.
  destruct (m s) as [[[a|e] s1] t1]; simpl in *.
  - specialize (Hf a s1). unfold trace in Hf.
    destruct (f a s1) as [[r s2] t2]. simpl in *.
    by rewrite published_to_app, (published_to_quiet _ Hm).
  - left. by apply published_to_quiet.
Qed.

Lemma notifies_others_before {A B} uid (m : M A) (f : A -> M B) :
  notifies_others uid m -> (forall a, quiet (f a)) ->
  notifies_others uid (bind m f).
Proof.
  intros Hm Hf s. specialize (Hm s). unfold bind, trace in *.
  destruct (m s) as [[[a|e] s1] t1]; simpl in *; [|done].
  specialize (Hf a s1). unfold trace in Hf.
  destruct (f a s1) as [[r s2] t2]. simpl in *.
  by rewrite published_to_app, (published_to_quiet _ Hf), app_nil_r.
Qed.

Lemma notifies_others_notify_author name course_id request thread :
  notifies_others (user_id (user request))
    (notify_author (Store := Store) name course_id request thread).
Proof.
  intros s. unfold notify_author, original_poster, attr,
    publish_discussion_notification, emit, bind, expect, ret, raise, trace.
  destruct (thread !! "user_id") as [v|]; simpl; [|by left].
  destruct (py_int v) as [author|]; simpl; [|by left].
  destruct (Z.eqb_spec (user_id (user request)) author); simpl; [by left|].
  destruct (thread !! "title") as [title|]; simpl; [|by left].
  right. exists author. split; [done|]. congruence.
Qed.

End Recipients.

Ltac solve_quiet := solve [autounfold with handlers; quiet_tac].

Ltac others_tac :=
  repeat first
    [ apply notifies_others_notify_author
    | apply notifies_others_quiet; solve_quiet
    | apply notifies_others_after; [solve_quiet | intros ?]
    | apply notifies_others_before; [| intros ?; solve_quiet]
    | case_match ].

Section NoSelfNotification.

Context {Store : Type} {CS : CommentService Store} {PF : Platform}.

Lemma notifies_others__create_comment request course_key thread_id parent_id :
  notifies_others (user_id (user request))
    (_create_comment (Store := Store) request course_key thread_id parent_id).
Proof. unfold _create_comment, item. others_tac. Qed.

Lemma notifies_others_view_function v clock kwargs request :
  notifies_others (user_id (user request))
    (view_function (Store := Store) v clock kwargs request).
Proof.
  destruct (notifying v) eqn:Hv.
  2:{ apply notifies_others_quiet, quiet_view_function. by left. }
  destruct v; try discriminate Hv; simpl; unfold with_args, arg.
  - repeat case_match; try (apply notifies_others_quiet, quiet_raise).
    unfold create_comment. repeat case_match;
      try (apply notifies_others_quiet, quiet_ret);
      apply notifies_others__create_comment.
  - repeat case_match; try (apply notifies_others_quiet, quiet_raise).
    unfold vote_for_thread. others_tac.
  - repeat case_match; try (apply notifies_others_quiet, quiet_raise).
    unfold follow_thread. others_tac.
Qed.

(** X15.  Whatever the view, the route and the state of the comment
    service, a request publishes at most one notification, and never one to
    the acting user. *)
Theorem at_most_one_notification_to_another_user
    (v : View) (clock : Clock) (kwargs : gmap string string)
    (request : Request) (s : Store) :
  let recipients := published_to (trace (dispatch v clock kwargs request s)) in
  (List.length recipients <= 1)%nat
  /\ forall recipient, recipient ∈ recipients ->
       recipient <> user_id (user request).
Proof.
  intros recipients.
  assert (one_other_recipient (user_id (user request)) recipients) as H.
  { subst recipients. unfold dispatch. destruct (gated v).
    - unfold permitted, fetch_content, item.
      revert s. change (notifies_others (user_id (user request))
        (bind (expect (KeyError "course_id") (kwargs !! "course_id"))
           (fun course_id =>
              bind (match kwargs !! "thread_id" with
                    | Some thread_id =>
                        bind (cc_find KThread thread_id)
                          (fun content => ret (Some content))
                    | None =>
                        match kwargs !! "comment_id" with
                        | Some comment_id =>
                            bind (cc_find KComment comment_id)
                              (fun content => ret (Some content))
                        | None => ret None
                        end
                    end)
                (fun content =>
                   if check_permissions_by_view (user request)
                        (from_deprecated_string course_id) content
                        (view_name request)
                   then view_function v clock kwargs request
                   else ret (JsonError ["unauthorized"] 401))))).
      apply notifies_others_after; [solve_quiet | intros course_id].
      apply notifies_others_after; [solve_quiet | intros content].
      destruct (check_permissions_by_view _ _ _ _).
      + apply notifies_others_view_function.
      + apply notifies_others_quiet, quiet_ret.
    - apply notifies_others_view_function. }
  destruct H as [->|(r & -> & Hr)].
  - split; [simpl; lia|]. intros r Hr. by apply elem_of_nil in Hr.
  - split; [simpl; lia|]. by intros ? ->%list_elem_of_singleton.
Qed.

(** X16.  A notification is published only after the comment service has
    accepted the action: when a reply, an upvote or a follow publishes, the
    first call of the request is a call to the comment service, and that
    call succeeded. *)
Theorem notification_follows_accepted_action
    (op : Operation) (request : Request) (s : Store) :
  publishes (trace (operate op request s)) = true ->
  exists c a s' rest,
    trace (operate op request s) = Remote c :: rest
    /\ perform c s = Some (a, s').
Proof.
  destruct op; simpl.
  - unfold _create_comment.
    destruct (missing_or_blank (POST request) "body") eqn:Hb; [done|].
    destruct (get_course_with_access _ _ _) as [course|];
      [rewrite bind_expect_some | done].
    destruct (present_text _ _ Hb) as (body & Hbody).
    unfold item. rewrite Hbody, bind_expect_some.
    match goal with |- context [bind (remote ?c) ?f s] =>
      destruct (perform c s) as [[a s']|] eqn:Hp;
        [rewrite (bind_remote c f _ _ _ Hp)
        | by rewrite (bind_remote_failed c f _ Hp)];
      intros _; by exists c, a, s', (trace (f a s'))
    end.
  - unfold vote_for_thread.
    destruct (find KThread s thread_id) as [t|] eqn:Hfind.
    2:{ unfold bind, cc_find. by rewrite Hfind. }
    rewrite (bind_cc_find _ _ _ _ _ Hfind).
    match goal with |- context [bind (remote ?c) ?f s] =>
      destruct (perform c s) as [[a s']|] eqn:Hp;
        [rewrite (bind_remote c f _ _ _ Hp)
        | by rewrite (bind_remote_failed c f _ Hp)];
      intros _; by exists c, a, s', (trace (f a s'))
    end.
  - unfold follow_thread.
    destruct (find KThread s thread_id) as [t|] eqn:Hfind.
    2:{ unfold bind, cc_find. by rewrite Hfind. }
    rewrite (bind_cc_find _ _ _ _ _ Hfind).
    match goal with |- context [bind (remote ?c) ?f s] =>
      destruct (perform c s) as [[a s']|] eqn:Hp;
        [rewrite (bind_remote c f _ _ _ Hp)
        | by rewrite (bind_remote_failed c f _ Hp)];
      intros _; by exists c, a, s', (trace (f a s'))
    end.
Qed.

(** X17.  The notification is not isolated from the request: with
    notifications enabled, an upvote of a thread whose [user_id] cannot be
    read as a number is sent to the comment service, which records it, and
    then the request ends in an exception instead of a response:
    [AttributeError] when the thread has no [user_id], [TypeError] when it
    is [None], [ValueError] when it is a text that is not a number. *)
Theorem unreadable_author_fails_the_upvote
    (request : Request) (course_id thread_id value : string) (s s' : Store)
    (thread voted : Attrs) :
  notifications_enabled = true ->
  find KThread s thread_id = Some thread ->
  perform (Vote (user request) KThread thread value) s = Some (voted, s') ->
  thread_author voted = None ->
  exists e,
    vote_for_thread request course_id thread_id value s
    = (Raised e, s', [Remote (Vote (user request) KThread thread value)])
    /\ ((voted !! "user_id" = None /\ e = AttributeError "user_id")
        \/ (voted !! "user_id" = Some PNone /\ e = TypeError)
        \/ (exists text,
              voted !! "user_id" = Some (PStr text) /\ e = ValueError)).
Proof.
  intros Hon Hfind Hvote Hauthor. unfold vote_for_thread.
  rewrite (bind_cc_find _ _ _ _ _ Hfind), (bind_remote _ _ _ _ _ Hvote), Hon.
  unfold notify_author, original_poster, attr, bind, expect, ret, raise,
    result, final, trace.
  unfold thread_author in Hauthor.
  destruct (voted !! "user_id") as [v|]; simpl in *.
  - rewrite Hauthor. simpl. exists (int_error v). split; [done|].
    destruct v as [|b|z|text]; simpl in *; try done.
    + right. by left.
    + right. right. by exists text.
  - exists (AttributeError "user_id"). split; [done|]. by left.
Qed.

End NoSelfNotification.

(** X16, an instance: bob's reply to alice's thread. *)
Lemma notification_order_witness :
  let request := Reference.request_by Reference.bob [("body", "Thanks")] in
  exists c rest,
    trace (operate (CS := Reference.service)
      (PF := Reference.platform Reference.enabled None Reference.no_upload)
      (reply (from_deprecated_string "edX/Demo/2015") (Some "t1") None)
      request Reference.store1) = Remote c :: rest
    /\ is_Some (Reference.apply_call c Reference.store1).
Proof.
  intros request.
  destruct (notification_follows_accepted_action (CS := Reference.service)
    (PF := Reference.platform Reference.enabled None Reference.no_upload)
    (reply (from_deprecated_string "edX/Demo/2015") (Some "t1") None)
    request Reference.store1 eq_refl) as (c & a & s' & rest & Htrace & Hp).
  exists c, rest. split; [exact Htrace|]. by eexists.
Defined.

(** X17, an instance: a thread whose author is recorded as "staff-import",
    and one whose author is [None]. *)
Lemma unreadable_author_witness :
  let imported : Attrs :=
    <["id" := PStr "t2"]> (<["user_id" := PStr "staff-import"]> (
    <["title" := PStr "FAQ"]> ∅)) in
  let orphan : Attrs :=
    <["id" := PStr "t3"]> (<["user_id" := PNone]> (
    <["title" := PStr "Old"]> ∅)) in
  let store2 : Reference.store := {|
    Reference.threads := <["t3" := orphan]> {[ "t2" := imported ]};
    Reference.comments := ∅ |} in
  let request := Reference.request_by Reference.bob [] in
  vote_for_thread (CS := Reference.service)
    (PF := Reference.platform Reference.enabled None Reference.no_upload)
    request "edX/Demo/2015" "t2" "up" store2
  = (Raised ValueError, store2,
     [Remote (Vote Reference.bob KThread imported "up")])
  /\ vote_for_thread (CS := Reference.service)
       (PF := Reference.platform Reference.enabled None Reference.no_upload)
       request "edX/Demo/2015" "t3" "up" store2
     = (Raised TypeError, store2,
        [Remote (Vote Reference.bob KThread orphan "up")]).
Proof.
  intros imported orphan store2 request. split.
  - destruct (unreadable_author_fails_the_upvote (CS := Reference.service)
      (PF := Reference.platform Reference.enabled None Reference.no_upload)
      request "edX/Demo/2015" "t2" "up" store2 store2 imported imported
      eq_refl eq_refl eq_refl eq_refl) as (e & Hrun & He).
    etransitivity; [exact Hrun|].
    destruct He as [(Hv & _)|[(Hv & _)|(text & _ & ->)]];
      [discriminate Hv | discriminate Hv | reflexivity].
  - destruct (unreadable_author_fails_the_upvote (CS := Reference.service)
      (PF := Reference.platform Reference.enabled None Reference.no_upload)
      request "edX/Demo/2015" "t3" "up" store2 store2 orphan orphan
      eq_refl eq_refl eq_refl eq_refl) as (e & Hrun & He).
    etransitivity; [exact Hrun|].
    destruct He as [(Hv & _)|[(_ & ->)|(text & Hv & _)]];
      [discriminate Hv | reflexivity | discriminate Hv].
Defined.

(** ** Replies *)

Section Replies.

Context {Store : Type} {CS : CommentService Store} {PF : Platform}.

Lemma every_event_notify_author (P : Event -> Prop)
    name course_id request thread :
  (forall t, P (RegisterType t)) -> (forall r m, P (Publish r m)) ->
  every_event P (notify_author (Store := Store) name course_id request thread).
Proof.
  intros Hreg Hpub s e. unfold notify_author, original_poster, attr,
    publish_discussion_notification, emit, bind, expect, ret, raise, trace.
  destruct (thread !! "user_id") as [v|]; simpl; [|by intros ?%elem_of_nil].
  destruct (py_int v) as [author|]; simpl; [|by intros ?%elem_of_nil].
  destruct (negb _); simpl; [|by intros ?%elem_of_nil].
  destruct (thread !! "title") as [title|]; simpl; [|by intros ?%elem_of_nil].
  intros [->|[->|[]%elem_of_nil]%elem_of_cons]%elem_of_cons; done.
Qed.

(** The run of [_create_comment] from its save on. *)
Lemma _create_comment_save request course_key thread_id parent_id (s : Store) c :
  Remote c ∈ trace (_create_comment request course_key thread_id parent_id s) ->
  exists course body new rest,
    get_course_with_access (user request) "load" course_key = Some course
    /\ POST request !! "body" = Some body
    /\ new !! "body" = Some (PStr body)
    /\ new !! "user_id" = Some (PInt (user_id (user request)))
    /\ new !! "course_id" = Some (PStr (to_deprecated_string course_key))
    /\ new !! "thread_id" = Some (opt_str thread_id)
    /\ new !! "parent_id" = Some (opt_str parent_id)
    /\ new !! "anonymous"
       = Some (PBool (allow_anonymous course
                      && flag_set (POST request) "anonymous"))
    /\ new !! "anonymous_to_peers"
       = Some (PBool (allow_anonymous_to_peers course
                      && flag_set (POST request) "anonymous_to_peers"))
    /\ new !! "id" = None
    /\ _create_comment request course_key thread_id parent_id s
       = bind (remote (Save KComment new)) rest s
    /\ forall saved,
         every_event
           (fun e => forall c', e = Remote c' ->
              flag_set (POST request) "auto_subscribe" = true
              /\ c' = Follow (user request) KThread (comment_thread saved))
           (rest saved).
Proof.
  unfold _create_comment.
  destruct (missing_or_blank (POST request) "body") eqn:Hb;
    [by intros ?%elem_of_nil|].
  destruct (get_course_with_access _ _ _) as [course|];
    [rewrite bind_expect_some | by intros ?%elem_of_nil].
  destruct (present_text _ _ Hb) as (body & Hbody).
  unfold item. rewrite Hbody, bind_expect_some.
  intros _. eexists course, body, _, _.
  split_and!; [done..| | | | | | | | | reflexivity |].
  1-8: simplify_map_eq; try done;
    by destruct (allow_anonymous course), (allow_anonymous_to_peers course).
  intros saved. cbv beta.
  apply every_event_bind.
  { destruct (flag_set (POST request) "auto_subscribe");
      [|apply every_event_ret].
    apply every_event_remote. by intros ? [= <-]. }
  intros _. apply every_event_bind.
  { destruct (_ && _); [|apply every_event_ret].
    apply every_event_bind.
    - destruct thread_id; [apply every_event_cc_find | apply every_event_raise].
    - intros thread. by apply every_event_notify_author. }
  intros _. destruct (is_ajax request); [|apply every_event_ret].
  unfold ajax_content_response. apply every_event_bind.
  - apply every_event_read.
  - intros ?. apply every_event_ret.
Qed.

(** The fields of the comment that [_create_comment] saves. *)
Lemma _create_comment_saved_fields
    (request : Request) (course_key : CourseKey)
    (thread_id parent_id : option string) (s : Store) (new : Attrs) :
  Remote (Save KComment new)
    ∈ trace (_create_comment request course_key thread_id parent_id s) ->
  exists course body,
    get_course_with_access (user request) "load" course_key = Some course
    /\ POST request !! "body" = Some body
    /\ new !! "body" = Some (PStr body)
    /\ new !! "user_id" = Some (PInt (user_id (user request)))
    /\ new !! "course_id" = Some (PStr (to_deprecated_string course_key))
    /\ new !! "thread_id" = Some (opt_str thread_id)
    /\ new !! "parent_id" = Some (opt_str parent_id)
    /\ new !! "anonymous"
       = Some (PBool (allow_anonymous course
                      && flag_set (POST request) "anonymous"))
    /\ new !! "anonymous_to_peers"
       = Some (PBool (allow_anonymous_to_peers course
                      && flag_set (POST request) "anonymous_to_peers"))
    /\ new !! "id" = None.
Proof.
  intros Hin.
  destruct (_create_comment_save _ _ _ _ _ _ Hin)
    as (course & body & new' & rest & H1 & H2 & H3 & H4 & H5 & H6 & H7 & H8
        & H9 & H10 & Hrun & Hrest).
  assert (new = new') as ->.
  { rewrite Hrun in Hin.
    destruct (perform (Save KComment new') s) as [[saved s']|] eqn:Hp.
    - rewrite (bind_remote _ _ _ _ _ Hp) in Hin. unfold trace at 1 in Hin.
      simpl in Hin. apply elem_of_cons in Hin as [[= ->]|Hin]; [done|].
      by destruct (Hrest saved s' _ Hin _ eq_refl) as (_ & [=]).
    - rewrite (bind_remote_failed _ _ _ Hp) in Hin.
      by apply list_elem_of_singleton in Hin as [= ->]. }
  by exists course, body.
Qed.

(** X18.  The comment that [_create_comment] saves is attributed to the
    acting user and to the course, thread and parent that the handler was
    called with, whatever the payload says; it carries the body as sent; it
    is anonymous (to all, or to peers) only if the course allows that kind
    of anonymity and the payload asks for it; and it has no id yet. *)
Theorem created_comment_fields
    (request : Request) (course_key : CourseKey)
    (thread_id parent_id : option string) (s : Store) (new : Attrs) :
  Remote (Save KComment new)
    ∈ trace (_create_comment request course_key thread_id parent_id s) ->
  exists course body,
    get_course_with_access (user request) "load" course_key = Some course
    /\ POST request !! "body" = Some body
    /\ new !! "body" = Some (PStr body)
    /\ new !! "user_id" = Some (PInt (user_id (user request)))
    /\ new !! "course_id" = Some (PStr (to_deprecated_string course_key))
    /\ new !! "thread_id" = Some (opt_str thread_id)
    /\ new !! "parent_id" = Some (opt_str parent_id)
    /\ new !! "anonymous"
       = Some (PBool (allow_anonymous course
                      && flag_set (POST request) "anonymous"))
    /\ new !! "anonymous_to_peers"
       = Some (PBool (allow_anonymous_to_peers course
                      && flag_set (POST request) "anonymous_to_peers"))
    /\ new !! "id" = None.
Proof. apply _create_comment_saved_fields. Qed.

(** X19.  [_create_comment] sends the save first.  When the save fails the
    request ends in the error of the client with nothing else sent: no
    subscription, no notification.  When it succeeds, the only other call to
    the comment service is the subscription of the acting user to the thread
    of the saved comment, and only if the payload asks for [auto_subscribe]. *)
Theorem create_comment_calls
    (request : Request) (course_key : CourseKey)
    (thread_id parent_id : option string) (s : Store) (new : Attrs) :
  let r := _create_comment request course_key thread_id parent_id s in
  head (trace r) = Some (Remote (Save KComment new)) ->
  match perform (Save KComment new) s with
  | None =>
      r = (Raised CommentClientRequestError, s, [Remote (Save KComment new)])
  | Some (saved, s') =>
      exists rest,
        trace r = Remote (Save KComment new) :: rest
        /\ forall c, Remote c ∈ rest ->
             flag_set (POST request) "auto_subscribe" = true
             /\ c = Follow (user request) KThread (comment_thread saved)
  end.
Proof.
  intros r Hhead. subst r.
  assert (Remote (Save KComment new)
    ∈ trace (_create_comment request course_key thread_id parent_id s))
    as Hin.
  { destruct (trace _) as [|e t]; [done|]. injection Hhead as ->. by left. }
  destruct (_create_comment_save _ _ _ _ _ _ Hin)
    as (course & body & new' & rest & _ & _ & _ & _ & _ & _ & _ & _
        & _ & _ & Hrun & Hrest).
  rewrite Hrun in Hhead |- *.
  destruct (trace_bind_remote (Save KComment new') rest s) as (calls & Hcalls).
  rewrite Hcalls in Hhead. injection Hhead as ->.
  destruct (perform (Save KComment new) s) as [[saved s']|] eqn:Hp.
  - rewrite (bind_remote _ _ _ _ _ Hp). unfold trace at 1. simpl.
    eexists. split; [done|].
    intros c Hc. by apply (Hrest saved s' _ Hc).
  - by rewrite (bind_remote_failed _ _ _ Hp).
Qed.

(** X20.  A reply to a comment is created as [_create_comment] with that
    comment as parent and no thread id when no maximum depth is configured
    (the parent is then not even looked up) or when the depth of the parent
    is below the maximum; such a reply never publishes a notification. *)
Theorem reply_below_the_limit
    (request : Request) (course_id comment_id : string) (s : Store) :
  (MAX_COMMENT_DEPTH = None
   \/ exists max_depth parent depth,
        MAX_COMMENT_DEPTH = Some max_depth
        /\ find KComment s comment_id = Some parent
        /\ parent !! "depth" = Some (PInt depth)
        /\ depth < max_depth) ->
  let r := create_sub_comment request course_id comment_id s in
  r = _create_comment request (from_deprecated_string course_id)
        None (Some comment_id) s
  /\ publishes (trace r) = false
  /\ forall new, Remote (Save KComment new) ∈ trace r ->
       new !! "parent_id" = Some (PStr comment_id)
       /\ new !! "thread_id" = Some PNone.
Proof.
  intros Hlimit r.
  assert (r = _create_comment request (from_deprecated_string course_id)
                None (Some comment_id) s) as Hr.
  { subst r. unfold create_sub_comment.
    destruct Hlimit as [->|(m & parent & depth & -> & Hfind & Hdepth & Hlt)];
      [done|].
    unfold comment_depth, bind, cc_find, attr, expect.
    rewrite Hfind. simpl. rewrite Hdepth. simpl.
    rewrite (proj2 (Z.leb_gt _ _) Hlt).
    by destruct (_create_comment _ _ _ _ s) as [[o s2] t2]. }
  clearbody r. subst r. split; [done|]. split.
  - by apply quiet__create_comment; right.
  - intros new Hin.
    destruct (_create_comment_saved_fields _ _ _ _ _ _ Hin)
      as (course & body & _ & _ & _ & _ & _ & Ht & Hp & _).
    done.
Qed.

End Replies.

Lemma head_elem_of {A} (x : A) (l : list A) : head l = Some x -> x ∈ l.
Proof. destruct l as [|y l]; [done|]. intros [= ->]. by left. Qed.

(** X18, an instance: bob comments on the thread and names alice as
    author in the payload; the comment is bob's. *)
Lemma created_comment_witness :
  let request :=
    Reference.request_by Reference.bob
      [("body", " Thanks "); ("user_id", "7"); ("anonymous_to_peers", "true")] in
  let new : Attrs :=
    <["anonymous" := PBool false]> (
    <["anonymous_to_peers" := PBool false]> (
    <["user_id" := PInt 8]> (
    <["course_id" := PStr "edX/Demo/2015"]> (
    <["thread_id" := PStr "t1"]> (
    <["parent_id" := PNone]> (
    <["body" := PStr " Thanks "]> ∅)))))) in
  head (trace (_create_comment (CS := Reference.service)
    (PF := Reference.platform ∅ None Reference.no_upload)
    request (from_deprecated_string "edX/Demo/2015") (Some "t1") None
    Reference.store1))
  = Some (Remote (Save KComment new))
  /\ new !! "user_id" = Some (PInt (user_id Reference.bob))
  /\ new !! "anonymous_to_peers" = Some (PBool false).
Proof.
  intros request new.
  assert (head (trace (_create_comment (CS := Reference.service)
    (PF := Reference.platform ∅ None Reference.no_upload)
    request (from_deprecated_string "edX/Demo/2015") (Some "t1") None
    Reference.store1)) = Some (Remote (Save KComment new))) as Hhead
    by reflexivity.
  split; [exact Hhead|].
  destruct (created_comment_fields (CS := Reference.service)
    (PF := Reference.platform ∅ None Reference.no_upload)
    request (from_deprecated_string "edX/Demo/2015") (Some "t1") None
    Reference.store1 new (head_elem_of _ _ Hhead))
    as (course & body & Hcourse & _ & _ & Huser & _ & _ & _ & _ & Hpeers & _).
  injection Hcourse as <-.
  split; [exact Huser | exact Hpeers].
Defined.

(** X19, an instance: a comment with subscription, notifications on; the
    only calls to the comment service are the save and the subscription. *)
Lemma create_comment_calls_witness :
  let request :=
    Reference.request_by Reference.bob
      [("body", "Thanks"); ("auto_subscribe", "true")] in
  let new : Attrs :=
    <["anonymous" := PBool false]> (
    <["anonymous_to_peers" := PBool false]> (
    <["user_id" := PInt 8]> (
    <["course_id" := PStr "edX/Demo/2015"]> (
    <["thread_id" := PStr "t1"]> (
    <["parent_id" := PNone]> (
    <["body" := PStr "Thanks"]> ∅)))))) in
  exists rest,
    trace (_create_comment (CS := Reference.service)
      (PF := Reference.platform Reference.enabled None Reference.no_upload)
      request (from_deprecated_string "edX/Demo/2015") (Some "t1") None
      Reference.store1)
    = Remote (Save KComment new) :: rest
    /\ forall c, Remote c ∈ rest ->
         c = Follow Reference.bob KThread
               (<["id" := PStr "t1"]> {[ "type" := PStr "thread" ]}).
Proof.
  intros request new.
  destruct (create_comment_calls (CS := Reference.service)
    (PF := Reference.platform Reference.enabled None Reference.no_upload)
    request (from_deprecated_string "edX/Demo/2015") (Some "t1") None
    Reference.store1 new eq_refl) as (rest & Htrace & Hrest).
  exists rest. split; [exact Htrace|].
  intros c Hc. exact (proj2 (Hrest c Hc)).
Defined.

(** X20, an instance: with the maximum 3, a reply to the comment of depth 1
    is saved with that comment as parent. *)
Lemma reply_below_the_limit_witness :
  let request := Reference.request_by Reference.alice [("body", "Thanks")] in
  let new : Attrs :=
    <["anonymous" := PBool false]> (
    <["anonymous_to_peers" := PBool false]> (
    <["user_id" := PInt 7]> (
    <["course_id" := PStr "edX/Demo/2015"]> (
    <["thread_id" := PNone]> (
    <["parent_id" := PStr "c1"]> (
    <["body" := PStr "Thanks"]> ∅)))))) in
  let r :=
    create_sub_comment (CS := Reference.service)
      (PF := Reference.platform Reference.enabled (Some 3) Reference.no_upload)
      request "edX/Demo/2015" "c1" Reference.store1 in
  publishes (trace r) = false
  /\ head (trace r) = Some (Remote (Save KComment new))
  /\ new !! "parent_id" = Some (PStr "c1").
Proof.
  intros request new r.
  assert (head (trace r) = Some (Remote (Save KComment new))) as Hhead
    by reflexivity.
  destruct (reply_below_the_limit (CS := Reference.service)
    (PF := Reference.platform Reference.enabled (Some 3) Reference.no_upload)
    request "edX/Demo/2015" "c1" Reference.store1) as (_ & Hquiet & Hnew).
  { right. exists 3, Reference.comment1, 1.
    split_and!; [reflexivity | reflexivity | reflexivity | lia]. }
  split; [exact Hquiet|]. split; [exact Hhead|].
  exact (proj1 (Hnew new (head_elem_of _ _ Hhead))).
Defined.

(** ** Upload and unflagging: what the responses and errors look like *)

Section UploadEnvelope.

Context {Store : Type} {CS : CommentService Store} {PF : Platform}.

(** X21.  Whenever [upload] answers, the answer is the result envelope, and
    it is either a success (message "Good", no error) or a failure (no
    message, no file URL, and an error text that is not empty); [upload]
    sends nothing to the comment service or the publisher. *)
Theorem upload_answers_success_or_error
    (request : Request) (course_id now : string) (rnd : Z) (s : Store)
    (response : Response) :
  let r := upload request course_id now rnd s in
  result r = Returned response ->
  trace r = [] /\ final r = s
  /\ exists msg error file_url,
       response = upload_result msg error file_url
       /\ ((msg = "Good" /\ error = "")
           \/ (msg = "" /\ file_url = "" /\ error <> "")).
Proof.
  intros r. subst r.
  pose proof (upload_outcome_of request course_id now rnd s) as H.
  destruct (store_uploaded_file _ _ _ _ _) as [file_storage name|err|err];
    rewrite H; clear H.
  - intros [= <-]. split_and!; [done..|].
    eexists _, _, _. split; [done|]. by left.
  - destruct (String.eqb_spec err ""); [done|].
    intros [= <-]. split_and!; [done..|].
    eexists _, _, _. split; [done|]. by right.
  - intros [= <-]. split_and!; [done..|].
    eexists _, _, _. split; [done|]. by right.
Qed.

(** X22.  The unflag handlers load the course before anything else: when
    the course does not exist they end in [Http404] and send nothing, and
    when the course exists but the flagged entity does not they end in the
    not-found error of the client and send nothing. *)
Theorem unflag_needs_course_and_target
    (request : Request) (course_id id : string) (s : Store) :
  let course := get_course_by_id (from_deprecated_string course_id) in
  (course = None ->
   un_flag_abuse_for_thread request course_id id s = (Raised Http404, s, [])
   /\ un_flag_abuse_for_comment request course_id id s
      = (Raised Http404, s, []))
  /\ (is_Some course ->
      (find KThread s id = None ->
       un_flag_abuse_for_thread request course_id id s
       = (Raised CommentClientRequestError, s, []))
      /\ (find KComment s id = None ->
          un_flag_abuse_for_comment request course_id id s
          = (Raised CommentClientRequestError, s, []))).
Proof.
  intros course. subst course.
  unfold un_flag_abuse_for_thread, un_flag_abuse_for_comment.
  destruct (get_course_by_id _) as [course|]; split.
  - done.
  - intros _. rewrite !bind_expect_some. unfold bind, cc_find.
    split; by intros ->.
  - done.
  - by intros [? [=]].
Qed.

End UploadEnvelope.

(** X21, an instance: a file of a type that is not allowed. *)
Lemma upload_envelope_witness :
  let r :=
    upload (Store := Reference.store)
      (PF := Reference.platform ∅ None
         (PermissionDenied "The file must end with one of: .jpg, .png"))
      (Reference.request_by Reference.bob []) "edX/Demo/2015" "1437.25" 5
      Reference.store1 in
  exists error,
    result r = Returned (upload_result "" error "") /\ error <> "".
Proof.
  intros r.
  destruct (upload_answers_success_or_error (Store := Reference.store)
    (PF := Reference.platform ∅ None
       (PermissionDenied "The file must end with one of: .jpg, .png"))
    (Reference.request_by Reference.bob []) "edX/Demo/2015" "1437.25" 5
    Reference.store1 _ eq_refl)
    as (_ & _ & msg & error & file_url & Hresp & [(Hmsg & _)|(_ & _ & Herr)]).
  - injection Hresp as <- _ _. discriminate Hmsg.
  - exists error. injection Hresp as _ <- _. split; [reflexivity | exact Herr].
Defined.

(** X22, an instance: unflagging in a course that does not exist. *)
Lemma unflag_missing_course_witness :
  un_flag_abuse_for_thread (CS := Reference.service)
    (PF := Reference.platform ∅ None Reference.no_upload)
    (Reference.request_by Reference.moderator []) "edX/Gone/2015" "t1"
    Reference.store1
  = (Raised Http404, Reference.store1, []).
Proof.
  exact (proj1 (proj1 (unflag_needs_course_and_target
    (CS := Reference.service)
    (PF := Reference.platform ∅ None Reference.no_upload)
    (Reference.request_by Reference.moderator []) "edX/Gone/2015" "t1"
    Reference.store1) eq_refl)).
Defined.

(** ** The AJAX flag *)

Section Ajax.

Context {Store : Type} {CS : CommentService Store} {PF : Platform}.

Local Abbreviation M := (M (Store := Store)).

Lemma same_calls_refl {A} (m : M A) : same_calls m m.
Proof. by intros s. Qed.

Lemma same_calls_reads {A B} (m : M A) (m' : M B) :
  reads_only m -> reads_only m' -> same_calls m m'.
Proof.
  intros Hm Hm' s. destruct (Hm s) as (-> & ->), (Hm' s) as (-> & ->). done.
Qed.

Lemma same_calls_bind {A B C} (m : M A) (f : A -> M B) (f' : A -> M C) :
  (forall a, same_calls (f a) (f' a)) -> same_calls (bind m f) (bind m f').
Proof.
  intros Hf s. unfold bind, trace, final.
  destruct (m s) as [[[a|e] s1] t1]; [|done].
  destruct (Hf a s1) as (Ht & Hs). unfold trace, final in Ht, Hs.
  destruct (f a s1) as [[r s2] t2], (f' a s1) as [[r' s2'] t2'].
  simpl in *. by subst.
Qed.

Lemma reads_only_content_response' request course_key content (b : bool) :
  reads_only
    (if b then ajax_content_response (Store := Store) request course_key content
     else ret (JsonResponse (prepare_content content course_key))).
Proof. destruct b; [apply reads_only_ajax | apply reads_only_ret]. Qed.

End Ajax.

Ltac same_calls_tac :=
  repeat first
    [ apply same_calls_refl
    | apply same_calls_reads;
        [ first [apply reads_only_content_response' | apply reads_only_ret
                | apply reads_only_tail | apply reads_only_ajax ]
        | first [apply reads_only_content_response' | apply reads_only_ret
                | apply reads_only_tail | apply reads_only_ajax ] ]
    | apply same_calls_bind; intros ?
    | case_match ].

Section AjaxViews.

Context {Store : Type} {CS : CommentService Store} {PF : Platform}.

Lemma same_calls_create_thread b request course_id commentable_id :
  (forall k c, get_group_id_for_comments_service (with_ajax b request) k c
               = get_group_id_for_comments_service request k c) ->
  same_calls (create_thread (Store := Store) (with_ajax b request) course_id commentable_id)
    (create_thread request course_id commentable_id).
Proof.
  intros Hg. unfold create_thread, content_response. rewrite Hg. simpl.
  same_calls_tac.
Qed.

Lemma same_calls__create_comment b request ck tid pid :
  same_calls (_create_comment (Store := Store) (with_ajax b request) ck tid pid)
    (_create_comment request ck tid pid).
Proof.
  unfold _create_comment, notify_author. simpl.
  same_calls_tac.
Qed.

Lemma same_calls_view_function b v clock kwargs request :
  (forall k c, get_group_id_for_comments_service (with_ajax b request) k c
               = get_group_id_for_comments_service request k c) ->
  (forall key types name size,
     store_uploaded_file (with_ajax b request) key types name size
     = store_uploaded_file request key types name size) ->
  same_calls (view_function (Store := Store) v clock kwargs (with_ajax b request))
    (view_function v clock kwargs request).
Proof.
  intros Hg Hu.
  destruct v; simpl; unfold with_args, arg;
    repeat case_match; try apply same_calls_refl.
  all: try (by apply same_calls_create_thread).
  all: try (unfold create_comment, create_sub_comment;
            repeat first
              [ apply same_calls_refl
              | apply same_calls__create_comment
              | apply same_calls_bind; intros ?
              | case_match ]; fail).
  all: try (unfold update_thread, update_comment, content_response; simpl;
            same_calls_tac; fail).
  all: try (unfold vote_for_thread, follow_thread, notify_author; simpl;
            same_calls_tac; fail).
  - unfold upload. rewrite Hu. apply same_calls_refl.
Qed.

(** X23.  Whether a request is an AJAX request changes the shape of the
    response and nothing else: for every view the same calls are sent and
    the comment service is left in the same state (for a cohort resolution
    and a file storage that do not look at the AJAX flag themselves). *)
Theorem ajax_flag_changes_no_call
    (b : bool) (v : View) (clock : Clock) (kwargs : gmap string string)
    (request : Request) (s : Store) :
  (forall k c, get_group_id_for_comments_service (with_ajax b request) k c
               = get_group_id_for_comments_service request k c) ->
  (forall key types name size,
     store_uploaded_file (with_ajax b request) key types name size
     = store_uploaded_file request key types name size) ->
  trace (dispatch v clock kwargs (with_ajax b request) s)
  = trace (dispatch v clock kwargs request s)
  /\ final (dispatch v clock kwargs (with_ajax b request) s)
     = final (dispatch v clock kwargs request s).
Proof.
  intros Hg Hu. revert s.
  change (same_calls (dispatch v clock kwargs (with_ajax b request))
            (dispatch v clock kwargs request)).
  unfold dispatch. destruct (gated v).
  - unfold permitted. simpl.
    apply same_calls_bind. intros course_id.
    apply same_calls_bind. intros content.
    destruct (check_permissions_by_view _ _ _ _); [|apply same_calls_refl].
    by apply same_calls_view_function.
  - by apply same_calls_view_function.
Qed.

End AjaxViews.

(** X23, an instance: alice updates her thread from a page and from a
    script. *)
Lemma ajax_witness :
  let request :=
    Reference.request_by Reference.alice [("title", "T"); ("body", "B")] in
  trace (dispatch (CS := Reference.service)
    (PF := Reference.platform ∅ None Reference.no_upload)
    update_thread_view noon (route_to "thread_id" "t1")
    (with_ajax true request) Reference.store1)
  = trace (dispatch (CS := Reference.service)
      (PF := Reference.platform ∅ None Reference.no_upload)
      update_thread_view noon (route_to "thread_id" "t1")
      request Reference.store1).
Proof.
  intros request.
  exact (proj1 (ajax_flag_changes_no_call (CS := Reference.service)
    (PF := Reference.platform ∅ None Reference.no_upload)
    true update_thread_view noon (route_to "thread_id" "t1") request
    Reference.store1 (fun _ _ => eq_refl) (fun _ _ _ _ => eq_refl))).
Defined.
